(** * Weather-Forecast health monitor (src/monitor.py): a shallow embedding

    The class [ForecastMonitor] keeps one JSON document ([health_data]) in
    memory, rewrites it to [MONITOR_FILE] after every recorded attempt and
    derives a status per location from it.  The document is an ordinary
    Python object tree (dicts, lists, strings, ints, [None]); the embedding
    keeps it that way: values are [pyval], a failing operation returns
    [Raise e], and the wall clock readings of [datetime.utcnow()] are
    arguments of the operation that reads them. *)

From Stdlib Require Import ZArith List String Ascii Bool Lia.
From Stdlib Require QArith.
From Stdlib Require SpecFloat.
Import ListNotations.

Local Open Scope string_scope.
Local Open Scope Z_scope.

(* ================================================================== *)
(** * Python values, dictionaries and exceptions *)
(* ================================================================== *)

Module Py.

(** The values [json.load] can return and [json.dump] can write.  Numbers
    are the integers: the monitor itself stores no other number.  A string
    is a sequence of characters with code points below 256. *)
#[local] Unset Elimination Schemes.
Inductive pyval : Type :=
| PNone
| PBool (b : bool)
| PInt (n : Z)
| PStr (s : string)
| PList (l : list pyval)
| PDict (d : list (string * pyval)).
#[local] Set Elimination Schemes.

(** Induction on values, with the hypothesis for every element of a list
    and every value of a dict. *)
Fixpoint pyval_ind (P : pyval -> Prop)
  (fnone : P PNone)
  (fbool : forall b, P (PBool b))
  (fint : forall n, P (PInt n))
  (fstr : forall s, P (PStr s))
  (flist : forall l, Forall P l -> P (PList l))
  (fdict : forall d, Forall (fun kv => P (snd kv)) d -> P (PDict d))
  (v : pyval) : P v :=
  match v with
  | PNone => fnone
  | PBool b => fbool b
  | PInt n => fint n
  | PStr s => fstr s
  | PList l =>
      flist l
        ((fix elems (l : list pyval) : Forall P l :=
            match l with
            | [] => Forall_nil P
            | x :: xs =>
                Forall_cons x (pyval_ind P fnone fbool fint fstr flist fdict x)
                  (elems xs)
            end) l)
  | PDict d =>
      fdict d
        ((fix members (d : list (string * pyval))
            : Forall (fun kv => P (snd kv)) d :=
            match d with
            | [] => Forall_nil _
            | kv :: xs =>
                Forall_cons kv
                  (pyval_ind P fnone fbool fint fstr flist fdict (snd kv))
                  (members xs)
            end) d)
  end.

(** A [dict] keeps its keys in insertion order ([get_alert_summary] and
    [json.dump] walk it in that order), so it is an association list. *)
Definition dict := list (string * pyval).

Fixpoint dict_get (k : string) (d : dict) : option pyval :=
  match d with
  | [] => None
  | (k', v) :: r => if String.eqb k k' then Some v else dict_get k r
  end.

(** [d[k] = v]: an existing key keeps its place, a new key goes last. *)
Fixpoint dict_set (k : string) (v : pyval) (d : dict) : dict :=
  match d with
  | [] => [(k, v)]
  | (k', v') :: r =>
      if String.eqb k k' then (k, v) :: r else (k', v') :: dict_set k v r
  end.

Definition dict_mem (k : string) (d : dict) : bool :=
  match dict_get k d with Some _ => true | None => false end.

Fixpoint distinct (l : list string) : bool :=
  match l with
  | [] => true
  | k :: r => negb (existsb (String.eqb k) r) && distinct r
  end.

(** A Python dict has each key once; an association list is a dict when
    its keys are distinct, at every depth. *)
Fixpoint unique_keys (v : pyval) : bool :=
  match v with
  | PList l => forallb unique_keys l
  | PDict d => distinct (map fst d) && forallb (fun kv => unique_keys (snd kv)) d
  | _ => true
  end.

Inductive exn : Type :=
| KeyError | TypeError | ValueError | AttributeError.

Inductive result (A : Type) : Type :=
| Ok (a : A)
| Raise (e : exn).
Arguments Ok {A} a.
Arguments Raise {A} e.

Definition bind {A B} (m : result A) (f : A -> result B) : result B :=
  match m with Ok a => f a | Raise e => Raise e end.

(** [try: m  except Exception: dflt] *)
Definition try_except {A} (m : result A) (dflt : A) : A :=
  match m with Ok a => a | Raise _ => dflt end.

(** Truth value of an object in [if v:] *)
Definition truthy (v : pyval) : bool :=
  match v with
  | PNone => false
  | PBool b => b
  | PInt n => negb (n =? 0)
  | PStr s => negb (String.eqb s "")
  | PList l => match l with [] => false | _ => true end
  | PDict d => match d with [] => false | _ => true end
  end.

(** [v[k]] with a string key *)
Definition getitem (v : pyval) (k : string) : result pyval :=
  match v with
  | PDict d => match dict_get k d with Some x => Ok x | None => Raise KeyError end
  | _ => Raise TypeError
  end.

(** [v[k] = x] with a string key *)
Definition setitem (v : pyval) (k : string) (x : pyval) : result pyval :=
  match v with
  | PDict d => Ok (PDict (dict_set k x d))
  | _ => Raise TypeError
  end.

(** [v.get(k, dflt)]; the monitor calls it on a value that an earlier
    subscript has already shown to be a dict. *)
Definition get_default (v : pyval) (k : string) (dflt : pyval) : result pyval :=
  match v with
  | PDict d => Ok (match dict_get k d with Some x => x | None => dflt end)
  | _ => Raise AttributeError
  end.

Fixpoint prefixb (p s : string) : bool :=
  match p, s with
  | EmptyString, _ => true
  | String a p', String b s' => Ascii.eqb a b && prefixb p' s'
  | String _ _, EmptyString => false
  end.

Fixpoint substringb (p s : string) : bool :=
  prefixb p s || match s with EmptyString => false | String _ s' => substringb p s' end.

(** [k in v] for a string [k]: key of a dict, element of a list, substring
    of a string; anything else is not iterable. *)
Definition contains (v : pyval) (k : string) : result bool :=
  match v with
  | PDict d => Ok (dict_mem k d)
  | PList l =>
      Ok (existsb (fun x => match x with PStr s => String.eqb s k | _ => false end) l)
  | PStr s => Ok (substringb k s)
  | _ => Raise TypeError
  end.

(** [v + 1] as used by [loc[k] += 1] *)
Definition add_one (v : pyval) : result pyval :=
  match v with
  | PInt n => Ok (PInt (n + 1))
  | PBool b => Ok (PInt ((if b then 1 else 0) + 1))
  | _ => Raise TypeError
  end.

(** [v[k] += 1] *)
Definition iadd_one (v : pyval) (k : string) : result pyval :=
  bind (getitem v k) (fun old =>
  bind (add_one old) (fun new => setitem v k new)).

(** [v.append(x)] *)
Definition append (v x : pyval) : result pyval :=
  match v with
  | PList l => Ok (PList (l ++ [x]))
  | _ => Raise AttributeError
  end.

Definition of_option_str (o : option string) : pyval :=
  match o with Some s => PStr s | None => PNone end.

(** [s.replace(c, t)] for a one-character [c] *)
Fixpoint replace_char (c : ascii) (t : string) (s : string) : string :=
  match s with
  | EmptyString => EmptyString
  | String a r =>
      if Ascii.eqb a c then t ++ replace_char c t r
      else String a (replace_char c t r)
  end.

(** [str(n)] for an int *)
Fixpoint digits_pos (fuel : nat) (n : Z) (acc : string) : string :=
  match fuel with
  | O => acc
  | S f =>
      let acc' := String (ascii_of_N (Z.to_N (48 + n mod 10))) acc in
      if n <? 10 then acc' else digits_pos f (n / 10) acc'
  end.

Definition str_of_nonneg (n : Z) : string :=
  digits_pos (S (Z.to_nat (Z.log2 n))) n EmptyString.

Definition str_of_int (n : Z) : string :=
  if n <? 0 then String "-" (str_of_nonneg (- n)) else str_of_nonneg n.

End Py.
Import Py.

Declare Scope py_scope.
Notation "x <- m ;; k" := (bind m (fun x => k))
  (at level 61, m at next level, right associativity) : py_scope.
Local Open Scope py_scope.

(* ================================================================== *)
(** * [datetime]: the part of the standard library the monitor uses *)
(* ================================================================== *)

Module Datetime.

(** A naive [datetime] as Python stores it: calendar fields. *)
Record naive : Type := mkNaive {
  year : Z; month : Z; day : Z;
  hour : Z; minute : Z; second : Z; microsecond : Z
}.

(** A [datetime] is naive ([tzinfo] is [None]) or aware; an aware one
    carries its fixed UTC offset, in microseconds. *)
Record datetime : Type := mkDatetime {
  fields : naive;
  tzinfo : option Z
}.

Definition is_leap (y : Z) : bool :=
  (y mod 4 =? 0) && (negb (y mod 100 =? 0) || (y mod 400 =? 0)).

Definition days_in_month (y m : Z) : Z :=
  if m =? 2 then (if is_leap y then 29 else 28)
  else if (m =? 4) || (m =? 6) || (m =? 9) || (m =? 11) then 30
  else 31.

Definition days_before_year (y : Z) : Z :=
  let p := y - 1 in p * 365 + p / 4 - p / 100 + p / 400.

Fixpoint days_before_month_aux (y : Z) (k : nat) : Z :=
  match k with
  | O => 0
  | S k' => days_before_month_aux y k' + days_in_month y (Z.of_nat k)
  end.

Definition days_before_month (y m : Z) : Z :=
  days_before_month_aux y (Z.to_nat (m - 1)).

(** [date.toordinal()]: 0001-01-01 is day 1. *)
Definition toordinal (d : naive) : Z :=
  days_before_year (year d) + days_before_month (year d) (month d) + day d.

(** The fields as one number of microseconds since 0001-01-01T00:00:00. *)
Definition wall_micros (d : naive) : Z :=
  (((toordinal d - 1) * 24 + hour d) * 60 + minute d) * 60000000
  + second d * 1000000 + microsecond d.

(** The checks of the [datetime] constructor. *)
Definition valid_naive (d : naive) : bool :=
  (1 <=? year d) && (year d <=? 9999) &&
  (1 <=? month d) && (month d <=? 12) &&
  (1 <=? day d) && (day d <=? days_in_month (year d) (month d)) &&
  (0 <=? hour d) && (hour d <=? 23) &&
  (0 <=? minute d) && (minute d <=? 59) &&
  (0 <=? second d) && (second d <=? 59) &&
  (0 <=? microsecond d) && (microsecond d <=? 999999).

Definition day_micros : Z := 86400000000.

(** [timezone(offset)] wants an offset strictly between -24h and 24h. *)
Definition valid_offset (o : Z) : bool :=
  (- day_micros <? o) && (o <? day_micros).

(** [a - b]: a [timedelta], here its exact number of microseconds.
    Mixing a naive and an aware operand is a [TypeError]. *)
Definition sub (a b : datetime) : result Z :=
  match tzinfo a, tzinfo b with
  | None, None => Ok (wall_micros (fields a) - wall_micros (fields b))
  | Some oa, Some ob =>
      Ok ((wall_micros (fields a) - oa) - (wall_micros (fields b) - ob))
  | _, _ => Raise TypeError
  end.

(** [datetime.utcnow()] returns a naive datetime. *)
Definition of_utcnow (now : naive) : datetime := mkDatetime now None.

(** ** Printing: [isoformat()] of a naive datetime *)

Definition digit_char (n : Z) : ascii := ascii_of_N (Z.to_N (48 + n)).

(** [%0kd] for [0 <= n < 10^k], written in front of [tail] *)
Fixpoint pad_digits (k : nat) (n : Z) (tail : string) : string :=
  match k with
  | O => tail
  | S k' => pad_digits k' (n / 10) (String (digit_char (n mod 10)) tail)
  end.

Definition isoformat (d : naive) : string :=
  pad_digits 4 (year d) (String "-" (
  pad_digits 2 (month d) (String "-" (
  pad_digits 2 (day d) (String "T" (
  pad_digits 2 (hour d) (String ":" (
  pad_digits 2 (minute d) (String ":" (
  pad_digits 2 (second d) (
  if microsecond d =? 0 then EmptyString
  else String "." (pad_digits 6 (microsecond d) EmptyString)))))))))))).

(** ** Parsing: [datetime.fromisoformat], the documented grammar
    [YYYY-MM-DD[*HH[:MM[:SS[.fff[fff]]]][+HH:MM[:SS[.ffffff]]]]]
    (Python 3.7 to 3.10; later versions accept more strings). *)

Definition digit (c : ascii) : option Z :=
  let n := Z.of_N (N_of_ascii c) in
  if (48 <=? n) && (n <=? 57) then Some (n - 48) else None.

Fixpoint parse_digits (k : nat) (s : string) (acc : Z) : option (Z * string) :=
  match k with
  | O => Some (acc, s)
  | S k' =>
      match s with
      | String c r =>
          match digit c with
          | Some d => parse_digits k' r (10 * acc + d)
          | None => None
          end
      | EmptyString => None
      end
  end.

(** [.fff] or [.ffffff], to the end of the string *)
Definition parse_fraction (allow3 : bool) (s : string) : option Z :=
  if (String.length s =? 6)%nat then
    match parse_digits 6 s 0 with Some (us, _) => Some us | None => None end
  else if allow3 && (String.length s =? 3)%nat then
    match parse_digits 3 s 0 with Some (ms, _) => Some (ms * 1000) | None => None end
  else None.

(** [HH[:MM[:SS[.fff[fff]]]]], to the end of the string; [need_min] and
    [allow3] tell the time of day ([HH] alone, three-digit fraction) from
    the offset ([HH:MM] at least, six-digit fraction). *)
Definition parse_hh_mm_ss_ff (need_min allow3 : bool) (s : string)
  : option (Z * Z * Z * Z) :=
  match parse_digits 2 s 0 with
  | Some (h, EmptyString) => if need_min then None else Some (h, 0, 0, 0)
  | Some (h, String ":" s1) =>
      match parse_digits 2 s1 0 with
      | Some (m, EmptyString) => Some (h, m, 0, 0)
      | Some (m, String ":" s2) =>
          match parse_digits 2 s2 0 with
          | Some (sec, EmptyString) => Some (h, m, sec, 0)
          | Some (sec, String "." s3) =>
              match parse_fraction allow3 s3 with
              | Some us => Some (h, m, sec, us)
              | None => None
              end
          | _ => None
          end
      | _ => None
      end
  | _ => None
  end.

(** Split the time string at the first sign character. *)
Fixpoint split_offset (s : string) : string * option (bool * string) :=
  match s with
  | EmptyString => (EmptyString, None)
  | String c r =>
      if Ascii.eqb c "+" then (EmptyString, Some (false, r))
      else if Ascii.eqb c "-" then (EmptyString, Some (true, r))
      else let '(t, o) := split_offset r in (String c t, o)
  end.

(** The offset in microseconds.  An offset of no whole second is UTC,
    whatever its fraction says (CPython's [datetime] module takes
    [timezone.utc] when the seconds of the offset are 0). *)
Definition parse_offset (o : option (bool * string)) : option (option Z) :=
  match o with
  | None => Some None
  | Some (neg, s) =>
      match parse_hh_mm_ss_ff true false s with
      | Some (h, m, sec, us) =>
          let seconds := (h * 60 + m) * 60 + sec in
          let off := if seconds =? 0 then 0 else seconds * 1000000 + us in
          Some (Some (if neg then - off else off))
      | None => None
      end
  end.

Definition parse_isoformat (s : string) : option datetime :=
  match parse_digits 4 s 0 with
  | Some (y, String "-" s1) =>
      match parse_digits 2 s1 0 with
      | Some (mo, String "-" s2) =>
          match parse_digits 2 s2 0 with
          | Some (d, EmptyString) =>
              Some (mkDatetime (mkNaive y mo d 0 0 0 0) None)
          | Some (d, String _ t) =>
              let '(tstr, ostr) := split_offset t in
              match parse_hh_mm_ss_ff false true tstr, parse_offset ostr with
              | Some (h, mi, sec, us), Some tz =>
                  Some (mkDatetime (mkNaive y mo d h mi sec us) tz)
              | _, _ => None
              end
          | None => None
          end
      | _ => None
      end
  | _ => None
  end.

Definition valid_datetime (d : datetime) : bool :=
  valid_naive (fields d) &&
  match tzinfo d with None => true | Some o => valid_offset o end.

(** [datetime.fromisoformat(s)] of Python 3.7 to 3.10 for a string [s]:
    [ValueError] when the string is not in the grammar above or a field is
    out of range. *)
Definition fromisoformat_3_7 (s : string) : result datetime :=
  match parse_isoformat s with
  | Some d => if valid_datetime d then Ok d else Raise ValueError
  | None => Raise ValueError
  end.

(** Every format starts with the four digits of the year. *)
Definition starts_with_digit (s : string) : bool :=
  match s with
  | String c _ => match digit c with Some _ => true | None => false end
  | EmptyString => false
  end.

(** [datetime.fromisoformat] is the interpreter's, and the repository does
    not say which interpreter runs it: from Python 3.11 on it reads more
    strings than the grammar above (a date in basic format, any number of
    fraction digits, a "Z" offset).  The monitor is modelled for every
    interpreter whose [fromisoformat] reads what Python 3.7 reads, with the
    same result, reads only strings that start with a digit, and raises
    [ValueError] on a string it does not read. *)
Class Interpreter : Type := {
  fromisoformat : string -> result datetime;
  fromisoformat_extends :
    forall s d, fromisoformat_3_7 s = Ok d -> fromisoformat s = Ok d;
  fromisoformat_digit :
    forall s d, fromisoformat s = Ok d -> starts_with_digit s = true;
  fromisoformat_raises :
    forall s e, fromisoformat s = Raise e -> e = ValueError
}.

(** Python 3.7 to 3.10 *)
Definition python_3_7 : Interpreter.
Proof.
  refine {| fromisoformat := fromisoformat_3_7 |}.
  - intros s d H. exact H.
  - intros s d. unfold fromisoformat_3_7, parse_isoformat.
    destruct s as [|c r]; [discriminate|].
    cbn [parse_digits starts_with_digit].
    destruct (digit c); [reflexivity|discriminate].
  - intros s e. unfold fromisoformat_3_7.
    destruct (parse_isoformat s) as [d|]; [destruct (valid_datetime d)|];
      intros H; inversion H; reflexivity.
Defined.

(** An interpreter that reads more: besides the grammar above, a date in
    basic format [YYYYMMDD], as Python 3.11 and later do. *)
Definition fromisoformat_basic (s : string) : result datetime :=
  match fromisoformat_3_7 s with
  | Ok d => Ok d
  | Raise _ =>
      match parse_digits 4 s 0 with
      | Some (y, s1) =>
          match parse_digits 2 s1 0 with
          | Some (mo, s2) =>
              match parse_digits 2 s2 0 with
              | Some (d, EmptyString) =>
                  let dt := mkDatetime (mkNaive y mo d 0 0 0 0) None in
                  if valid_datetime dt then Ok dt else Raise ValueError
              | _ => Raise ValueError
              end
          | None => Raise ValueError
          end
      | None => Raise ValueError
      end
  end.

Definition reads_basic_dates : Interpreter.
Proof.
  refine {| fromisoformat := fromisoformat_basic |}.
  - intros s d H. unfold fromisoformat_basic. rewrite H. reflexivity.
  - intros s d. unfold fromisoformat_basic.
    destruct (fromisoformat_3_7 s) as [d0|e] eqn:E.
    + intros _. exact (fromisoformat_digit (Interpreter := python_3_7) s d0 E).
    + destruct s as [|c r]; [discriminate|].
      cbn [parse_digits starts_with_digit].
      destruct (digit c); [reflexivity|discriminate].
  - intros s e. unfold fromisoformat_basic.
    destruct (fromisoformat_3_7 s) as [d0|e0]; [discriminate|].
    destruct (parse_digits 4 s 0) as [[y s1]|]; [|intros H; inversion H; reflexivity].
    destruct (parse_digits 2 s1 0) as [[mo s2]|]; [|intros H; inversion H; reflexivity].
    destruct (parse_digits 2 s2 0) as [[d [|c r]]|];
      try (intros H; inversion H; reflexivity).
    cbv zeta. destruct (valid_datetime _); intros H; inversion H; reflexivity.
Defined.

Section Interpreted.

Context {python : Interpreter}.

(** [datetime.fromisoformat(v)] for an arbitrary object: a [TypeError]
    unless it is a string. *)
Definition fromisoformat_obj (v : pyval) : result datetime :=
  match v with
  | PStr s => fromisoformat s
  | _ => Raise TypeError
  end.

End Interpreted.

End Datetime.

Import Datetime.

(* ================================================================== *)
(** * [float]: the divisions of [total_seconds()] *)
(* ================================================================== *)

Module Float.

(** A Python [float] is an IEEE 754 binary64 number.  Every finite one is
    a whole number of steps of [2 ^ -1074], and is kept here as that number
    of steps: 1.0 is [2 ^ 1074] steps.  The floats of the monitor are
    spans of time divided by small integers, far from the largest float;
    overflow is not modelled. *)
Definition float : Type := Z.

Definition one : float := 2 ^ 1074.

(** [n / d] to the nearest whole number, a half to the even neighbour;
    [0 <= n] and [0 < d] *)
Definition round_half_even (n d : Z) : Z :=
  let q := n / d in
  match 2 * (n mod d) ?= d with
  | Lt => q
  | Eq => if Z.even q then q else q + 1
  | Gt => q + 1
  end.

(** The float nearest to [n / d], for [0 <= n] and [0 < d]: the quotient,
    in steps, keeps 53 significant bits and is rounded to the nearest
    multiple of [2 ^ s], a half to the even one; below [2 ^ 52] steps (the
    subnormal numbers) every step counts. *)
Definition nearest (n d : Z) : float :=
  let steps := n * one in
  let s := Z.max 0 (Z.log2 (steps / d) - 52) in
  round_half_even steps (d * 2 ^ s) * 2 ^ s.

(** The correctly rounded quotient [n / d] for [0 < d]; rounding to
    nearest is the same on both sides of zero. *)
Definition div (n d : Z) : float := Z.sgn n * nearest (Z.abs n) d.

(** [n / d] for two [int]s *)
Definition int_truediv (n d : Z) : float := div n d.

(** [x / k] for a float and a positive [int] below [2 ^ 53], which becomes
    a float unchanged *)
Definition truediv_int (x : float) (k : Z) : float := div x (k * one).

(** [int(x)]: towards zero *)
Definition to_int (x : float) : Z := Z.quot x one.

(** [x > k] and [x <= k] for an [int] [k] *)
Definition gt_int (x : float) (k : Z) : bool := k * one <? x.
Definition le_int (x : float) (k : Z) : bool := x <=? k * one.

(** [td.total_seconds()] for a [timedelta] of [span] microseconds:
    the microseconds over [10 ** 6], as [int / int]. *)
Definition total_seconds (span : Z) : float := int_truediv span 1000000.

(** A float of at most 53 significant bits, as a number of steps *)
Definition representable (g : Z) : Prop :=
  exists G t, 0 <= t /\ 0 <= G < 2 ^ 53 /\ g = G * 2 ^ t.

(** What Stdlib's [spec_float] stands for, in steps *)
Definition of_spec (x : SpecFloat.spec_float) : float :=
  match x with
  | SpecFloat.S754_finite false m e => Z.pos m * 2 ^ (e + 1074)
  | SpecFloat.S754_finite true m e => - (Z.pos m * 2 ^ (e + 1074))
  | _ => 0
  end.

End Float.


(* ================================================================== *)
(** * [json]: [json.dump(obj, f, indent=2)] and [json.load(f)] *)
(* ================================================================== *)

Module Json.

Definition code (c : ascii) : Z := Z.of_N (N_of_ascii c).
Definition chr (n : Z) : ascii := ascii_of_N (Z.to_N n).

Definition dquote : ascii := chr 34.
Definition backslash : ascii := chr 92.
Definition newline : ascii := chr 10.

(** ** Writing *)

Definition hex_char (n : Z) : ascii :=
  if n <? 10 then chr (48 + n) else chr (87 + n).

(** [ensure_ascii] escaping of one character: the short escapes, then
    [\u00xy] for everything outside [' '..'~']. *)
Definition escape_char (c : ascii) (tail : string) : string :=
  let n := code c in
  if n =? 34 then String backslash (String dquote tail)
  else if n =? 92 then String backslash (String backslash tail)
  else if n =? 10 then String backslash (String "n" tail)
  else if n =? 13 then String backslash (String "r" tail)
  else if n =? 9 then String backslash (String "t" tail)
  else if n =? 8 then String backslash (String "b" tail)
  else if n =? 12 then String backslash (String "f" tail)
  else if (n <? 32) || (126 <? n) then
    String backslash (String "u" (String "0" (String "0" (
      String (hex_char (n / 16)) (String (hex_char (n mod 16)) tail)))))
  else String c tail.

Fixpoint escape (s : string) (tail : string) : string :=
  match s with
  | EmptyString => tail
  | String c r => escape_char c (escape r tail)
  end.

Definition dump_string (s : string) (tail : string) : string :=
  String dquote (escape s (String dquote tail)).

Fixpoint spaces (n : nat) (tail : string) : string :=
  match n with
  | O => tail
  | S k => String " " (spaces k tail)
  end.

(** A line break and the indentation of nesting depth [level] *)
Definition newline_indent (level : nat) (tail : string) : string :=
  String newline (spaces (2 * level) tail).

Section Items.

(** The elements after the first of a list, and the members after the
    first of a dict, at depth [S level], down to the closing bracket at
    depth [level]; [dump1] writes one value at depth [S level]. *)
Variable dump1 : pyval -> string -> string.
Variable level : nat.
Variable tail : string.

Fixpoint dump_items (l : list pyval) : string :=
  match l with
  | [] => newline_indent level (String "]" tail)
  | y :: ys => String "," (newline_indent (S level) (dump1 y (dump_items ys)))
  end.

Fixpoint dump_members (l : dict) : string :=
  match l with
  | [] => newline_indent level (String "}" tail)
  | (k, y) :: ys =>
      String "," (newline_indent (S level) (dump_string k (
        String ":" (String " " (dump1 y (dump_members ys))))))
  end.

End Items.

(** [dump level v tail]: the text of [v] at nesting depth [level],
    written in front of [tail]. *)
Fixpoint dump (level : nat) (v : pyval) (tail : string) : string :=
  match v with
  | PNone => "null" ++ tail
  | PBool true => "true" ++ tail
  | PBool false => "false" ++ tail
  | PInt n => str_of_int n ++ tail
  | PStr s => dump_string s tail
  | PList [] => "[]" ++ tail
  | PList (x :: xs) =>
      String "[" (newline_indent (S level) (
        dump (S level) x (dump_items (dump (S level)) level tail xs)))
  | PDict [] => "{}" ++ tail
  | PDict ((k, x) :: xs) =>
      String "{" (newline_indent (S level) (dump_string k (String ":" (String " " (
        dump (S level) x (dump_members (dump (S level)) level tail xs))))))
  end.

Definition dumps (v : pyval) : string := dump 0 v EmptyString.

(** ** Reading *)

Definition is_ws (c : ascii) : bool :=
  let n := code c in (n =? 32) || (n =? 9) || (n =? 10) || (n =? 13).

Fixpoint skip_ws (s : string) : string :=
  match s with
  | String c r => if is_ws c then skip_ws r else s
  | EmptyString => s
  end.

Definition hex_val (c : ascii) : option Z :=
  let n := code c in
  if (48 <=? n) && (n <=? 57) then Some (n - 48)
  else if (97 <=? n) && (n <=? 102) then Some (n - 87)
  else if (65 <=? n) && (n <=? 70) then Some (n - 55)
  else None.

(** The character of a [\uXXXX] escape.  Characters are the code points
    below 256; an escape of a higher code point is outside the model. *)
Definition unicode_escape (a b c d : ascii) : option ascii :=
  match hex_val a, hex_val b, hex_val c, hex_val d with
  | Some x, Some y, Some z, Some w =>
      let n := ((x * 16 + y) * 16 + z) * 16 + w in
      if n <? 256 then Some (chr n) else None
  | _, _, _, _ => None
  end.

Definition simple_escape (e : ascii) : option ascii :=
  let n := code e in
  if n =? 34 then Some dquote
  else if n =? 92 then Some backslash
  else if n =? 47 then Some (chr 47)
  else if n =? 98 then Some (chr 8)
  else if n =? 102 then Some (chr 12)
  else if n =? 110 then Some (chr 10)
  else if n =? 114 then Some (chr 13)
  else if n =? 116 then Some (chr 9)
  else None.

(** The rest of a string literal after its opening quote (strict mode:
    a raw control character is an error). *)
Fixpoint parse_string_body (s : string) : option (string * string) :=
  match s with
  | EmptyString => None
  | String c r =>
      if code c =? 34 then Some (EmptyString, r)
      else if code c =? 92 then
        match r with
        | String e r1 =>
            if code e =? 117 then
              match r1 with
              | String h1 (String h2 (String h3 (String h4 r2))) =>
                  match unicode_escape h1 h2 h3 h4, parse_string_body r2 with
                  | Some u, Some (str, rest) => Some (String u str, rest)
                  | _, _ => None
                  end
              | _ => None
              end
            else
              match simple_escape e, parse_string_body r1 with
              | Some u, Some (str, rest) => Some (String u str, rest)
              | _, _ => None
              end
        | EmptyString => None
        end
      else if code c <? 32 then None
      else
        match parse_string_body r with
        | Some (str, rest) => Some (String c str, rest)
        | None => None
        end
  end.

Fixpoint take_digits (s : string) (acc : Z) : Z * string :=
  match s with
  | String c r =>
      match digit c with
      | Some d => take_digits r (10 * acc + d)
      | None => (acc, s)
      end
  | EmptyString => (acc, s)
  end.

(** A number with a fraction or an exponent is a float: outside the model. *)
Definition starts_float_part (s : string) : bool :=
  match s with
  | String c _ => let n := code c in (n =? 46) || (n =? 101) || (n =? 69)
  | EmptyString => false
  end.

(** [0] or a digit run without a leading zero *)
Definition parse_nat (s : string) : option (Z * string) :=
  match s with
  | String c r =>
      match digit c with
      | Some d =>
          let '(n, rest) := if d =? 0 then (0, r) else take_digits r d in
          if starts_float_part rest then None else Some (n, rest)
      | None => None
      end
  | EmptyString => None
  end.

Definition parse_int (s : string) : option (Z * string) :=
  match s with
  | String c r =>
      if code c =? 45 then
        match parse_nat r with
        | Some (n, rest) => Some (- n, rest)
        | None => None
        end
      else parse_nat s
  | EmptyString => None
  end.

(** The rest of [s] after the expected word [p] *)
Fixpoint expect (p : string) (s : string) : option string :=
  match p, s with
  | EmptyString, _ => Some s
  | String a p', String b s' => if Ascii.eqb a b then expect p' s' else None
  | String _ _, EmptyString => None
  end.

(** One value, then the list elements or the object members that follow
    it; [fuel] bounds the number of nested calls. *)
Fixpoint parse_value (fuel : nat) (s : string) : option (pyval * string) :=
  match fuel with
  | O => None
  | S f =>
      match s with
      | EmptyString => None
      | String c r =>
          let n := code c in
          if n =? 34 then
            match parse_string_body r with
            | Some (str, rest) => Some (PStr str, rest)
            | None => None
            end
          else if n =? 123 then
            match skip_ws r with
            | String c1 r1 =>
                if code c1 =? 125 then Some (PDict [], r1)
                else parse_members f (String c1 r1) []
            | EmptyString => None
            end
          else if n =? 91 then
            match skip_ws r with
            | String c1 r1 =>
                if code c1 =? 93 then Some (PList [], r1)
                else parse_elems f (String c1 r1) []
            | EmptyString => None
            end
          else if n =? 110 then
            match expect "ull" r with Some rest => Some (PNone, rest) | None => None end
          else if n =? 116 then
            match expect "rue" r with Some rest => Some (PBool true, rest) | None => None end
          else if n =? 102 then
            match expect "alse" r with Some rest => Some (PBool false, rest) | None => None end
          else
            match parse_int s with
            | Some (z, rest) => Some (PInt z, rest)
            | None => None
            end
      end
  end

with parse_elems (fuel : nat) (s : string) (acc : list pyval)
  : option (pyval * string) :=
  match fuel with
  | O => None
  | S f =>
      match parse_value f s with
      | Some (v, r) =>
          match skip_ws r with
          | String c r1 =>
              if code c =? 44 then parse_elems f (skip_ws r1) (acc ++ [v])
              else if code c =? 93 then Some (PList (acc ++ [v]), r1)
              else None
          | EmptyString => None
          end
      | None => None
      end
  end

with parse_members (fuel : nat) (s : string) (acc : dict)
  : option (pyval * string) :=
  match fuel with
  | O => None
  | S f =>
      match s with
      | String q r =>
          if code q =? 34 then
            match parse_string_body r with
            | Some (k, r1) =>
                match skip_ws r1 with
                | String col r2 =>
                    if code col =? 58 then
                      match parse_value f (skip_ws r2) with
                      | Some (v, r3) =>
                          match skip_ws r3 with
                          | String c r4 =>
                              if code c =? 44 then
                                parse_members f (skip_ws r4) (dict_set k v acc)
                              else if code c =? 125 then
                                Some (PDict (dict_set k v acc), r4)
                              else None
                          | EmptyString => None
                          end
                      | None => None
                      end
                    else None
                | EmptyString => None
                end
            | None => None
            end
          else None
      | EmptyString => None
      end
  end.

(** The number of nested calls reading a value back takes at most. *)
Fixpoint size (v : pyval) : nat :=
  match v with
  | PList l => S (list_sum (map (fun x => S (size x)) l))
  | PDict d => S (list_sum (map (fun kv => S (size (snd kv))) d))
  | _ => 1
  end.

(** [json.loads]: one value between optional white space, nothing after. *)
Definition loads (s : string) : option pyval :=
  match parse_value (S (String.length s)) (skip_ws s) with
  | Some (v, rest) =>
      match skip_ws rest with
      | EmptyString => Some v
      | String _ _ => None
      end
  | None => None
  end.

(** A number ends where something that is neither a digit nor the start
    of a fraction or an exponent follows. *)
Definition ends_number (tail : string) : Prop :=
  match tail with
  | EmptyString => True
  | String c _ => digit c = None /\ starts_float_part tail = false
  end.

(** The first character of a written value tells what it is. *)
Definition value_head (c : ascii) : Prop :=
  code c = 110 \/ code c = 116 \/ code c = 102 \/ code c = 34 \/
  code c = 91 \/ code c = 123 \/ code c = 45 \/ 48 <= code c <= 57.

(** A written value, with enough fuel and in front of anything that ends
    a number, reads back as itself and leaves what followed it. *)
Definition reads_back (v : pyval) : Prop :=
  unique_keys v = true ->
  forall (level fuel : nat) (tail : string),
    (size v <= fuel)%nat -> ends_number tail ->
    parse_value fuel (dump level v tail) = Some (v, tail).

End Json.

(* ================================================================== *)
(** * [class ForecastMonitor] *)
(* ================================================================== *)

Module Monitor.

Section Interpreted.

Context {python : Interpreter}.

(** What the process sees of [MONITOR_FILE]: its text when the file
    exists, and whether opening it for reading or for writing succeeds. *)
Record filesystem : Type := mkFs {
  monitor_file : option string;
  readable : bool;
  writable : bool
}.

Definition empty_store : pyval :=
  PDict [("locations", PDict []); ("last_updated", PNone)].

(** [_load_health_data]: whatever [json.load] returns when the file
    exists and can be read and parsed, the empty store otherwise. *)
Definition _load_health_data (fs : filesystem) : pyval :=
  match monitor_file fs with
  | Some text =>
      if readable fs then
        match Json.loads text with
        | Some v => v
        | None => empty_store
        end
      else empty_store
  | None => empty_store
  end.

(** [_save_health_data]: a failure is printed and swallowed, the file is
    then left as it was. *)
Definition _save_health_data (health_data : pyval) (fs : filesystem) : filesystem :=
  if writable fs
  then mkFs (Some (Json.dumps health_data)) (readable fs) (writable fs)
  else fs.

(** [__init__] *)
Definition init (fs : filesystem) : pyval := _load_health_data fs.

Definition minute_micros : Z := 60000000.
Definition hour_micros : Z := 3600000000.

(** A century of 36525 days *)
Definition century_micros : Z := 36525 * day_micros.

(** [int(td.total_seconds() / k)] for a [timedelta] of [span]
    microseconds: two float divisions, then the cut towards zero. *)
Definition whole (k span : Z) : Z :=
  Float.to_int (Float.truediv_int (Float.total_seconds span) k).

(** [_calculate_duration]: [int((end - start).total_seconds() / 60)], and
    0 on any exception. *)
Definition _calculate_duration (start_iso end_iso : pyval) : Z :=
  try_except
    (start <- fromisoformat_obj start_iso ;;
     end_ <- fromisoformat_obj end_iso ;;
     span <- sub end_ start ;;
     Ok (whole 60 span))
    0.

(** The record of a location seen for the first time (lines 71-82). *)
Definition new_location (now : string) : pyval :=
  PDict [("first_seen", PStr now);
         ("total_attempts", PInt 0);
         ("successful_attempts", PInt 0);
         ("failed_attempts", PInt 0);
         ("last_success", PNone);
         ("last_failure", PNone);
         ("current_outage_start", PNone);
         ("outage_history", PList []);
         ("last_forecast_time", PNone);
         ("stale_forecast_count", PInt 0)].

(** Lines 97-106: the staleness check, with its own reading [utcnow2] of
    the clock; any exception leaves the record as it is. *)
Definition check_stale (loc : pyval) (forecast_time now : string) (utcnow2 : naive)
  : pyval :=
  try_except
    (forecast_dt <- fromisoformat (replace_char "Z" "+00:00" forecast_time) ;;
     age <- sub (of_utcnow utcnow2) forecast_dt ;;
     let age_hours := Float.truediv_int (Float.total_seconds age) 3600 in
     if Float.gt_int age_hours 12 then
       loc <- iadd_one loc "stale_forecast_count" ;;
       setitem loc "last_stale_warning" (PStr now)
     else Ok loc)
    loc.

(** Lines 93-106: the forecast time is stored as it came, then checked. *)
Definition on_forecast_time (loc : pyval) (forecast_time : option string)
  (now : string) (utcnow2 : naive) : result pyval :=
  match forecast_time with
  | Some ft =>
      if truthy (PStr ft) then
        loc <- setitem loc "last_forecast_time" (PStr ft) ;;
        Ok (check_stale loc ft now utcnow2)
      else Ok loc
  | None => Ok loc
  end.

(** Lines 89-119 *)
Definition on_success (loc : pyval) (forecast_time : option string) (now : string)
  (utcnow2 : naive) : result pyval :=
  loc <- iadd_one loc "successful_attempts" ;;
  loc <- setitem loc "last_success" (PStr now) ;;
  loc <- on_forecast_time loc forecast_time now utcnow2 ;;
  start <- getitem loc "current_outage_start" ;;
  if truthy start then
    let outage_duration := _calculate_duration start (PStr now) in
    history <- getitem loc "outage_history" ;;
    history <- append history
                 (PDict [("start", start); ("end", PStr now);
                         ("duration_minutes", PInt outage_duration)]) ;;
    loc <- setitem loc "outage_history" history ;;
    setitem loc "current_outage_start" PNone
  else Ok loc.

(** Lines 121-127 *)
Definition on_failure (loc : pyval) (error_message : option string) (now : string)
  : result pyval :=
  loc <- iadd_one loc "failed_attempts" ;;
  loc <- setitem loc "last_failure" (PStr now) ;;
  loc <- setitem loc "last_error" (of_option_str error_message) ;;
  start <- getitem loc "current_outage_start" ;;
  if negb (truthy start) then setitem loc "current_outage_start" (PStr now)
  else Ok loc.

(** Lines 84-127: what one attempt does to the record of its location. *)
Definition update_location (loc : pyval) (success : bool)
  (forecast_time error_message : option string) (now : string) (utcnow2 : naive)
  : result pyval :=
  loc <- iadd_one loc "total_attempts" ;;
  loc <- setitem loc "last_attempt" (PStr now) ;;
  if success then on_success loc forecast_time now utcnow2
  else on_failure loc error_message now.

(** [record_attempt].  [utcnow] is the clock reading of line 68, [utcnow2]
    the one of line 99.  The record is a dict inside [health_data] that
    the source updates in place; here it is read, updated and put back.
    When the call raises, the source leaves a partly updated store behind;
    the result [Raise e] does not keep it. *)
Definition record_attempt (health_data : pyval) (fs : filesystem)
  (location forecast_type : string) (success : bool)
  (forecast_time error_message : option string) (utcnow utcnow2 : naive)
  : result (pyval * filesystem) :=
  let now := isoformat utcnow in
  locations <- getitem health_data "locations" ;;
  known <- contains locations location ;;
  locations <- (if negb known then setitem locations location (new_location now)
                else Ok locations) ;;
  loc <- getitem locations location ;;
  loc <- update_location loc success forecast_time error_message now utcnow2 ;;
  locations <- setitem locations location loc ;;
  health_data <- setitem health_data "locations" locations ;;
  health_data <- setitem health_data "last_updated" (PStr now) ;;
  Ok (health_data, _save_health_data health_data fs).

Definition status (st message : string) (more : dict) : pyval :=
  PDict (("status", PStr st) :: ("message", PStr message) :: more).

(** [get_location_status], evaluated at the clock reading [utcnow]. *)
Definition get_location_status (health_data : pyval) (location : string)
  (utcnow : naive) : result pyval :=
  locations <- getitem health_data "locations" ;;
  known <- contains locations location ;;
  if negb known then Ok (status "unknown" "No forecast attempts recorded" [])
  else
    loc <- getitem locations location ;;
    start <- getitem loc "current_outage_start" ;;
    if truthy start then
      let outage_duration := _calculate_duration start (PStr (isoformat utcnow)) in
      last_error <- get_default loc "last_error" (PStr "Unknown error") ;;
      Ok (status "offline"
            ("API offline for " ++ str_of_int outage_duration ++ " minutes")
            [("outage_start", start); ("last_error", last_error)])
    else
      ls <- getitem loc "last_success" ;;
      if truthy ls then
        last_success <- fromisoformat_obj ls ;;
        time_since <- sub (of_utcnow utcnow) last_success ;;
        if time_since <? 2 * hour_micros then
          count <- get_default loc "stale_forecast_count" (PInt 0) ;;
          let warning (shown : string) :=
            Ok (status "warning"
                  ("API online but serving stale forecasts (" ++ shown ++ " times)")
                  [("last_success", ls)]) in
          let online :=
            lft <- get_default loc "last_forecast_time" PNone ;;
            Ok (status "online" "API operating normally"
                  [("last_success", ls); ("last_forecast_time", lft)]) in
          match count with
          | PInt n => if 0 <? n then warning (str_of_int n) else online
          | PBool b => if b then warning "True" else online
          | _ => Raise TypeError
          end
        else
          Ok (status "stale"
                ("No fresh data for " ++ str_of_int (whole 3600 time_since)
                   ++ " hours")
                [("last_success", ls)])
      else Ok (status "unknown" "No successful fetches yet" []).

(** [check_data_freshness]: every exception means "fresh". *)
Definition check_data_freshness (forecast_data : pyval) (utcnow : naive) : bool :=
  try_except
    (has <- contains forecast_data "updated" ;;
     if has then
       updated <- getitem forecast_data "updated" ;;
       text <- match updated with
               | PStr s => Ok (replace_char "Z" "+00:00" s)
               | _ => Raise AttributeError
               end ;;
       updated_time <- fromisoformat text ;;
       age <- sub (of_utcnow utcnow) updated_time ;;
       let age_hours := Float.truediv_int (Float.total_seconds age) 3600 in
       Ok (Float.le_int age_hours 12)
     else Ok true)
    true.

(** ** Reading a store *)

Definition location_record (health_data : pyval) (location : string) : option pyval :=
  match health_data with
  | PDict d =>
      match dict_get "locations" d with
      | Some (PDict locs) => dict_get location locs
      | _ => None
      end
  | _ => None
  end.

Definition field (loc : pyval) (k : string) : option pyval :=
  match loc with
  | PDict d => dict_get k d
  | _ => None
  end.

Definition status_of (st : pyval) : option pyval := field st "status".
Definition message_of (st : pyval) : option pyval := field st "message".

(** ** Sequences of attempts *)

Record attempt : Type := mkAttempt {
  a_location : string;
  a_forecast_type : string;
  a_success : bool;
  a_forecast_time : option string;
  a_error_message : option string;
  a_utcnow : naive;
  a_utcnow2 : naive
}.

Definition record (st : pyval * filesystem) (a : attempt) : result (pyval * filesystem) :=
  record_attempt (fst st) (snd st) (a_location a) (a_forecast_type a) (a_success a)
    (a_forecast_time a) (a_error_message a) (a_utcnow a) (a_utcnow2 a).

Fixpoint record_all (st : pyval * filesystem) (l : list attempt)
  : result (pyval * filesystem) :=
  match l with
  | [] => Ok st
  | a :: l' => st' <- record st a ;; record_all st' l'
  end.

(** ** Well-formed records and stores

    What [record_attempt] needs of the record it updates, and keeps true:
    three integer counters that add up, the outage marker either [None]
    or a non-empty string, and a list of past outages. *)

Definition locations_of (health_data : pyval) : option dict :=
  match health_data with
  | PDict d =>
      match dict_get "locations" d with
      | Some (PDict locs) => Some locs
      | _ => None
      end
  | _ => None
  end.

Definition counters (loc : pyval) : option (Z * Z * Z) :=
  match field loc "total_attempts", field loc "successful_attempts",
        field loc "failed_attempts" with
  | Some (PInt t), Some (PInt s), Some (PInt f) => Some (t, s, f)
  | _, _, _ => None
  end.

Definition counters_ok (loc : pyval) : bool :=
  match counters loc with
  | Some (t, s, f) => (t =? s + f) && (0 <=? t) && (0 <=? s) && (0 <=? f)
  | None => false
  end.

Definition outage_marker_ok (loc : pyval) : bool :=
  match field loc "current_outage_start" with
  | Some PNone => true
  | Some (PStr s) => negb (String.eqb s "")
  | _ => false
  end.

Definition history_ok (loc : pyval) : bool :=
  match field loc "outage_history" with
  | Some (PList _) => true
  | _ => false
  end.

Definition wf_record (loc : pyval) : bool :=
  counters_ok loc && outage_marker_ok loc && history_ok loc.

Definition wf_store (health_data : pyval) : bool :=
  match locations_of health_data with
  | Some locs => forallb (fun kv => wf_record (snd kv)) locs
  | None => false
  end.

(** The record an attempt starts from: the stored one, or a new one. *)
Definition record_or_new (health_data : pyval) (location now : string) : pyval :=
  match location_record health_data location with
  | Some loc => loc
  | None => new_location now
  end.

(** The outcome of the most recent attempt for [location] in [l] *)
Definition last_outcome (location : string) (l : list attempt) : option bool :=
  match find (fun a => String.eqb (a_location a) location) (rev l) with
  | Some a => Some (a_success a)
  | None => None
  end.


(** The timestamp fields a status is computed from are [None] or parse as
    naive datetimes, as the strings the monitor writes itself do. *)
Definition naive_timestamp (v : pyval) : bool :=
  match v with
  | PStr s =>
      match fromisoformat s with
      | Ok dt => match tzinfo dt with None => true | Some _ => false end
      | Raise _ => false
      end
  | _ => false
  end.

Definition status_fields_ok (loc : pyval) : bool :=
  match field loc "last_success" with
  | Some PNone => true
  | Some v => naive_timestamp v
  | None => false
  end &&
  match field loc "stale_forecast_count" with
  | Some (PInt _) => true
  | _ => false
  end.

(** A store as the monitor builds it *)
Definition own_store (health_data : pyval) : bool :=
  match locations_of health_data with
  | Some locs =>
      forallb (fun kv => wf_record (snd kv) && status_fields_ok (snd kv)) locs
  | None => false
  end.

Definition valid_clock (a : attempt) : bool := valid_naive (a_utcnow a).

Definition known_status (st : pyval) : bool :=
  match status_of st with
  | Some (PStr s) =>
      existsb (String.eqb s) ["unknown"; "offline"; "warning"; "online"; "stale"]
  | _ => false
  end.

Definition marker_of (health_data : pyval) (location : string) : option pyval :=
  match location_record health_data location with
  | Some loc => field loc "current_outage_start"
  | None => None
  end.

Definition outage_open (health_data : pyval) (location : string) : bool :=
  match marker_of health_data location with
  | Some c => truthy c
  | None => false
  end.

Definition history_of (health_data : pyval) (location : string) : list pyval :=
  match location_record health_data location with
  | Some loc =>
      match field loc "outage_history" with
      | Some (PList h) => h
      | _ => []
      end
  | None => []
  end.

Definition outage_event (start : pyval) (now : string) : pyval :=
  PDict [("start", start); ("end", PStr now);
         ("duration_minutes", PInt (_calculate_duration start (PStr now)))].

(** The keys a successful attempt can write *)
Definition success_keys : list string :=
  ["total_attempts"; "last_attempt"; "successful_attempts"; "last_success";
   "last_forecast_time"; "stale_forecast_count"; "last_stale_warning";
   "outage_history"; "current_outage_start"].

(** The keys a failed attempt can write *)
Definition failure_keys : list string :=
  ["total_attempts"; "last_attempt"; "failed_attempts"; "last_failure";
   "last_error"; "current_outage_start"].

End Interpreted.

End Monitor.

Import Monitor.

(* ================================================================== *)
(** * [class ForecastMonitor]: uptime and alerts *)
(* ================================================================== *)

Module Reports.

Section Interpreted.

Context {python : Interpreter}.

(** The float [get_uptime_percentage] returns: the literal [0.0], or
    [(s / t) * 100] for two integers, of which [exact] is the value before
    rounding.  (An integer too large for a float is not modelled.) *)
Inductive percentage : Type :=
| Zero
| Percent (s t : Z).

Definition exact (p : percentage) : QArith_base.Q :=
  match p with
  | Zero => QArith_base.inject_Z 0
  | Percent s t =>
      QArith_base.Qmult
        (QArith_base.Qdiv (QArith_base.inject_Z s) (QArith_base.inject_Z t))
        (QArith_base.inject_Z 100)
  end.

(** The number an object is in arithmetic: an int, or a bool as 0 or 1 *)
Definition as_number (v : pyval) : option Z :=
  match v with
  | PInt n => Some n
  | PBool b => Some (if b then 1 else 0)
  | _ => None
  end.

(** [v == 0]: [False] for everything that is not a number *)
Definition equals_zero (v : pyval) : bool :=
  match as_number v with
  | Some n => n =? 0
  | None => false
  end.

(** [get_uptime_percentage] (lines 204-215) *)
Definition get_uptime_percentage (health_data : pyval) (location : string)
  : result percentage :=
  locations <- getitem health_data "locations" ;;
  known <- contains locations location ;;
  if negb known then Ok Zero
  else
    loc <- getitem locations location ;;
    total <- getitem loc "total_attempts" ;;
    if equals_zero total then Ok Zero
    else
      successful <- getitem loc "successful_attempts" ;;
      match as_number successful, as_number total with
      | Some s, Some t => Ok (Percent s t)
      | _, _ => Raise TypeError
      end.

(** [v.items()] *)
Definition items (v : pyval) : result dict :=
  match v with
  | PDict d => Ok d
  | _ => Raise AttributeError
  end.

(** [v == s] for a string [s] *)
Definition equals_str (v : pyval) (s : string) : bool :=
  match v with
  | PStr x => String.eqb x s
  | _ => false
  end.

Section Alerts.

(** The text in front of the location in the three kinds of alert: a
    marker and one or two spaces.  The markers of the source are written
    with characters beyond the 256 of [string], so they are parameters. *)
Variables (offline_mark warning_mark stale_mark : string).

(** [f"{mark}{location}: {status['message']}"]; the message of a status
    is always a string, other objects are not formatted here. *)
Definition alert_line (mark location : string) (st : pyval) : result string :=
  message <- getitem st "message" ;;
  match message with
  | PStr m => Ok (mark ++ location ++ ": " ++ m)
  | _ => Raise TypeError
  end.

(** The body of the loop of [get_alert_summary] for one location: no
    alert, or one. *)
Definition alert_for (location : string) (st : pyval) : result (list string) :=
  kind <- getitem st "status" ;;
  if equals_str kind "offline" then
    line <- alert_line offline_mark location st ;; Ok [line]
  else if equals_str kind "warning" then
    line <- alert_line warning_mark location st ;; Ok [line]
  else if equals_str kind "stale" then
    line <- alert_line stale_mark location st ;; Ok [line]
  else Ok [].

(** The loop over [locations.items()]; [clock i] is the clock reading the
    [i]-th call of [get_location_status] gets. *)
Fixpoint alerts_from (health_data : pyval) (clock : nat -> naive) (i : nat)
  (l : dict) : result (list string) :=
  match l with
  | [] => Ok []
  | (location, _) :: rest =>
      st <- get_location_status health_data location (clock i) ;;
      here <- alert_for location st ;;
      more <- alerts_from health_data clock (S i) rest ;;
      Ok (here ++ more)%list
  end.

(** [get_alert_summary] (lines 217-236) *)
Definition get_alert_summary (health_data : pyval) (clock : nat -> naive)
  : result (list string) :=
  locations <- getitem health_data "locations" ;;
  l <- items locations ;;
  alerts_from health_data clock 0 l.

End Alerts.

End Interpreted.

End Reports.

Import Reports.

(* ================================================================== *)
(** * What a record should hold, read off the attempts themselves *)
(* ================================================================== *)

Module History.

Section Interpreted.

Context {python : Interpreter}.

(** The attempts for one location, oldest first *)
Definition attempts_for (location : string) (l : list attempt) : list attempt :=
  filter (fun a => String.eqb (a_location a) location) l.

Definition count (p : attempt -> bool) (la : list attempt) : Z :=
  Z.of_nat (List.length (filter p la)).

(** The most recent attempt with property [p] *)
Definition latest (p : attempt -> bool) (la : list attempt) : option attempt :=
  find p (rev la).

Definition failed (a : attempt) : bool := negb (a_success a).

Definition stamp (a : attempt) : pyval := PStr (isoformat (a_utcnow a)).

Definition stamp_of (o : option attempt) : pyval :=
  match o with
  | Some a => stamp a
  | None => PNone
  end.

(** A success that brought a forecast time (a non-empty one) *)
Definition brought_time (a : attempt) : bool :=
  a_success a &&
  match a_forecast_time a with
  | Some ft => negb (String.eqb ft "")
  | None => false
  end.

(** The staleness check of lines 97-106 fires: the forecast time parses as
    a naive datetime more than 12 hours behind the second clock reading. *)
Definition fires (ft : string) (utcnow2 : naive) : bool :=
  match fromisoformat (replace_char "Z" "+00:00" ft) with
  | Ok dt =>
      match tzinfo dt with
      | None => 12 * hour_micros <? wall_micros utcnow2 - wall_micros (fields dt)
      | Some _ => false
      end
  | Raise _ => false
  end.

(** A success whose forecast time is tallied as stale *)
Definition tallied (a : attempt) : bool :=
  a_success a &&
  match a_forecast_time a with
  | Some ft => negb (String.eqb ft "") && fires ft (a_utcnow2 a)
  | None => false
  end.

(** Walking back from the most recent attempt ([r] is newest first): the
    clock reading of the failure that opened the outage still open. *)
Fixpoint open_since (r : list attempt) : option naive :=
  match r with
  | [] => None
  | a :: older =>
      if a_success a then None
      else match open_since older with
           | Some s => Some s
           | None => Some (a_utcnow a)
           end
  end.

(** The outages that were closed, oldest first, each from the failure that
    opened it to the success that closed it ([r] is newest first). *)
Fixpoint closed_outages (r : list attempt) : list (naive * naive) :=
  match r with
  | [] => []
  | a :: older =>
      (closed_outages older ++
       (if a_success a then
          match open_since older with
          | Some s => [(s, a_utcnow a)]
          | None => []
          end
        else []))%list
  end.

Definition event_of (se : naive * naive) : pyval :=
  outage_event (PStr (isoformat (fst se))) (isoformat (snd se)).

(** The locations in the order of their first attempt ([r] newest first) *)
Fixpoint first_seen_order (r : list attempt) : list string :=
  match r with
  | [] => []
  | a :: older =>
      let o := first_seen_order older in
      if existsb (String.eqb (a_location a)) o then o
      else (o ++ [a_location a])%list
  end.

(** What [update_location] does to a record whose counters are [t], [s],
    [f], whose staleness tally is [c], whose outage marker is [start] and
    whose history is [h], written as plain dictionary updates. *)
Definition updated_record (d : dict) (a : attempt) (t s f c : Z) (start : pyval)
  (h : list pyval) : dict :=
  let now := isoformat (a_utcnow a) in
  let d1 := dict_set "last_attempt" (PStr now)
              (dict_set "total_attempts" (PInt (t + 1)) d) in
  if a_success a then
    let d2 := dict_set "last_success" (PStr now)
                (dict_set "successful_attempts" (PInt (s + 1)) d1) in
    let d3 := if brought_time a
              then dict_set "last_forecast_time" (of_option_str (a_forecast_time a)) d2
              else d2 in
    let d4 := if tallied a
              then dict_set "last_stale_warning" (PStr now)
                     (dict_set "stale_forecast_count" (PInt (c + 1)) d3)
              else d3 in
    if truthy start
    then dict_set "current_outage_start" PNone
           (dict_set "outage_history" (PList (h ++ [outage_event start now])) d4)
    else d4
  else
    let d2 := dict_set "last_error" (of_option_str (a_error_message a))
                (dict_set "last_failure" (PStr now)
                   (dict_set "failed_attempts" (PInt (f + 1)) d1)) in
    if truthy start then d2
    else dict_set "current_outage_start" (PStr now) d2.

(** What the record of a location holds besides [first_seen] and
    [last_attempt], in terms of its attempts [la] (oldest first). *)
Record body (la : list attempt) (d : dict) : Prop := {
  d_total : dict_get "total_attempts" d = Some (PInt (Z.of_nat (List.length la)));
  d_successful :
    dict_get "successful_attempts" d = Some (PInt (count a_success la));
  d_failed : dict_get "failed_attempts" d = Some (PInt (count failed la));
  d_last_success :
    dict_get "last_success" d = Some (stamp_of (latest a_success la));
  d_last_failure :
    dict_get "last_failure" d = Some (stamp_of (latest failed la));
  d_last_error :
    dict_get "last_error" d =
    match latest failed la with
    | Some a => Some (of_option_str (a_error_message a))
    | None => None
    end;
  d_marker :
    dict_get "current_outage_start" d =
    Some (match open_since (rev la) with
          | Some s => PStr (isoformat s)
          | None => PNone
          end);
  d_history :
    dict_get "outage_history" d =
    Some (PList (map event_of (closed_outages (rev la))));
  d_forecast_time :
    dict_get "last_forecast_time" d =
    Some (match latest brought_time la with
          | Some a => of_option_str (a_forecast_time a)
          | None => PNone
          end);
  d_tally :
    dict_get "stale_forecast_count" d = Some (PInt (count tallied la));
  d_stale_warning :
    dict_get "last_stale_warning" d =
    match latest tallied la with
    | Some a => Some (stamp a)
    | None => None
    end
}.

(** The record of a location describes its attempts [la]. *)
Definition describes (la : list attempt) (d : dict) : Prop :=
  dict_get "first_seen" d = Some (stamp_of (head la)) /\
  dict_get "last_attempt" d = Some (stamp_of (latest (fun _ => true) la)) /\
  body la d.

(** The stored record of a location whose attempts are [la]: none without
    an attempt. *)
Definition described (la : list attempt) (o : option pyval) : Prop :=
  match la with
  | [] => o = None
  | _ :: _ => exists d, o = Some (PDict d) /\ describes la d
  end.

(** The fields of [new_location] *)
Definition new_fields (now : string) : dict :=
  match new_location now with
  | PDict d => d
  | _ => []
  end.

(** The store and the file after the attempts [l] on a fresh monitor,
    given the records [locs] *)
Definition store_after (locs : dict) (l : list attempt) : pyval :=
  PDict [("locations", PDict locs);
         ("last_updated", stamp_of (latest (fun _ => true) l))].

Definition file_after (hd : pyval) (fs : filesystem) (l : list attempt) : filesystem :=
  match l with
  | [] => fs
  | _ :: _ => _save_health_data hd fs
  end.

(** An outage event with its duration written out: the floor of the
    minutes between its two clock readings *)
Definition exact_event (se : naive * naive) : pyval :=
  PDict [("start", PStr (isoformat (fst se)));
         ("end", PStr (isoformat (snd se)));
         ("duration_minutes",
          PInt ((wall_micros (snd se) - wall_micros (fst se)) / minute_micros))].

(** The clock read [t] less than a century before or after attempt [a] *)
Definition near (t : naive) (a : attempt) : bool :=
  Z.abs (wall_micros t - wall_micros (a_utcnow a)) <? century_micros.

(** Attempts less than a century apart, any two of them *)
Definition close_together (l : list attempt) : bool :=
  forallb (fun a => forallb (near (a_utcnow a)) l) l.

(** Clock readings that do not run backwards, oldest attempt first *)
Fixpoint clock_ordered (la : list attempt) : Prop :=
  match la with
  | [] => True
  | a :: rest =>
      Forall (fun b => wall_micros (a_utcnow a) <= wall_micros (a_utcnow b)) rest /\
      clock_ordered rest
  end.

End Interpreted.

End History.

Import History.

(* ================================================================== *)
(** * [app.py]: the marine forecast read off the text product *)
(* ================================================================== *)

Module App.

(** [s.split('\n')]: the pieces between line feeds, at least one *)
Fixpoint split_lines (s : string) : list string :=
  match s with
  | EmptyString => [EmptyString]
  | String c r =>
      if Json.code c =? 10 then EmptyString :: split_lines r
      else match split_lines r with
           | h :: t => String c h :: t
           | [] => [String c EmptyString]
           end
  end.

(** ['\n'.join(l)] *)
Fixpoint join_lines (l : list string) : string :=
  match l with
  | [] => EmptyString
  | x :: rest =>
      match rest with
      | [] => x
      | _ :: _ => x ++ String Json.newline (join_lines rest)
      end
  end.

(** [c.isspace()] for the characters of [string], code points below 256 *)
Definition is_space (c : ascii) : bool :=
  let n := Json.code c in
  ((9 <=? n) && (n <=? 13)) || ((28 <=? n) && (n <=? 32)) || (n =? 133) || (n =? 160).

Fixpoint lstrip (s : string) : string :=
  match s with
  | EmptyString => EmptyString
  | String c r => if is_space c then lstrip r else s
  end.

Fixpoint rstrip (s : string) : string :=
  match s with
  | EmptyString => EmptyString
  | String c r =>
      match rstrip r with
      | EmptyString => if is_space c then EmptyString else String c EmptyString
      | String _ _ as r' => String c r'
      end
  end.

(** [s.strip()] *)
Definition strip (s : string) : string := rstrip (lstrip s).

(** Line 114: [line.startswith('PKZ') and 'PKZ766' not in line] *)
Definition other_zone (line : string) : bool :=
  prefixb "PKZ" line && negb (substringb "PKZ766" line).

(** Line 116: [line.strip() == '$$'] *)
Definition end_marker (line : string) : bool := String.eqb (strip line) "$$".

(** Lines 103-118: the loop that collects [pkz766_content], run on the
    lines still to come with the flag [in_pkz766] as it stands; a [break]
    ends the list. *)
Fixpoint pkz766_content (in_pkz766 : bool) (lines : list string) : list string :=
  match lines with
  | [] => []
  | line :: rest =>
      if substringb "PKZ766" line then line :: pkz766_content true rest
      else if in_pkz766 then
        if other_zone line then []
        else if end_marker line then []
        else line :: pkz766_content true rest
      else pkz766_content false rest
  end.

Definition text_url : string :=
  "https://tgftp.nws.noaa.gov/data/raw/fz/fzak52.pafc.cwf.alu.txt".

(** [marine_data] with its one zone *)
Definition marine_data (raw_text : string) : pyval :=
  PDict [("PKZ766",
          PDict [("name", PStr "Pribilof Islands Nearshore Waters");
                 ("raw_text", PStr raw_text);
                 ("source", PStr text_url)])].

(** [get_marine_forecast] (lines 87-134), as a function of what
    [session.get] gave: the status code and the text of the response, or
    [None] when the request raised.  The coordinates are not used. *)
Definition get_marine_forecast (response : option (Z * string)) : option pyval :=
  match response with
  | Some (status_code, text_content) =>
      if status_code =? 200 then
        if substringb "PKZ766" text_content then
          match pkz766_content false (split_lines text_content) with
          | [] => None
          | first :: more => Some (marine_data (join_lines (first :: more)))
          end
        else None
      else None
  | None => None
  end.

(** A word without a line feed *)
Fixpoint one_line (s : string) : bool :=
  match s with
  | EmptyString => true
  | String c r => negb (Json.code c =? 10) && one_line r
  end.

End App.

Import App.

(* ================================================================== *)
(** * Sample data used in the examples below *)
(* ================================================================== *)

Module Samples.

Definition t_10_00 : naive := mkNaive 2024 5 1 10 0 0 0.
Definition t_10_10 : naive := mkNaive 2024 5 1 10 10 0 123.
Definition t_10_40 : naive := mkNaive 2024 5 1 10 40 0 5.
Definition t_13_40 : naive := mkNaive 2024 5 1 13 40 0 5.

(** No health file yet; the directory can be written. *)
Definition no_file : filesystem := mkFs None true true.

(** A forecast time 13 hours 40 minutes before [t_10_40], written the two
    ways the upstream API writes it. *)
Definition old_forecast_naive : string := "2024-04-30T21:00:00".
Definition old_forecast_Z : string := "2024-04-30T21:00:00Z".

Definition ok (location : string) (forecast_time : option string) (t : naive)
  : attempt :=
  mkAttempt location "local" true forecast_time None t t.

Definition failed (location error : string) (t : naive) : attempt :=
  mkAttempt location "local" false None (Some error) t t.

(** A health file as another program, or an editor, may have left it:
    the record of "A" has a [last_success] that is not a timestamp. *)
Definition edited_store : pyval :=
  PDict [("locations",
          PDict [("A",
                  PDict [("first_seen", PStr "2024-05-01T10:00:00");
                         ("total_attempts", PInt 1);
                         ("successful_attempts", PInt 1);
                         ("failed_attempts", PInt 0);
                         ("last_success", PStr "yesterday");
                         ("last_failure", PNone);
                         ("current_outage_start", PNone);
                         ("outage_history", PList []);
                         ("last_forecast_time", PNone);
                         ("stale_forecast_count", PInt 0);
                         ("last_attempt", PStr "2024-05-01T10:00:00")])]);
         ("last_updated", PStr "2024-05-01T10:00:00")].

(** A store as the monitor writes it: "A" fetched last at 10:40, no outage. *)
Definition healthy_locations : dict :=
  [("A",
    PDict [("first_seen", PStr "2024-05-01T10:00:00");
           ("total_attempts", PInt 1);
           ("successful_attempts", PInt 1);
           ("failed_attempts", PInt 0);
           ("last_success", PStr "2024-05-01T10:40:00.000005");
           ("last_failure", PNone);
           ("current_outage_start", PNone);
           ("outage_history", PList []);
           ("last_forecast_time", PNone);
           ("stale_forecast_count", PInt 0);
           ("last_attempt", PStr "2024-05-01T10:40:00.000005")])].

Definition healthy_store : pyval :=
  PDict [("locations", PDict healthy_locations);
         ("last_updated", PStr "2024-05-01T10:40:00.000005")].

Definition edited_file : filesystem :=
  mkFs (Some (Json.dumps edited_store)) true true.



(** A fetch for "A" and a failure ten minutes later. *)
Definition fetch_then_failure : list attempt :=
  [ok "A" None t_10_00; failed "A" "timeout" t_10_10].

(** An outage of "A" from 10:00 to 10:40: two failures, then a fetch that
    brings a forecast 13 hours 40 minutes old. *)
Definition outage_and_recovery : list attempt :=
  [failed "A" "timeout" t_10_00; failed "A" "refused" t_10_10;
   ok "A" (Some old_forecast_naive) t_10_40].

(** A store as the monitor writes it: "A" failed at 10:10 and is in an
    outage since. *)
Definition offline_locations : dict :=
  [("A",
    PDict [("first_seen", PStr "2024-05-01T10:10:00.000123");
           ("total_attempts", PInt 1);
           ("successful_attempts", PInt 0);
           ("failed_attempts", PInt 1);
           ("last_success", PNone);
           ("last_failure", PStr "2024-05-01T10:10:00.000123");
           ("current_outage_start", PStr "2024-05-01T10:10:00.000123");
           ("outage_history", PList []);
           ("last_forecast_time", PNone);
           ("stale_forecast_count", PInt 0);
           ("last_attempt", PStr "2024-05-01T10:10:00.000123");
           ("last_error", PStr "timeout")])].

Definition offline_store : pyval :=
  PDict [("locations", PDict offline_locations);
         ("last_updated", PStr "2024-05-01T10:10:00.000123")].

(** A store with two locations: "A" is in an outage, "B" was fetched at
    10:40. *)
Definition mixed_store : pyval :=
  PDict [("locations",
          PDict (offline_locations ++
                 [("B",
                   PDict [("first_seen", PStr "2024-05-01T10:40:00.000005");
                          ("total_attempts", PInt 1);
                          ("successful_attempts", PInt 1);
                          ("failed_attempts", PInt 0);
                          ("last_success", PStr "2024-05-01T10:40:00.000005");
                          ("last_failure", PNone);
                          ("current_outage_start", PNone);
                          ("outage_history", PList []);
                          ("last_forecast_time", PNone);
                          ("stale_forecast_count", PInt 0);
                          ("last_attempt", PStr "2024-05-01T10:40:00.000005")])]));
         ("last_updated", PStr "2024-05-01T10:40:00.000005")].

(** Forecast data whose ["updated"] is 13 hours 40 minutes before
    [t_10_40]. *)
Definition old_forecast_data : pyval := PDict [("updated", PStr old_forecast_naive)].

(** A coastal waters forecast with three zones, each closed by "$$". *)
Definition text_product : string :=
  join_lines ["FZAK52 PAFC 011200"; "";
              "PKZ765-020100-"; "Pribilof Islands Offshore"; ".TODAY...W wind 20 kt."; "$$"; "";
              "PKZ766-020100-"; "Pribilof Islands Nearshore Waters";
              ".TODAY...NW wind 15 kt. Seas 6 ft."; "$$"; "";
              "PKZ767-020100-"; "$$"].

End Samples.

(* ================================================================== *)
(** * Basic facts: dictionaries *)
(* ================================================================== *)

Section DictFacts.

Lemma dict_get_set (k k' : string) (v : pyval) (d : dict) :
  dict_get k (dict_set k' v d) =
  if String.eqb k k' then Some v else dict_get k d.
Proof.
  induction d as [|[k0 v0] d IH]; simpl.
  - destruct (String.eqb k k'); reflexivity.
  - destruct (String.eqb k' k0) eqn:E0; simpl.
    + apply String.eqb_eq in E0; subst k0.
      destruct (String.eqb k k'); reflexivity.
    + destruct (String.eqb k k0) eqn:E1.
      * apply String.eqb_eq in E1; subst k0.
        rewrite String.eqb_sym in E0. rewrite E0. reflexivity.
      * exact IH.
Qed.

Lemma dict_get_set_eq (k : string) (v : pyval) (d : dict) :
  dict_get k (dict_set k v d) = Some v.
Proof. rewrite dict_get_set, String.eqb_refl. reflexivity. Qed.

Lemma dict_get_set_ne (k k' : string) (v : pyval) (d : dict) :
  k <> k' -> dict_get k (dict_set k' v d) = dict_get k d.
Proof.
  intros H. rewrite dict_get_set.
  destruct (String.eqb k k') eqn:E; [apply String.eqb_eq in E; contradiction | reflexivity].
Qed.

Lemma forallb_dict_set (P : pyval -> bool) (k : string) (v : pyval) (d : dict) :
  forallb (fun kv => P (snd kv)) d = true -> P v = true ->
  forallb (fun kv => P (snd kv)) (dict_set k v d) = true.
Proof.
  intros Hd Hv. induction d as [|[k0 v0] d IH]; simpl in *.
  - rewrite Hv. reflexivity.
  - apply andb_true_iff in Hd. destruct Hd as [H0 Hd].
    destruct (String.eqb k k0); simpl.
    + rewrite Hv, Hd. reflexivity.
    + rewrite H0, (IH Hd). reflexivity.
Qed.

Lemma forallb_dict_get (P : pyval -> bool) (k : string) (v : pyval) (d : dict) :
  forallb (fun kv => P (snd kv)) d = true -> dict_get k d = Some v -> P v = true.
Proof.
  intros Hd Hk. induction d as [|[k0 v0] d IH]; simpl in *; [discriminate|].
  apply andb_true_iff in Hd. destruct Hd as [H0 Hd].
  destruct (String.eqb k k0).
  - inversion Hk; subst. exact H0.
  - exact (IH Hd Hk).
Qed.

End DictFacts.

(* ================================================================== *)
(** * Basic facts: [isoformat] and [fromisoformat] *)
(* ================================================================== *)

Section IsoformatFacts.

Lemma digit_digit_char (n : Z) : 0 <= n < 10 -> digit (digit_char n) = Some n.
Proof.
  intros H. unfold digit, digit_char.
  rewrite N_ascii_embedding by lia.
  rewrite Z2N.id by lia.
  replace (48 <=? 48 + n) with true by (symmetry; apply Z.leb_le; lia).
  replace (48 + n <=? 57) with true by (symmetry; apply Z.leb_le; lia).
  cbn [andb]. f_equal. lia.
Qed.

Lemma parse_pad_digits (k : nat) : forall (j : nat) (n : Z) (tail : string) (acc : Z),
  0 <= n < 10 ^ Z.of_nat k ->
  parse_digits (k + j) (pad_digits k n tail) acc =
  parse_digits j tail (acc * 10 ^ Z.of_nat k + n).
Proof.
  induction k as [|k IH]; intros j n tail acc Hn.
  - simpl in *. f_equal. lia.
  - rewrite Nat2Z.inj_succ, Z.pow_succ_r in Hn by lia.
    cbn [pad_digits].
    replace (S k + j)%nat with (k + S j)%nat by lia.
    rewrite IH.
    + cbn [parse_digits].
      rewrite digit_digit_char by (apply Z.mod_pos_bound; lia).
      f_equal.
      rewrite Nat2Z.inj_succ, Z.pow_succ_r by lia.
      pose proof (Z.div_mod n 10 ltac:(lia)). lia.
    + split.
      * apply Z.div_pos; lia.
      * apply Z.div_lt_upper_bound; lia.
Qed.

Lemma parse_pad (k : nat) (n : Z) (tail : string) :
  0 <= n < 10 ^ Z.of_nat k ->
  parse_digits k (pad_digits k n tail) 0 = Some (n, tail).
Proof.
  intros H. pose proof (parse_pad_digits k 0 n tail 0 H) as E.
  rewrite Nat.add_0_r in E. rewrite E. reflexivity.
Qed.

Lemma length_pad_digits (k : nat) : forall (n : Z) (tail : string),
  String.length (pad_digits k n tail) = (k + String.length tail)%nat.
Proof.
  induction k as [|k IH]; intros n tail; simpl; [reflexivity|].
  rewrite IH. simpl. lia.
Qed.

Lemma digit_char_not_sign (n : Z) :
  0 <= n < 10 ->
  Ascii.eqb (digit_char n) "+" = false /\ Ascii.eqb (digit_char n) "-" = false.
Proof.
  intros H.
  assert (D : forall c : ascii, (N_of_ascii c < 48)%N -> Ascii.eqb (digit_char n) c = false).
  { intros c Hc. destruct (Ascii.eqb (digit_char n) c) eqn:E; [|reflexivity].
    apply Ascii.eqb_eq in E. apply (f_equal N_of_ascii) in E.
    unfold digit_char in E. rewrite N_ascii_embedding in E by lia. lia. }
  split; apply D; reflexivity.
Qed.

Lemma split_offset_pad (k : nat) : forall (n : Z) (tail : string),
  split_offset (pad_digits k n tail) =
  let '(t, o) := split_offset tail in (pad_digits k n t, o).
Proof.
  induction k as [|k IH]; intros n tail; simpl.
  - destruct (split_offset tail); reflexivity.
  - rewrite IH. simpl.
    destruct (digit_char_not_sign (n mod 10)) as [E1 E2];
      [apply Z.mod_pos_bound; lia|].
    rewrite E1, E2.
    destruct (split_offset tail); reflexivity.
Qed.

Ltac split_valid H :=
  unfold valid_naive in H;
  repeat (apply andb_true_iff in H; let H' := fresh "V" in destruct H as [H H']);
  repeat match goal with
         | V : (_ <=? _) = true |- _ => apply Z.leb_le in V
         end.

Lemma days_in_month_le (y m : Z) : days_in_month y m <= 31.
Proof.
  unfold days_in_month.
  destruct (m =? 2); [destruct (is_leap y); lia|].
  destruct ((m =? 4) || (m =? 6) || (m =? 9) || (m =? 11)); lia.
Qed.

(** Reading back what [isoformat] wrote gives the same naive datetime. *)
Lemma fromisoformat_3_7_isoformat (d : naive) :
  valid_naive d = true ->
  fromisoformat_3_7 (isoformat d) = Ok (mkDatetime d None).
Proof.
  intros V. pose proof V as V0. split_valid V.
  pose proof (days_in_month_le (year d) (month d)) as Hdim.
  unfold fromisoformat_3_7, parse_isoformat, isoformat.
  rewrite parse_pad by (simpl; lia).
  rewrite parse_pad by (simpl; lia).
  rewrite parse_pad by (simpl; lia).
  rewrite !split_offset_pad.
  assert (T : split_offset
                (if microsecond d =? 0 then EmptyString
                 else String "." (pad_digits 6 (microsecond d) EmptyString)) =
              ((if microsecond d =? 0 then EmptyString
                else String "." (pad_digits 6 (microsecond d) EmptyString)), None)).
  { destruct (microsecond d =? 0); [reflexivity|].
    cbn [split_offset Ascii.eqb Bool.eqb]. rewrite split_offset_pad. reflexivity. }
  cbn [split_offset Ascii.eqb Bool.eqb].
  rewrite !split_offset_pad.
  cbn [split_offset Ascii.eqb Bool.eqb].
  rewrite !split_offset_pad.
  rewrite T.
  unfold parse_hh_mm_ss_ff.
  rewrite parse_pad by (simpl; lia).
  rewrite parse_pad by (simpl; lia).
  rewrite parse_pad by (simpl; lia).
  destruct (microsecond d =? 0) eqn:Eus.
  - apply Z.eqb_eq in Eus. cbn [parse_offset].
    unfold valid_datetime. cbn [fields tzinfo].
    replace (mkNaive (year d) (month d) (day d) (hour d) (minute d) (second d) 0)
      with d by (destruct d; simpl in *; subst; reflexivity).
    rewrite V0. reflexivity.
  - unfold parse_fraction. rewrite length_pad_digits.
    cbn [Nat.add String.length Nat.eqb].
    rewrite parse_pad by (simpl; lia).
    cbn [parse_offset].
    unfold valid_datetime. cbn [fields tzinfo].
    replace (mkNaive (year d) (month d) (day d) (hour d) (minute d) (second d)
               (microsecond d))
      with d by (destruct d; reflexivity).
    rewrite V0. reflexivity.
Qed.

Lemma isoformat_truthy (d : naive) : truthy (PStr (isoformat d)) = true.
Proof. reflexivity. Qed.

End IsoformatFacts.

Section InterpreterFacts.

Context {python : Interpreter}.

(** On every interpreter, reading back what [isoformat] wrote gives the
    same naive datetime. *)
Lemma fromisoformat_isoformat (d : naive) :
  valid_naive d = true ->
  fromisoformat (isoformat d) = Ok (mkDatetime d None).
Proof.
  intros V. apply fromisoformat_extends, fromisoformat_3_7_isoformat. exact V.
Qed.

(** On every interpreter, a string that does not start with a digit is a
    [ValueError]. *)
Lemma fromisoformat_no_digit (s : string) :
  starts_with_digit s = false -> fromisoformat s = Raise ValueError.
Proof.
  intros N. destruct (fromisoformat s) as [d|e] eqn:P.
  - apply fromisoformat_digit in P. rewrite N in P. discriminate P.
  - rewrite (fromisoformat_raises _ _ P). reflexivity.
Qed.

End InterpreterFacts.

(* ================================================================== *)
(** * The float divisions, and when they are exact *)
(* ================================================================== *)

Section FloatFacts.

Import Float.

Lemma round_half_even_between (n d lo hi : Z) :
  0 < d -> lo * d <= n -> n <= hi * d -> lo <= round_half_even n d <= hi.
Proof.
  intros Hd Hlo Hhi. unfold round_half_even.
  pose proof (Z.div_mod n d ltac:(lia)) as E.
  pose proof (Z.mod_pos_bound n d Hd) as M.
  set (q := n / d) in *. set (r := n mod d) in *. clearbody q r.
  assert (Q1 : lo <= q) by nia.
  assert (Q2 : q <= hi) by nia.
  assert (Q3 : 0 < r -> q < hi) by (intros; nia).
  destruct (2 * r ?= d) eqn:C.
  - apply Z.compare_eq_iff in C. destruct (Z.even q); lia.
  - lia.
  - apply Z.compare_gt_iff in C. lia.
Qed.

Lemma nearest_le (n d g : Z) :
  0 <= n -> 0 < d -> representable g -> n * one <= g * d -> nearest n d <= g.
Proof.
  intros Hn Hd (G & t & Ht & HG & ->) H. unfold nearest.
  set (X := n * one) in *.
  assert (HX : 0 <= X) by (unfold X, one; apply Z.mul_nonneg_nonneg; [lia|apply Z.pow_nonneg; lia]).
  clearbody X.
  pose proof (Z.pow_pos_nonneg 2 t ltac:(lia) Ht) as Pt.
  assert (Y : X / d <= G * 2 ^ t) by (apply Z.div_le_upper_bound; lia).
  assert (Y0 : 0 <= X / d) by (apply Z.div_pos; lia).
  destruct (Z.max_spec 0 (Z.log2 (X / d) - 52)) as [[L ->]|[L ->]].
  - set (s := Z.log2 (X / d) - 52) in *.
    assert (Yp : 0 < X / d).
    { destruct (Z.eq_dec (X / d) 0) as [E|E]; [|lia].
      unfold s in L. rewrite E in L. cbn in L. lia. }
    pose proof (Z.log2_spec (X / d) Yp) as [S1 _].
    replace (Z.log2 (X / d)) with (52 + s) in S1 by (unfold s; lia).
    assert (St : s <= t).
    { destruct (Z_le_gt_dec s t) as [|C]; [assumption|exfalso].
      assert (2 ^ (53 + t) <= 2 ^ (52 + s)) by (apply Z.pow_le_mono_r; lia).
      rewrite Z.pow_add_r in H0 by lia. nia. }
    pose proof (Z.pow_pos_nonneg 2 s ltac:(lia) ltac:(lia)) as Ps.
    replace t with ((t - s) + s) by lia. rewrite Z.pow_add_r by lia.
    pose proof (Z.pow_pos_nonneg 2 (t - s) ltac:(lia) ltac:(lia)) as Pts.
    replace t with ((t - s) + s) in H by lia. rewrite Z.pow_add_r in H by lia.
    set (a := 2 ^ (t - s)) in *. set (b := 2 ^ s) in *. clearbody a b.
    destruct (round_half_even_between X (d * b) 0 (G * a)) as [_ R]; [nia|lia|nia|].
    nia.
  - cbn [Z.pow]. rewrite !Z.mul_1_r.
    destruct (round_half_even_between X d 0 (G * 2 ^ t)) as [_ R]; [lia|lia|lia|].
    exact R.
Qed.

Lemma nearest_ge (n d g : Z) :
  0 <= n -> 0 < d -> representable g -> g * d <= n * one -> g <= nearest n d.
Proof.
  intros Hn Hd (G & t & Ht & HG & ->) H. unfold nearest.
  set (X := n * one) in *.
  assert (HX : 0 <= X) by (unfold X, one; apply Z.mul_nonneg_nonneg; [lia|apply Z.pow_nonneg; lia]).
  clearbody X.
  pose proof (Z.pow_pos_nonneg 2 t ltac:(lia) Ht) as Pt.
  assert (Y0 : 0 <= X / d) by (apply Z.div_pos; lia).
  pose proof (Z.mul_div_le X d Hd) as Md.
  destruct (Z.max_spec 0 (Z.log2 (X / d) - 52)) as [[L ->]|[L ->]].
  - set (s := Z.log2 (X / d) - 52) in *.
    assert (Yp : 0 < X / d).
    { destruct (Z.eq_dec (X / d) 0) as [E|E]; [|lia].
      unfold s in L. rewrite E in L. cbn in L. lia. }
    pose proof (Z.log2_spec (X / d) Yp) as [S1 _].
    replace (Z.log2 (X / d)) with (52 + s) in S1 by (unfold s; lia).
    pose proof (Z.pow_pos_nonneg 2 s ltac:(lia) ltac:(lia)) as Ps.
    rewrite Z.pow_add_r in S1 by lia.
    destruct (Z_le_gt_dec s t) as [St|St].
    + replace t with ((t - s) + s) by lia. rewrite Z.pow_add_r by lia.
      pose proof (Z.pow_pos_nonneg 2 (t - s) ltac:(lia) ltac:(lia)) as Pts.
      replace t with ((t - s) + s) in H by lia. rewrite Z.pow_add_r in H by lia.
      set (a := 2 ^ (t - s)) in *. set (b := 2 ^ s) in *. clearbody a b.
      assert (D1 : 1 <= d * b) by nia.
      destruct (round_half_even_between X (d * b) (G * a) X) as [R _]; [lia|lia|nia|].
      nia.
    + assert (T : 2 ^ (53 + t) <= 2 ^ (52 + s)) by (apply Z.pow_le_mono_r; lia).
      rewrite !Z.pow_add_r in T by lia.
      set (b := 2 ^ s) in *. set (c := 2 ^ t) in *. clearbody b c.
      assert (D1 : 1 <= d * b) by nia.
      assert (D2 : 2 ^ 52 * (d * b) <= X).
      { apply Z.le_trans with (d * (X / d)); [|exact Md].
        rewrite (Z.mul_comm d b), Z.mul_assoc, (Z.mul_comm _ d).
        apply Z.mul_le_mono_nonneg_l; lia. }
      destruct (round_half_even_between X (d * b) (2 ^ 52) X) as [R _];
        [lia|exact D2|nia|].
      nia.
  - cbn [Z.pow]. rewrite !Z.mul_1_r.
    destruct (round_half_even_between X d (G * 2 ^ t) X) as [R _]; [lia|lia|nia|].
    exact R.
Qed.

Lemma one_pos : 0 < one.
Proof. unfold one. apply Z.pow_pos_nonneg; lia. Qed.

Lemma representable_0 : representable 0.
Proof. exists 0, 0. split; [lia|]. split; [split; [lia|reflexivity]|reflexivity]. Qed.

Lemma nearest_nonneg (n d : Z) : 0 <= n -> 0 < d -> 0 <= nearest n d.
Proof.
  intros Hn Hd. apply nearest_ge; [assumption|assumption|apply representable_0|].
  pose proof one_pos. nia.
Qed.

Lemma div_nonneg (n d : Z) : 0 <= n -> 0 < d -> div n d = nearest n d.
Proof.
  intros Hn Hd. unfold div. destruct (Z.eq_dec n 0) as [->|N].
  - cbn [Z.sgn Z.abs Z.mul]. unfold nearest, round_half_even.
    rewrite Z.mul_0_l, !Zdiv_0_l, Zmod_0_l.
    set (s := Z.max 0 (Z.log2 0 - 52)).
    assert (P : 0 < d * 2 ^ s).
    { apply Z.mul_pos_pos; [lia|]. apply Z.pow_pos_nonneg; [lia|]. unfold s. lia. }
    replace (2 * 0 ?= d * 2 ^ s) with Lt by (symmetry; apply Z.compare_lt_iff; lia).
    reflexivity.
  - rewrite Z.sgn_pos, Z.abs_eq by lia. lia.
Qed.

Lemma div_opp (n d : Z) : div (- n) d = - div n d.
Proof. unfold div. rewrite Z.sgn_opp, Z.abs_opp. lia. Qed.

Lemma div_nonpos (n d : Z) : n <= 0 -> 0 < d -> div n d <= 0.
Proof.
  intros Hn Hd. replace n with (- - n) by lia. rewrite div_opp.
  rewrite div_nonneg by lia. pose proof (nearest_nonneg (- n) d). lia.
Qed.

(** The two divisions and the cut, for a span of [q] whole units of
    [k * 10^6] microseconds and a bit. *)
Lemma whole_exact_general (k q span b e c : Z) :
  one = c * e * b -> 0 < c -> 0 < e -> 0 < b -> 0 < k ->
  1000000 <= b -> k <= e ->
  representable (k * q * one) ->
  representable ((k * (q + 1) * b - 1) * (c * e)) ->
  representable (q * one) ->
  representable (((q + 1) * (e * b) - 1) * c) ->
  0 <= q -> k * 1000000 * q <= span < k * 1000000 * (q + 1) ->
  whole k span = q.
Proof.
  intros U Hc He Hb Hk Hb6 Hke R1 R2 R3 R4 Hq Hs.
  unfold whole, to_int, truediv_int, total_seconds, int_truediv.
  pose proof one_pos as Up.
  assert (S0 : 0 <= span) by nia.
  rewrite (div_nonneg span) by lia.
  pose proof (nearest_nonneg span 1000000 S0 ltac:(lia)) as F0.
  assert (L1 : k * q * one <= nearest span 1000000).
  { apply nearest_ge; [lia|lia|exact R1|]. nia. }
  assert (H1 : nearest span 1000000 <= (k * (q + 1) * b - 1) * (c * e)).
  { apply nearest_le; [lia|lia|exact R2|]. rewrite U. nia. }
  set (f1 := nearest span 1000000) in *. clearbody f1.
  rewrite (div_nonneg f1) by nia.
  assert (L2 : q * one <= nearest f1 (k * one)).
  { apply nearest_ge; [lia|nia|exact R3|]. nia. }
  assert (H2 : nearest f1 (k * one) <= ((q + 1) * (e * b) - 1) * c).
  { apply nearest_le; [lia|nia|exact R4|].
    rewrite Z.mul_assoc. apply Z.mul_le_mono_nonneg_r; [lia|].
    assert (T : 0 <= c * (e - k)) by nia. lia. }
  set (f2 := nearest f1 (k * one)) in *. clearbody f2.
  rewrite Z.quot_div_nonneg by nia.
  symmetry. apply (Z.div_unique_pos f2 one q (f2 - q * one)); [|lia].
  split; [lia|]. rewrite U in *. nia.
Qed.

Lemma pow2_split (a b : Z) : 0 <= a -> 0 <= b -> 2 ^ (a + b) = 2 ^ a * 2 ^ b.
Proof. intros. apply Z.pow_add_r; assumption. Qed.

Lemma whole_60_nonneg (span : Z) :
  0 <= span < 2 ^ 52 -> whole 60 span = span / 60000000.
Proof.
  intros H. set (q := span / 60000000).
  pose proof (Z.div_mod span 60000000 ltac:(lia)) as E.
  pose proof (Z.mod_pos_bound span 60000000 ltac:(lia)) as M.
  assert (Q0 : 0 <= q) by (apply Z.div_pos; lia).
  assert (Q1 : q < 2 ^ 27).
  { apply Z.div_lt_upper_bound; [lia|]. change (2 ^ 27) with 134217728.
    change (2 ^ 52) with 4503599627370496 in H. lia. }
  change (2 ^ 27) with 134217728 in Q1.
  fold q in E.
  apply (whole_exact_general 60 q span (2 ^ 20) (2 ^ 6) (2 ^ 1048)).
  - unfold one. rewrite <- !pow2_split by lia. reflexivity.
  - apply Z.pow_pos_nonneg; lia.
  - reflexivity.
  - reflexivity.
  - lia.
  - change (2 ^ 20) with 1048576. lia.
  - change (2 ^ 6) with 64. lia.
  - exists (60 * q), 1074. split; [lia|]. split; [|reflexivity].
    change (2 ^ 53) with 9007199254740992. lia.
  - exists (60 * (q + 1) * 2 ^ 20 - 1), 1054. split; [lia|]. split.
    + change (2 ^ 53) with 9007199254740992. change (2 ^ 20) with 1048576. lia.
    + rewrite <- pow2_split by lia. reflexivity.
  - exists q, 1074. split; [lia|]. split; [|reflexivity].
    change (2 ^ 53) with 9007199254740992. lia.
  - exists ((q + 1) * (2 ^ 6 * 2 ^ 20) - 1), 1048. split; [lia|]. split; [|reflexivity].
    change (2 ^ 53) with 9007199254740992. change (2 ^ 20) with 1048576.
    change (2 ^ 6) with 64. lia.
  - exact Q0.
  - lia.
Qed.

Lemma whole_3600_nonneg (span : Z) :
  0 <= span < 2 ^ 52 -> whole 3600 span = span / 3600000000.
Proof.
  intros H. set (q := span / 3600000000).
  pose proof (Z.div_mod span 3600000000 ltac:(lia)) as E.
  pose proof (Z.mod_pos_bound span 3600000000 ltac:(lia)) as M.
  assert (Q0 : 0 <= q) by (apply Z.div_pos; lia).
  assert (Q1 : q < 2 ^ 21).
  { apply Z.div_lt_upper_bound; [lia|]. change (2 ^ 21) with 2097152.
    change (2 ^ 52) with 4503599627370496 in H. lia. }
  change (2 ^ 21) with 2097152 in Q1.
  fold q in E.
  apply (whole_exact_general 3600 q span (2 ^ 20) (2 ^ 12) (2 ^ 1042)).
  - unfold one. rewrite <- !pow2_split by lia. reflexivity.
  - apply Z.pow_pos_nonneg; lia.
  - reflexivity.
  - reflexivity.
  - lia.
  - change (2 ^ 20) with 1048576. lia.
  - change (2 ^ 12) with 4096. lia.
  - exists (3600 * q), 1074. split; [lia|]. split; [|reflexivity].
    change (2 ^ 53) with 9007199254740992. lia.
  - exists (3600 * (q + 1) * 2 ^ 20 - 1), 1054. split; [lia|]. split.
    + change (2 ^ 53) with 9007199254740992. change (2 ^ 20) with 1048576. lia.
    + rewrite <- pow2_split by lia. reflexivity.
  - exists q, 1074. split; [lia|]. split; [|reflexivity].
    change (2 ^ 53) with 9007199254740992. lia.
  - exists ((q + 1) * (2 ^ 12 * 2 ^ 20) - 1), 1042. split; [lia|]. split; [|reflexivity].
    change (2 ^ 53) with 9007199254740992. change (2 ^ 20) with 1048576.
    change (2 ^ 12) with 4096. lia.
  - exact Q0.
  - lia.
Qed.

Lemma whole_opp (k span : Z) : whole k (- span) = - whole k span.
Proof.
  unfold whole, to_int, truediv_int, total_seconds, int_truediv.
  rewrite !div_opp. apply Z.quot_opp_l. pose proof one_pos. lia.
Qed.

Lemma whole_60 (span : Z) :
  Z.abs span < 2 ^ 52 -> whole 60 span = Z.quot span 60000000.
Proof.
  intros H. destruct (Z_le_gt_dec 0 span) as [P|N].
  - rewrite Z.quot_div_nonneg by lia. apply whole_60_nonneg. lia.
  - replace span with (- - span) by lia.
    rewrite whole_opp, Z.quot_opp_l by lia.
    rewrite Z.quot_div_nonneg by lia. f_equal. apply whole_60_nonneg. lia.
Qed.

Lemma whole_3600 (span : Z) :
  Z.abs span < 2 ^ 52 -> whole 3600 span = Z.quot span 3600000000.
Proof.
  intros H. destruct (Z_le_gt_dec 0 span) as [P|N].
  - rewrite Z.quot_div_nonneg by lia. apply whole_3600_nonneg. lia.
  - replace span with (- - span) by lia.
    rewrite whole_opp, Z.quot_opp_l by lia.
    rewrite Z.quot_div_nonneg by lia. f_equal. apply whole_3600_nonneg. lia.
Qed.

(** Comparing the hours as floats with 12 is comparing the microseconds
    with those of 12 hours, for every span. *)
Lemma age_hours_gt_12 (span : Z) :
  gt_int (truediv_int (total_seconds span) 3600) 12 = (43200000000 <? span).
Proof.
  unfold gt_int, truediv_int, total_seconds, int_truediv.
  pose proof one_pos as Up.
  destruct (Z_le_gt_dec span 0) as [N|P].
  { pose proof (div_nonpos span 1000000 N ltac:(lia)) as F1.
    pose proof (div_nonpos _ (3600 * one) F1 ltac:(lia)) as F2.
    replace (43200000000 <? span) with false by (symmetry; apply Z.ltb_ge; lia).
    apply Z.ltb_ge. lia. }
  rewrite (div_nonneg span) by lia.
  pose proof (nearest_nonneg span 1000000 ltac:(lia) ltac:(lia)) as F0.
  rewrite div_nonneg by lia.
  destruct (Z_le_gt_dec span 43200000000) as [Le|Gt].
  - replace (43200000000 <? span) with false by (symmetry; apply Z.ltb_ge; lia).
    apply Z.ltb_ge.
    assert (H1 : nearest span 1000000 <= 43200 * one).
    { apply nearest_le; [lia|lia| |nia].
      exists 43200, 1074. split; [lia|]. split; [|reflexivity].
      change (2 ^ 53) with 9007199254740992. lia. }
    apply nearest_le; [lia|lia| |nia].
    exists 12, 1074. split; [lia|]. split; [|reflexivity].
    change (2 ^ 53) with 9007199254740992. lia.
  - replace (43200000000 <? span) with true by (symmetry; apply Z.ltb_lt; lia).
    apply Z.ltb_lt.
    assert (U : one = 2 ^ 1042 * 2 ^ 12 * 2 ^ 20).
    { unfold one. rewrite <- !pow2_split by lia. reflexivity. }
    pose proof (Z.pow_pos_nonneg 2 1042 ltac:(lia) ltac:(lia)) as Pc.
    set (c := 2 ^ 1042) in *.
    change (2 ^ 12) with 4096 in U. change (2 ^ 20) with 1048576 in U.
    assert (R1 : representable ((43200 * 1048576 + 1) * (c * 4096))).
    { exists (43200 * 1048576 + 1), 1054. split; [lia|]. split.
      - change (2 ^ 53) with 9007199254740992. lia.
      - unfold c. change 4096 with (2 ^ 12).
        rewrite <- pow2_split by lia. reflexivity. }
    assert (R2 : representable ((12 * 4294967296 + 1) * c)).
    { exists (12 * 4294967296 + 1), 1042. split; [lia|]. split; [|reflexivity].
      change (2 ^ 53) with 9007199254740992. lia. }
    clearbody c.
    assert (H1 : (43200 * 1048576 + 1) * (c * 4096) <= nearest span 1000000).
    { apply nearest_ge; [lia|lia|exact R1|rewrite U; nia]. }
    set (f1 := nearest span 1000000) in *. clearbody f1.
    assert (H2 : (12 * 4294967296 + 1) * c <= nearest f1 (3600 * one)).
    { apply nearest_ge; [lia|lia|exact R2|].
      rewrite Z.mul_assoc. apply Z.mul_le_mono_nonneg_r; [lia|]. lia. }
    set (f2 := nearest f1 (3600 * one)) in *. clearbody f2.
    rewrite U. lia.
Qed.

Lemma age_hours_le_12 (span : Z) :
  le_int (truediv_int (total_seconds span) 3600) 12 = (span <=? 43200000000).
Proof.
  pose proof (age_hours_gt_12 span) as H. unfold gt_int, le_int in *.
  rewrite Z.leb_antisym, H, <- Z.leb_antisym. reflexivity.
Qed.

(** [age_hours > 12] of lines 100-102, on the microseconds *)
Lemma stale_age (age : Z) :
  gt_int (truediv_int (total_seconds age) 3600) 12 = (12 * hour_micros <? age).
Proof. exact (age_hours_gt_12 age). Qed.

(** [age_hours <= 12] of [check_data_freshness], on the microseconds *)
Lemma fresh_age (age : Z) :
  le_int (truediv_int (total_seconds age) 3600) 12 = (age <=? 12 * hour_micros).
Proof. exact (age_hours_le_12 age). Qed.

(** Within a century the whole minutes and the whole hours are the
    quotients of the microseconds, cut towards zero. *)
Lemma whole_minutes_exact (span : Z) :
  Z.abs span < century_micros -> whole 60 span = Z.quot span minute_micros.
Proof.
  intros H. apply whole_60. unfold century_micros, day_micros in H.
  change (2 ^ 52) with 4503599627370496. lia.
Qed.

Lemma whole_hours_exact (span : Z) :
  Z.abs span < century_micros -> whole 3600 span = Z.quot span hour_micros.
Proof.
  intros H. apply whole_3600. unfold century_micros, day_micros in H.
  change (2 ^ 52) with 4503599627370496. lia.
Qed.

(** The two divisions next to Stdlib's [SFdiv] for binary64, at the span
    from 0001-01-01T00:00:00 to 2100-01-01T00:00:59.999999 and at half
    an hour less one microsecond. *)
Example total_seconds_as_SFdiv :
  of_spec (SpecFloat.SFdiv 53 1024
             (SpecFloat.S754_finite false 66238041659999999 0)
             (SpecFloat.S754_finite false 1000000 0))
  = total_seconds 66238041659999999 /\
  of_spec (SpecFloat.SFdiv 53 1024
             (SpecFloat.SFdiv 53 1024
                (SpecFloat.S754_finite false 66238041659999999 0)
                (SpecFloat.S754_finite false 1000000 0))
             (SpecFloat.S754_finite false 60 0))
  = truediv_int (total_seconds 66238041659999999) 60 /\
  of_spec (SpecFloat.SFdiv 53 1024
             (SpecFloat.SFdiv 53 1024
                (SpecFloat.S754_finite true 1799999999 0)
                (SpecFloat.S754_finite false 1000000 0))
             (SpecFloat.S754_finite false 60 0))
  = truediv_int (total_seconds (-1799999999)) 60.
Proof. split; [|split]; vm_compute; reflexivity. Qed.

(** Beyond a century the whole minutes can be one more than the quotient;
    towards zero is not the floor on a negative span. *)
Example whole_minutes_at_work :
  whole 60 66238041659999999 = 1103967361 /\
  66238041659999999 / minute_micros = 1103967360 /\
  whole 60 1799999999 = 29 /\
  whole 60 (-1799999999) = -29 /\
  whole 60 1800000000 = 30.
Proof. split; [|split; [|split; [|split]]]; vm_compute; reflexivity. Qed.

End FloatFacts.

(* ================================================================== *)
(** * One attempt, seen from the record of its location *)
(* ================================================================== *)

Ltac dict_norm :=
  repeat (rewrite ?dict_get_set; cbn [String.eqb Ascii.eqb Bool.eqb andb]).

Section RecordFacts.

Context {python : Interpreter}.

Variables (now : string) (utcnow2 : naive).

Lemma iadd_one_int (d : dict) (k : string) (n : Z) :
  dict_get k d = Some (PInt n) ->
  iadd_one (PDict d) k = Ok (PDict (dict_set k (PInt (n + 1)) d)).
Proof. intros H. unfold iadd_one, getitem. rewrite H. reflexivity. Qed.

(** The staleness check either leaves the record alone or rewrites the
    staleness tally and the time of the last warning. *)
Lemma check_stale_cases (d : dict) (ft : string) :
  check_stale (PDict d) ft now utcnow2 = PDict d \/
  exists v, check_stale (PDict d) ft now utcnow2 =
            PDict (dict_set "last_stale_warning" (PStr now)
                     (dict_set "stale_forecast_count" v d)).
Proof.
  unfold check_stale.
  destruct (fromisoformat _) as [dt|e]; [|left; reflexivity].
  cbn [bind]. destruct (sub _ dt) as [age|e]; [|left; reflexivity].
  cbn [bind]. rewrite stale_age.
  destruct (12 * hour_micros <? age); [|left; reflexivity].
  unfold iadd_one, getitem.
  destruct (dict_get "stale_forecast_count" d) as [old|]; [|left; reflexivity].
  cbn [bind]. destruct (add_one old) as [new|e]; [|left; reflexivity].
  right. exists new. reflexivity.
Qed.

Lemma check_stale_naive (d : dict) (ft : string) (dt : naive) (c : Z) :
  fromisoformat (replace_char "Z" "+00:00" ft) = Ok (mkDatetime dt None) ->
  dict_get "stale_forecast_count" d = Some (PInt c) ->
  check_stale (PDict d) ft now utcnow2 =
  if 12 * hour_micros <? wall_micros utcnow2 - wall_micros dt
  then PDict (dict_set "last_stale_warning" (PStr now)
                (dict_set "stale_forecast_count" (PInt (c + 1)) d))
  else PDict d.
Proof.
  intros P C. unfold check_stale. rewrite P. cbn [bind sub of_utcnow tzinfo fields].
  rewrite stale_age. destruct (_ <? _); [|reflexivity].
  rewrite (iadd_one_int _ _ _ C). reflexivity.
Qed.

Lemma check_stale_aware (d : dict) (ft : string) (dt : naive) (off : Z) :
  fromisoformat (replace_char "Z" "+00:00" ft) = Ok (mkDatetime dt (Some off)) ->
  check_stale (PDict d) ft now utcnow2 = PDict d.
Proof. intros P. unfold check_stale. rewrite P. reflexivity. Qed.

Lemma check_stale_unparseable (d : dict) (ft : string) (e : exn) :
  fromisoformat (replace_char "Z" "+00:00" ft) = Raise e ->
  check_stale (PDict d) ft now utcnow2 = PDict d.
Proof. intros P. unfold check_stale. rewrite P. reflexivity. Qed.

(** The record after the forecast-time part of a success (lines 93-106):
    only three keys can differ. *)
Lemma on_forecast_time_fields (d : dict) (forecast_time : option string) :
  exists d',
    on_forecast_time (PDict d) forecast_time now utcnow2 = Ok (PDict d') /\
    (forall k, k <> "last_forecast_time" -> k <> "stale_forecast_count" ->
               k <> "last_stale_warning" -> dict_get k d' = dict_get k d) /\
    dict_get "last_forecast_time" d' =
      match forecast_time with
      | Some ft => if String.eqb ft "" then dict_get "last_forecast_time" d
                   else Some (PStr ft)
      | None => dict_get "last_forecast_time" d
      end.
Proof.
  unfold on_forecast_time.
  destruct forecast_time as [ft|]; cbn [truthy].
  2:{ exists d. repeat split; reflexivity. }
  destruct (String.eqb ft ""); cbn [negb].
  { exists d. repeat split; reflexivity. }
  cbn [setitem bind].
  destruct (check_stale_cases (dict_set "last_forecast_time" (PStr ft) d) ft)
    as [E|[v E]]; rewrite E; eexists; (split; [reflexivity|]); split.
  - intros k K1 K2 K3. rewrite dict_get_set_ne by assumption. reflexivity.
  - apply dict_get_set_eq.
  - intros k K1 K2 K3. rewrite !dict_get_set_ne by assumption. reflexivity.
  - dict_norm. reflexivity.
Qed.

Lemma update_location_success (d : dict) (forecast_time error_message : option string)
  (t s : Z) (c : pyval) (h : list pyval) :
  dict_get "total_attempts" d = Some (PInt t) ->
  dict_get "successful_attempts" d = Some (PInt s) ->
  dict_get "current_outage_start" d = Some c ->
  dict_get "outage_history" d = Some (PList h) ->
  exists d',
    update_location (PDict d) true forecast_time error_message now utcnow2
      = Ok (PDict d') /\
    dict_get "total_attempts" d' = Some (PInt (t + 1)) /\
    dict_get "successful_attempts" d' = Some (PInt (s + 1)) /\
    dict_get "last_success" d' = Some (PStr now) /\
    dict_get "current_outage_start" d' = Some (if truthy c then PNone else c) /\
    dict_get "outage_history" d' =
      Some (PList (if truthy c then h ++ [outage_event c now] else h)) /\
    dict_get "last_forecast_time" d' =
      match forecast_time with
      | Some ft => if String.eqb ft "" then dict_get "last_forecast_time" d
                   else Some (PStr ft)
      | None => dict_get "last_forecast_time" d
      end /\
    (forall k, ~ In k success_keys -> dict_get k d' = dict_get k d).
Proof.
  intros T S C H.
  unfold update_location. rewrite (iadd_one_int _ _ _ T). cbn [bind setitem].
  unfold on_success.
  erewrite iadd_one_int by (dict_norm; exact S). cbn [bind setitem].
  match goal with
  | |- context [on_forecast_time (PDict ?d0) _ _ _] =>
      destruct (on_forecast_time_fields d0 forecast_time) as (d1 & E & Fr & Lft)
  end.
  rewrite E. cbn [bind]. unfold getitem.
  rewrite (Fr "current_outage_start") by discriminate. dict_norm. rewrite C.
  cbn [bind].
  assert (Frame : forall k, ~ In k success_keys ->
                            k <> "outage_history" /\ k <> "current_outage_start" /\
                            dict_get k d1 = dict_get k d).
  { intros k K. unfold success_keys in K. cbn [In] in K.
    split; [intuition congruence|]. split; [intuition congruence|].
    rewrite Fr by intuition congruence.
    rewrite !dict_get_set_ne by intuition congruence. reflexivity. }
  destruct (truthy c).
  - rewrite (Fr "outage_history") by discriminate. dict_norm. rewrite H.
    cbn [bind append setitem]. eexists. split; [reflexivity|].
    dict_norm.
    rewrite (Fr "total_attempts"), (Fr "successful_attempts"), (Fr "last_success")
      by discriminate.
    dict_norm. rewrite Lft. dict_norm.
    repeat split; try reflexivity.
    intros k K. destruct (Frame k K) as (K1 & K2 & K3).
    rewrite !dict_get_set_ne by assumption. exact K3.
  - exists d1. split; [reflexivity|].
    rewrite (Fr "total_attempts"), (Fr "successful_attempts"), (Fr "last_success"),
      (Fr "current_outage_start"), (Fr "outage_history") by discriminate.
    dict_norm. rewrite Lft. dict_norm. rewrite C, H.
    repeat split; try reflexivity.
    intros k K. destruct (Frame k K) as (K1 & K2 & K3). exact K3.
Qed.

Lemma update_location_failure (d : dict) (forecast_time error_message : option string)
  (t f : Z) (c : pyval) :
  dict_get "total_attempts" d = Some (PInt t) ->
  dict_get "failed_attempts" d = Some (PInt f) ->
  dict_get "current_outage_start" d = Some c ->
  exists d',
    update_location (PDict d) false forecast_time error_message now utcnow2
      = Ok (PDict d') /\
    dict_get "total_attempts" d' = Some (PInt (t + 1)) /\
    dict_get "failed_attempts" d' = Some (PInt (f + 1)) /\
    dict_get "last_failure" d' = Some (PStr now) /\
    dict_get "last_error" d' = Some (of_option_str error_message) /\
    dict_get "current_outage_start" d' = Some (if truthy c then c else PStr now) /\
    (forall k, ~ In k failure_keys -> dict_get k d' = dict_get k d).
Proof.
  intros T F C.
  unfold update_location. rewrite (iadd_one_int _ _ _ T). cbn [bind setitem].
  unfold on_failure.
  erewrite iadd_one_int by (dict_norm; exact F). cbn [bind setitem getitem].
  dict_norm. rewrite C. cbn [bind].
  destruct (truthy c); cbn [negb setitem];
    (eexists; split; [reflexivity|]); dict_norm; rewrite ?C;
    (repeat split; try reflexivity);
    intros k K; unfold failure_keys in K; cbn [In] in K;
    (rewrite !dict_get_set_ne by intuition congruence); reflexivity.
Qed.

(** Every attempt leaves its own timestamp in [last_attempt]. *)
Lemma update_location_last_attempt (d : dict) (success : bool)
  (forecast_time error_message : option string) (t s f : Z) (c : pyval)
  (h : list pyval) :
  dict_get "total_attempts" d = Some (PInt t) ->
  dict_get "successful_attempts" d = Some (PInt s) ->
  dict_get "failed_attempts" d = Some (PInt f) ->
  dict_get "current_outage_start" d = Some c ->
  dict_get "outage_history" d = Some (PList h) ->
  exists d',
    update_location (PDict d) success forecast_time error_message now utcnow2
      = Ok (PDict d') /\
    dict_get "last_attempt" d' = Some (PStr now).
Proof.
  intros T S F C H. destruct success.
  - unfold update_location. rewrite (iadd_one_int _ _ _ T). cbn [bind setitem].
    unfold on_success.
    erewrite iadd_one_int by (dict_norm; exact S). cbn [bind setitem].
    match goal with
    | |- context [on_forecast_time (PDict ?d0) _ _ _] =>
        destruct (on_forecast_time_fields d0 forecast_time) as (d1 & E & Fr & Lft)
    end.
    rewrite E. cbn [bind]. unfold getitem.
    rewrite (Fr "current_outage_start") by discriminate. dict_norm. rewrite C.
    cbn [bind].
    destruct (truthy c).
    + rewrite (Fr "outage_history") by discriminate. dict_norm. rewrite H.
      cbn [bind append setitem]. eexists. split; [reflexivity|].
      dict_norm. rewrite (Fr "last_attempt") by discriminate.
      dict_norm. reflexivity.
    + exists d1. split; [reflexivity|].
      rewrite (Fr "last_attempt") by discriminate. dict_norm. reflexivity.
  - unfold update_location. rewrite (iadd_one_int _ _ _ T). cbn [bind setitem].
    unfold on_failure.
    erewrite iadd_one_int by (dict_norm; exact F). cbn [bind setitem getitem].
    dict_norm. rewrite C. cbn [bind].
    destruct (truthy c); cbn [negb setitem];
      (eexists; split; [reflexivity|]); dict_norm; reflexivity.
Qed.

Lemma wf_record_inv (loc : pyval) :
  wf_record loc = true ->
  exists d t s f c h,
    loc = PDict d /\
    dict_get "total_attempts" d = Some (PInt t) /\
    dict_get "successful_attempts" d = Some (PInt s) /\
    dict_get "failed_attempts" d = Some (PInt f) /\
    dict_get "current_outage_start" d = Some c /\
    dict_get "outage_history" d = Some (PList h) /\
    t = s + f /\ 0 <= t /\ 0 <= s /\ 0 <= f /\
    (c = PNone \/ exists str, c = PStr str /\ String.eqb str "" = false).
Proof.
  unfold wf_record, counters_ok, counters, outage_marker_ok, history_ok, field.
  intros W. destruct loc as [| | | |?|d]; try discriminate.
  destruct (dict_get "total_attempts" d) as [[| |t| | |]|] eqn:T; try discriminate.
  destruct (dict_get "successful_attempts" d) as [[| |s| | |]|] eqn:S;
    try discriminate.
  destruct (dict_get "failed_attempts" d) as [[| |f| | |]|] eqn:F; try discriminate.
  destruct (dict_get "outage_history" d) as [[| | | |h|]|] eqn:H;
    try (rewrite andb_false_r in W; discriminate).
  destruct (dict_get "current_outage_start" d) as [c|] eqn:C;
    [|rewrite !andb_false_r in W; discriminate].
  repeat (apply andb_true_iff in W; destruct W as [W ?]).
  exists d, t, s, f, c, h.
  repeat match goal with
         | V : (_ <=? _) = true |- _ => apply Z.leb_le in V
         | V : (_ =? _) = true |- _ => apply Z.eqb_eq in V
         end.
  repeat (split; [first [reflexivity | assumption]|]).
  destruct c as [| | |str| |]; try discriminate; [left; reflexivity|].
  right. exists str. split; [reflexivity|].
  destruct (String.eqb str ""); [discriminate|reflexivity].
Qed.

Lemma wf_record_intro (d : dict) (t s f : Z) (c : pyval) (h : list pyval) :
  dict_get "total_attempts" d = Some (PInt t) ->
  dict_get "successful_attempts" d = Some (PInt s) ->
  dict_get "failed_attempts" d = Some (PInt f) ->
  dict_get "current_outage_start" d = Some c ->
  dict_get "outage_history" d = Some (PList h) ->
  t = s + f -> 0 <= s -> 0 <= f ->
  (c = PNone \/ exists str, c = PStr str /\ String.eqb str "" = false) ->
  wf_record (PDict d) = true.
Proof.
  intros T S F C H E Hs Hf Hc.
  unfold wf_record, counters_ok, counters, outage_marker_ok, history_ok, field.
  rewrite T, S, F, C, H.
  replace (t =? s + f) with true by (symmetry; apply Z.eqb_eq; exact E).
  replace (0 <=? t) with true by (symmetry; apply Z.leb_le; lia).
  replace (0 <=? s) with true by (symmetry; apply Z.leb_le; lia).
  replace (0 <=? f) with true by (symmetry; apply Z.leb_le; lia).
  destruct Hc as [->|(str & -> & N)]; [reflexivity|]. rewrite N. reflexivity.
Qed.

Hypothesis now_nonempty : String.eqb now "" = false.

(** An attempt on a well-formed record does not raise and leaves a
    well-formed record. *)
Lemma update_location_wf (loc : pyval) (success : bool)
  (forecast_time error_message : option string) :
  wf_record loc = true ->
  exists loc',
    update_location loc success forecast_time error_message now utcnow2 = Ok loc' /\
    wf_record loc' = true.
Proof.
  intros W.
  destruct (wf_record_inv loc W)
    as (d & t & s & f & c & h & -> & T & S & F & C & H & E & Ht & Hs & Hf & Hc).
  destruct success.
  - destruct (update_location_success d forecast_time error_message t s c h T S C H)
      as (d' & U & T' & S' & _ & C' & H' & _ & Fr).
    exists (PDict d'). split; [exact U|].
    apply (wf_record_intro d' (t + 1) (s + 1) f (if truthy c then PNone else c)
             (if truthy c then h ++ [outage_event c now] else h));
      try assumption; try lia.
    + rewrite Fr; [exact F|]. unfold success_keys. cbn [In]. intuition discriminate.
    + destruct Hc as [->|(str & -> & N)]; cbn [truthy]; [left; reflexivity|].
      rewrite N. left. reflexivity.
  - destruct (update_location_failure d forecast_time error_message t f c T F C)
      as (d' & U & T' & F' & _ & _ & C' & Fr).
    exists (PDict d'). split; [exact U|].
    apply (wf_record_intro d' (t + 1) s (f + 1) (if truthy c then c else PStr now) h);
      try assumption; try lia.
    + rewrite Fr; [exact S|]. unfold failure_keys. cbn [In]. intuition discriminate.
    + rewrite Fr; [exact H|]. unfold failure_keys. cbn [In]. intuition discriminate.
    + destruct Hc as [->|(str & -> & N)]; cbn [truthy].
      * right. exists now. split; [reflexivity|exact now_nonempty].
      * rewrite N. right. exists str. split; [reflexivity|exact N].
Qed.

(** What an attempt does to the outage marker and the outage history of a
    well-formed record. *)
Lemma update_location_outage (loc : pyval) (success : bool)
  (forecast_time error_message : option string) :
  wf_record loc = true ->
  exists loc' c h,
    field loc "current_outage_start" = Some c /\
    field loc "outage_history" = Some (PList h) /\
    update_location loc success forecast_time error_message now utcnow2 = Ok loc' /\
    field loc' "current_outage_start" =
      Some (if success then PNone else if truthy c then c else PStr now) /\
    field loc' "outage_history" =
      Some (PList (if success && truthy c then h ++ [outage_event c now] else h)).
Proof.
  intros W.
  destruct (wf_record_inv loc W)
    as (d & t & s & f & c & h & -> & T & S & F & C & H & E & Ht & Hs & Hf & Hc).
  destruct success.
  - destruct (update_location_success d forecast_time error_message t s c h T S C H)
      as (d' & U & _ & _ & _ & C' & H' & _ & _).
    exists (PDict d'), c, h. cbn [field andb].
    split; [exact C|]. split; [exact H|]. split; [exact U|]. split; [|exact H'].
    rewrite C'. destruct Hc as [->|(str & -> & N)]; cbn [truthy]; [reflexivity|].
    rewrite N. reflexivity.
  - destruct (update_location_failure d forecast_time error_message t f c T F C)
      as (d' & U & _ & _ & _ & _ & C' & Fr).
    exists (PDict d'), c, h. cbn [field andb].
    split; [exact C|]. split; [exact H|]. split; [exact U|]. split; [exact C'|].
    rewrite Fr; [exact H|]. unfold failure_keys. cbn [In]. intuition discriminate.
Qed.

Lemma new_location_wf : wf_record (new_location now) = true.
Proof. reflexivity. Qed.

End RecordFacts.

(* ================================================================== *)
(** * One attempt, seen from the store *)
(* ================================================================== *)

Section StoreFacts.

Context {python : Interpreter}.

Lemma isoformat_nonempty (d : naive) : String.eqb (isoformat d) "" = false.
Proof.
  pose proof (length_pad_digits 4 (year d) EmptyString) as L.
  unfold isoformat.
  match goal with |- String.eqb (pad_digits 4 ?n ?tl) _ = _ =>
    pose proof (length_pad_digits 4 n tl) as L'; destruct (pad_digits 4 n tl)
  end; [simpl in L'; lia | reflexivity].
Qed.

Lemma locations_of_inv (hd : pyval) (locs : dict) :
  locations_of hd = Some locs ->
  exists d, hd = PDict d /\ dict_get "locations" d = Some (PDict locs).
Proof.
  unfold locations_of. destruct hd as [| | | | |d]; try discriminate.
  destruct (dict_get "locations" d) as [[| | | | |l]|] eqn:E; try discriminate.
  intros H; inversion H; subst. exists d. split; [reflexivity|exact E].
Qed.

Lemma location_record_locations (hd : pyval) (locs : dict) (location : string) :
  locations_of hd = Some locs ->
  location_record hd location = dict_get location locs.
Proof.
  intros L. destruct (locations_of_inv hd locs L) as (d & -> & E).
  unfold location_record. rewrite E. reflexivity.
Qed.

(** [record_attempt] is [update_location] on the record of the location
    (a new one on first sight), put back under the same key; no other
    record changes, and the new store is what is saved. *)
Lemma record_attempt_store (hd : pyval) (fs : filesystem) (locs : dict)
  (location forecast_type : string) (success : bool)
  (forecast_time error_message : option string) (utcnow utcnow2 : naive)
  (loc' : pyval) :
  locations_of hd = Some locs ->
  update_location (record_or_new hd location (isoformat utcnow)) success
    forecast_time error_message (isoformat utcnow) utcnow2 = Ok loc' ->
  exists hd',
    record_attempt hd fs location forecast_type success forecast_time
      error_message utcnow utcnow2 = Ok (hd', _save_health_data hd' fs) /\
    locations_of hd' =
      Some (dict_set location loc'
              (if dict_mem location locs then locs
               else dict_set location (new_location (isoformat utcnow)) locs)) /\
    location_record hd' location = Some loc' /\
    (forall other, other <> location ->
                   location_record hd' other = location_record hd other).
Proof.
  intros L U.
  pose proof (location_record_locations hd locs location L) as R.
  destruct (locations_of_inv hd locs L) as (d & -> & E).
  unfold record_or_new in U. rewrite R in U.
  unfold record_attempt. cbn [getitem]. rewrite E. cbn [bind contains].
  set (now := isoformat utcnow) in *.
  set (locs1 := if dict_mem location locs then locs
                else dict_set location (new_location now) locs).
  assert (G : dict_get location locs1 =
              Some (match dict_get location locs with
                    | Some loc => loc | None => new_location now end)).
  { unfold locs1, dict_mem. destruct (dict_get location locs) eqn:D.
    - exact D.
    - apply dict_get_set_eq. }
  assert (S1 : (if negb (dict_mem location locs)
                then setitem (PDict locs) location (new_location now)
                else Ok (PDict locs)) = Ok (PDict locs1)).
  { unfold locs1. destruct (dict_mem location locs); reflexivity. }
  rewrite S1. cbn [bind getitem]. rewrite G. cbn [bind]. rewrite U.
  cbn [bind setitem].
  eexists. split; [reflexivity|].
  assert (L' : locations_of
                 (PDict (dict_set "last_updated" (PStr now)
                    (dict_set "locations" (PDict (dict_set location loc' locs1)) d)))
               = Some (dict_set location loc' locs1)).
  { unfold locations_of. dict_norm. reflexivity. }
  split; [exact L'|].
  split.
  - rewrite (location_record_locations _ _ _ L'). apply dict_get_set_eq.
  - intros other N.
    rewrite (location_record_locations _ _ _ L').
    rewrite (location_record_locations _ _ other L).
    rewrite dict_get_set_ne by exact N.
    unfold locs1. destruct (dict_mem location locs); [reflexivity|].
    apply dict_get_set_ne. exact N.
Qed.

Lemma wf_store_inv (hd : pyval) :
  wf_store hd = true ->
  exists locs, locations_of hd = Some locs /\
               forallb (fun kv => wf_record (snd kv)) locs = true.
Proof.
  unfold wf_store. destruct (locations_of hd) as [locs|]; [|discriminate].
  intros W. exists locs. split; [reflexivity|exact W].
Qed.

Lemma wf_store_record (hd : pyval) (location : string) (loc : pyval) :
  wf_store hd = true -> location_record hd location = Some loc ->
  wf_record loc = true.
Proof.
  intros W R. destruct (wf_store_inv hd W) as (locs & L & A).
  rewrite (location_record_locations _ _ _ L) in R.
  exact (forallb_dict_get wf_record location loc locs A R).
Qed.

Lemma record_or_new_wf (hd : pyval) (location now : string) :
  wf_store hd = true -> wf_record (record_or_new hd location now) = true.
Proof.
  intros W. unfold record_or_new.
  destruct (location_record hd location) as [loc|] eqn:R.
  - exact (wf_store_record hd location loc W R).
  - reflexivity.
Qed.

(** A well-formed store takes an attempt for any location without
    raising, and stays well formed. *)
Lemma record_attempt_wf (hd : pyval) (fs : filesystem)
  (location forecast_type : string) (success : bool)
  (forecast_time error_message : option string) (utcnow utcnow2 : naive) :
  wf_store hd = true ->
  exists hd' loc',
    record_attempt hd fs location forecast_type success forecast_time
      error_message utcnow utcnow2 = Ok (hd', _save_health_data hd' fs) /\
    update_location (record_or_new hd location (isoformat utcnow)) success
      forecast_time error_message (isoformat utcnow) utcnow2 = Ok loc' /\
    location_record hd' location = Some loc' /\
    (forall other, other <> location ->
                   location_record hd' other = location_record hd other) /\
    wf_store hd' = true.
Proof.
  intros W.
  destruct (update_location_wf (isoformat utcnow) utcnow2 (isoformat_nonempty utcnow)
              (record_or_new hd location (isoformat utcnow)) success
              forecast_time error_message (record_or_new_wf _ _ _ W))
    as (loc' & U & W').
  destruct (wf_store_inv hd W) as (locs & L & A).
  destruct (record_attempt_store hd fs locs location forecast_type success
              forecast_time error_message utcnow utcnow2 loc' L U)
    as (hd' & R & L' & G & O).
  exists hd', loc'. repeat (split; [assumption|]).
  unfold wf_store. rewrite L'.
  apply forallb_dict_set; [|exact W'].
  destruct (dict_mem location locs); [exact A|].
  apply forallb_dict_set; [exact A|reflexivity].
Qed.

Lemma record_all_app (st : pyval * filesystem) (l1 l2 : list attempt) :
  record_all st (l1 ++ l2) = (st' <- record_all st l1 ;; record_all st' l2).
Proof.
  revert st. induction l1 as [|a l1 IH]; intros st; cbn [record_all app bind].
  - reflexivity.
  - destruct (record st a) as [st'|e]; cbn [bind]; [apply IH|reflexivity].
Qed.

Lemma record_all_wf (l : list attempt) : forall (hd : pyval) (fs : filesystem),
  wf_store hd = true ->
  exists st, record_all (hd, fs) l = Ok st /\ wf_store (fst st) = true.
Proof.
  induction l as [|a l IH]; intros hd fs W; cbn [record_all].
  - exists (hd, fs). split; [reflexivity|exact W].
  - unfold record at 1. cbn [fst snd].
    destruct (record_attempt_wf hd fs (a_location a) (a_forecast_type a)
                (a_success a) (a_forecast_time a) (a_error_message a)
                (a_utcnow a) (a_utcnow2 a) W) as (hd' & loc' & R & _ & _ & _ & W').
    rewrite R. cbn [bind]. apply IH. exact W'.
Qed.

End StoreFacts.

(* ================================================================== *)
(** * The counters (C5) and the location argument (C10) *)
(* ================================================================== *)

Section Counters.

Context {python : Interpreter}.

Lemma counters_ok_spec (loc : pyval) :
  counters_ok loc = true ->
  exists t s f, counters loc = Some (t, s, f) /\
                t = s + f /\ 0 <= t /\ 0 <= s /\ 0 <= f.
Proof.
  unfold counters_ok. destruct (counters loc) as [[[t s] f]|]; [|discriminate].
  intros H. repeat (apply andb_true_iff in H; destruct H as [H ?]).
  exists t, s, f. split; [reflexivity|].
  apply Z.eqb_eq in H.
  repeat match goal with V : (_ <=? _) = true |- _ => apply Z.leb_le in V end.
  repeat split; assumption.
Qed.

(** C5: whatever the sequence of [record_attempt] calls, on a fresh or a
    reloaded well-formed store, no call raises and afterwards every
    location's record has [total_attempts = successful_attempts +
    failed_attempts] with all three counters non-negative.  The sequence is
    arbitrary, so this is the state after each call. *)
Theorem counters_add_up (hd : pyval) (fs : filesystem) (l : list attempt) :
  wf_store hd = true ->
  exists st,
    record_all (hd, fs) l = Ok st /\
    forall location loc,
      location_record (fst st) location = Some loc ->
      exists t s f,
        counters loc = Some (t, s, f) /\
        t = s + f /\ 0 <= t /\ 0 <= s /\ 0 <= f.
Proof.
  intros W. destruct (record_all_wf l hd fs W) as (st & R & W').
  exists st. split; [exact R|].
  intros location loc G.
  pose proof (wf_store_record _ _ _ W' G) as Wl.
  unfold wf_record in Wl.
  apply andb_true_iff in Wl. destruct Wl as [Wl _].
  apply andb_true_iff in Wl. destruct Wl as [Wl _].
  exact (counters_ok_spec loc Wl).
Qed.

(** C10: [record_attempt] does not look at its location argument beyond
    using it as a key.  For every string, the empty one included, the call
    on a well-formed store does not raise; the record stored under the key
    afterwards is [update_location] of the record found there, or of a new
    record when the key was unknown, and [update_location] is not given the
    location; no other record changes.  The attempt is recorded: the total
    and the counter of its outcome go up by one, the other counter stays,
    [last_attempt] and the timestamp of its outcome are the call's; a key
    seen for the first time gets a record that counts this one attempt and
    has the call's timestamp as [first_seen]. *)
Theorem record_attempt_any_location (hd : pyval) (fs : filesystem)
  (location forecast_type : string) (success : bool)
  (forecast_time error_message : option string) (utcnow utcnow2 : naive) :
  wf_store hd = true ->
  exists hd' fs' loc',
    record_attempt hd fs location forecast_type success forecast_time
      error_message utcnow utcnow2 = Ok (hd', fs') /\
    location_record hd' location = Some loc' /\
    update_location
      (match location_record hd location with
       | Some loc => loc
       | None => new_location (isoformat utcnow)
       end)
      success forecast_time error_message (isoformat utcnow) utcnow2 = Ok loc' /\
    (forall other, other <> location ->
                   location_record hd' other = location_record hd other) /\
    wf_store hd' = true /\
    (exists t s f,
       counters (record_or_new hd location (isoformat utcnow)) = Some (t, s, f) /\
       counters loc' =
         Some (t + 1, (if success then s + 1 else s), (if success then f else f + 1))) /\
    field loc' "last_attempt" = Some (PStr (isoformat utcnow)) /\
    field loc' (if success then "last_success" else "last_failure") =
      Some (PStr (isoformat utcnow)) /\
    (location_record hd location = None ->
     counters loc' =
       Some (1, (if success then 1 else 0), (if success then 0 else 1)) /\
     field loc' "first_seen" = Some (PStr (isoformat utcnow))).
Proof.
  intros W.
  destruct (record_attempt_wf hd fs location forecast_type success forecast_time
              error_message utcnow utcnow2 W) as (hd' & loc' & R & U & G & O & W').
  exists hd', (_save_health_data hd' fs), loc'.
  split; [exact R|]. split; [exact G|]. split; [exact U|].
  split; [exact O|]. split; [exact W'|].
  set (now := isoformat utcnow) in *.
  destruct (wf_record_inv _ (record_or_new_wf hd location now W))
    as (d & t & s & f & c & h & Eq & T & S & F & C & H & _).
  destruct (update_location_last_attempt now utcnow2 d success forecast_time
              error_message t s f c h T S F C H) as (d0 & U0 & La).
  assert (New : location_record hd location = None ->
                t = 0 /\ s = 0 /\ f = 0 /\ dict_get "first_seen" d = Some (PStr now)).
  { intros N. unfold record_or_new in Eq. rewrite N in Eq.
    unfold new_location in Eq. inversion Eq; subst d.
    cbn in T, S, F. inversion T; inversion S; inversion F.
    repeat split; reflexivity. }
  rewrite Eq in U. rewrite U in U0. inversion U0; subst loc'. clear U0.
  assert (Cn : counters (PDict d) = Some (t, s, f)).
  { unfold counters. cbn [field]. rewrite T, S, F. reflexivity. }
  destruct success.
  - destruct (update_location_success now utcnow2 d forecast_time error_message
                t s c h T S C H) as (d1 & U1 & T1 & S1 & L1 & _ & _ & _ & Fr).
    rewrite U in U1. inversion U1; subst d1. clear U1.
    assert (Cn' : counters (PDict d0) = Some (t + 1, s + 1, f)).
    { unfold counters. cbn [field]. rewrite T1, S1.
      rewrite (Fr "failed_attempts")
        by (unfold success_keys; cbn [In]; intuition discriminate).
      rewrite F. reflexivity. }
    split; [exists t, s, f; rewrite Eq; split; assumption|].
    split; [exact La|]. split; [exact L1|].
    intros N. destruct (New N) as (-> & -> & -> & Fs).
    split; [exact Cn'|]. cbn [field].
    rewrite (Fr "first_seen")
      by (unfold success_keys; cbn [In]; intuition discriminate).
    exact Fs.
  - destruct (update_location_failure now utcnow2 d forecast_time error_message
                t f c T F C) as (d1 & U1 & T1 & F1 & L1 & _ & _ & Fr).
    rewrite U in U1. inversion U1; subst d1. clear U1.
    assert (Cn' : counters (PDict d0) = Some (t + 1, s, f + 1)).
    { unfold counters. cbn [field]. rewrite T1, F1.
      rewrite (Fr "successful_attempts")
        by (unfold failure_keys; cbn [In]; intuition discriminate).
      rewrite S. reflexivity. }
    split; [exists t, s, f; rewrite Eq; split; assumption|].
    split; [exact La|]. split; [exact L1|].
    intros N. destruct (New N) as (-> & -> & -> & Fs).
    split; [exact Cn'|]. cbn [field].
    rewrite (Fr "first_seen")
      by (unfold failure_keys; cbn [In]; intuition discriminate).
    exact Fs.
Qed.

End Counters.

(* ================================================================== *)
(** * The outage marker (C6) and the life of an outage (C1) *)
(* ================================================================== *)

Section Outages.

Context {python : Interpreter}.

(** One recorded attempt on a well-formed store: the marker and the
    history of its location afterwards, every other record untouched. *)
Lemma record_outage (st : pyval * filesystem) (a : attempt) :
  wf_store (fst st) = true ->
  exists st' loc' c h,
    record st a = Ok st' /\
    wf_store (fst st') = true /\
    field (record_or_new (fst st) (a_location a) (isoformat (a_utcnow a)))
      "current_outage_start" = Some c /\
    field (record_or_new (fst st) (a_location a) (isoformat (a_utcnow a)))
      "outage_history" = Some (PList h) /\
    location_record (fst st') (a_location a) = Some loc' /\
    field loc' "current_outage_start" =
      Some (if a_success a then PNone
            else if truthy c then c else PStr (isoformat (a_utcnow a))) /\
    field loc' "outage_history" =
      Some (PList (if a_success a && truthy c
                   then h ++ [outage_event c (isoformat (a_utcnow a))] else h)) /\
    (forall other, other <> a_location a ->
                   location_record (fst st') other = location_record (fst st) other).
Proof.
  intros W. destruct st as [hd fs]. cbn [fst snd] in *.
  destruct (record_attempt_wf hd fs (a_location a) (a_forecast_type a)
              (a_success a) (a_forecast_time a) (a_error_message a)
              (a_utcnow a) (a_utcnow2 a) W) as (hd' & loc' & R & U & G & O & W').
  destruct (update_location_outage (isoformat (a_utcnow a)) (a_utcnow2 a)
              (record_or_new hd (a_location a) (isoformat (a_utcnow a)))
              (a_success a) (a_forecast_time a) (a_error_message a)
              (record_or_new_wf _ _ _ W)) as (loc2 & c & h & C & H & U2 & C' & H').
  rewrite U in U2. inversion U2; subst loc2.
  exists (hd', _save_health_data hd' fs), loc', c, h.
  cbn [fst snd]. unfold record. cbn [fst snd].
  repeat (split; [assumption|]). exact O.
Qed.

Lemma last_outcome_snoc (location : string) (l : list attempt) (a : attempt) :
  last_outcome location (l ++ [a]) =
  if String.eqb (a_location a) location then Some (a_success a)
  else last_outcome location l.
Proof.
  unfold last_outcome. rewrite rev_app_distr. cbn [rev app find].
  destruct (String.eqb (a_location a) location); reflexivity.
Qed.

Lemma record_or_new_field_default (hd : pyval) (location now : string) :
  location_record hd location = None ->
  field (record_or_new hd location now) "current_outage_start" = Some PNone.
Proof. intros R. unfold record_or_new. rewrite R. reflexivity. Qed.

(** C6: after any sequence of [record_attempt] calls on a fresh store,
    a location has no record when no attempt was recorded for it; its
    [current_outage_start] is [None] when its most recent attempt
    succeeded, and a non-empty timestamp string when it failed. *)
Theorem outage_marker_follows_last_attempt (fs : filesystem) (l : list attempt) :
  exists st,
    record_all (empty_store, fs) l = Ok st /\
    forall location,
      match last_outcome location l with
      | None => location_record (fst st) location = None
      | Some true =>
          exists loc, location_record (fst st) location = Some loc /\
                      field loc "current_outage_start" = Some PNone
      | Some false =>
          exists loc start,
            location_record (fst st) location = Some loc /\
            field loc "current_outage_start" = Some (PStr start) /\
            start <> ""
      end.
Proof.
  induction l as [|a l IH] using rev_ind.
  - exists (empty_store, fs). split; [reflexivity|]. intros location. reflexivity.
  - destruct IH as (st & R & P).
    destruct (record_all_wf l empty_store fs eq_refl) as (st0 & R0 & W).
    rewrite R in R0. inversion R0; subst st0. clear R0.
    destruct (record_outage st a W) as (st' & loc' & c & h & Ra & _ & C & _ & G & C' & _ & O).
    exists st'. split.
    { rewrite record_all_app, R. cbn [bind record_all]. rewrite Ra. reflexivity. }
    intros location. rewrite last_outcome_snoc.
    destruct (String.eqb (a_location a) location) eqn:E.
    + apply String.eqb_eq in E. subst location.
      destruct (a_success a).
      * exists loc'. split; [exact G|exact C'].
      * (* the marker before the failed attempt *)
        specialize (P (a_location a)).
        destruct (last_outcome (a_location a) l) as [[|]|].
        -- destruct P as (loc & Gl & Cl).
           unfold record_or_new in C. rewrite Gl, Cl in C. inversion C; subst c.
           cbn [truthy] in C'.
           exists loc', (isoformat (a_utcnow a)). repeat split; try assumption.
           intros N. pose proof (isoformat_nonempty (a_utcnow a)) as Z.
           rewrite N in Z. discriminate.
        -- destruct P as (loc & start & Gl & Cl & Ns).
           unfold record_or_new in C. rewrite Gl, Cl in C. inversion C; subst c.
           cbn [truthy] in C'.
           destruct (String.eqb start "") eqn:Es;
             [apply String.eqb_eq in Es; contradiction|].
           cbn [negb] in C'.
           exists loc', start. repeat split; assumption.
        -- rewrite (record_or_new_field_default _ _ _ P) in C. inversion C; subst c.
           cbn [truthy] in C'.
           exists loc', (isoformat (a_utcnow a)). repeat split; try assumption.
           intros N. pose proof (isoformat_nonempty (a_utcnow a)) as Z.
           rewrite N in Z. discriminate.
    + assert (N : location <> a_location a).
      { intros ->. rewrite String.eqb_refl in E. discriminate. }
      rewrite (O location N). exact (P location).
Qed.

(** [_calculate_duration] on two strings written by [isoformat]: the
    two float divisions of the span, cut towards zero. *)
Lemma _calculate_duration_isoformat (start end_ : naive) :
  valid_naive start = true -> valid_naive end_ = true ->
  _calculate_duration (PStr (isoformat start)) (PStr (isoformat end_)) =
  whole 60 (wall_micros end_ - wall_micros start).
Proof.
  intros Vs Ve. unfold _calculate_duration, fromisoformat_obj.
  rewrite (fromisoformat_isoformat start Vs), (fromisoformat_isoformat end_ Ve).
  reflexivity.
Qed.

(** Less than a century apart, that is the span in minutes, cut towards
    zero. *)
Lemma _calculate_duration_exact (start end_ : naive) :
  valid_naive start = true -> valid_naive end_ = true ->
  Z.abs (wall_micros end_ - wall_micros start) < century_micros ->
  _calculate_duration (PStr (isoformat start)) (PStr (isoformat end_)) =
  Z.quot (wall_micros end_ - wall_micros start) minute_micros.
Proof.
  intros Vs Ve B. rewrite (_calculate_duration_isoformat _ _ Vs Ve).
  apply whole_minutes_exact. exact B.
Qed.




End Outages.

(* ================================================================== *)
(** * The status of a location (C4, C3) *)
(* ================================================================== *)

Section Status.

Context {python : Interpreter}.

Lemma contains_locations (locs : dict) (location : string) :
  contains (PDict locs) location =
  Ok (match dict_get location locs with Some _ => true | None => false end).
Proof. reflexivity. Qed.

(** A string that parses is not empty. *)
Lemma parsed_truthy (text : string) (d : datetime) :
  fromisoformat text = Ok d -> truthy (PStr text) = true.
Proof.
  intros P. apply fromisoformat_digit in P.
  destruct text; [discriminate P|reflexivity].
Qed.


(** Line 174 is outside any [try]: a [last_success] that is a non-empty
    string and does not parse raises [ValueError]. *)
Lemma get_location_status_unreadable (hd : pyval) (locs : dict) (location : string)
  (utcnow : naive) (loc start : pyval) (text : string) (e : exn) :
  locations_of hd = Some locs ->
  location_record hd location = Some loc ->
  field loc "current_outage_start" = Some start -> truthy start = false ->
  field loc "last_success" = Some (PStr text) -> text <> "" ->
  fromisoformat text = Raise e ->
  get_location_status hd location utcnow = Raise ValueError.
Proof.
  intros L G C T S Ne P.
  rewrite (location_record_locations hd locs location L) in G.
  destruct (locations_of_inv hd locs L) as (d & -> & E).
  unfold get_location_status. cbn [getitem]. rewrite E. cbn [bind].
  rewrite contains_locations. cbn [bind].
  rewrite G. cbn [negb bind getitem]. rewrite G.
  destruct loc as [| | | | |r]; try discriminate. cbn [field] in *.
  cbn [bind getitem]. rewrite C. cbn [bind get_default]. rewrite T, S. cbn [bind].
  assert (Tr : truthy (PStr text) = true).
  { cbn [truthy]. destruct text; [contradiction|reflexivity]. }
  rewrite Tr. cbn [fromisoformat_obj]. rewrite P. cbn [bind].
  rewrite (fromisoformat_raises _ _ P). reflexivity.
Qed.

(** What holds of the error handling: a missing, unreadable or unparseable
    file loads as the empty store, a failed save changes nothing, and an
    unknown location has a status. *)
Lemma _load_health_data_fallback (fs : filesystem) :
  monitor_file fs = None \/ readable fs = false \/
  (exists text, monitor_file fs = Some text /\ Json.loads text = None) ->
  _load_health_data fs = empty_store.
Proof.
  unfold _load_health_data. intros [H|[H|(text & H & P)]].
  - rewrite H. reflexivity.
  - rewrite H. destruct (monitor_file fs); reflexivity.
  - rewrite H, P. destruct (readable fs); reflexivity.
Qed.

Lemma _save_health_data_failure (hd : pyval) (fs : filesystem) :
  writable fs = false -> _save_health_data hd fs = fs.
Proof. unfold _save_health_data. intros ->. reflexivity. Qed.

End Status.

Section EditedFile.

Context {python : Interpreter}.

(** C3 (the code at the failing input): the health file holds a record
    whose [last_success] is not a timestamp; the store loads, and asking for
    the status of that location raises [ValueError], on every
    interpreter. *)
Theorem get_location_status_raises_on_edited_file :
  init Samples.edited_file = Samples.edited_store /\
  get_location_status (init Samples.edited_file) "A" Samples.t_10_40
  = Raise ValueError.
Proof.
  assert (L : init Samples.edited_file = Samples.edited_store)
    by (vm_compute; reflexivity).
  split; [exact L|]. rewrite L.
  apply (get_location_status_unreadable Samples.edited_store _ "A" Samples.t_10_40
           _ PNone "yesterday" ValueError eq_refl eq_refl eq_refl eq_refl eq_refl).
  - discriminate.
  - apply fromisoformat_no_digit. reflexivity.
Qed.

End EditedFile.

(* ================================================================== *)
(** * Stores the monitor built itself always have a status *)
(* ================================================================== *)

Section OwnStores.

Context {python : Interpreter}.

Variables (now : string) (utcnow2 : naive).

Lemma check_stale_count (d : dict) (ft : string) (c : Z) :
  dict_get "stale_forecast_count" d = Some (PInt c) ->
  exists d' c',
    check_stale (PDict d) ft now utcnow2 = PDict d' /\
    dict_get "stale_forecast_count" d' = Some (PInt c') /\
    (forall k, k <> "stale_forecast_count" -> k <> "last_stale_warning" ->
               dict_get k d' = dict_get k d).
Proof.
  intros C. unfold check_stale.
  destruct (fromisoformat _) as [dt|e]; cbn [bind try_except];
    [|exists d, c; repeat split; assumption].
  destruct (sub _ dt) as [age|e]; cbn [bind try_except];
    [|exists d, c; repeat split; assumption].
  rewrite stale_age.
  destruct (12 * hour_micros <? age); cbn [try_except];
    [|exists d, c; repeat split; assumption].
  rewrite (iadd_one_int _ _ _ C). cbn [bind setitem try_except].
  eexists. exists (c + 1). split; [reflexivity|]. split.
  - dict_norm. reflexivity.
  - intros k K1 K2. rewrite !dict_get_set_ne by assumption. reflexivity.
Qed.

Lemma on_forecast_time_count (d : dict) (forecast_time : option string) (c : Z) :
  dict_get "stale_forecast_count" d = Some (PInt c) ->
  exists d' c',
    on_forecast_time (PDict d) forecast_time now utcnow2 = Ok (PDict d') /\
    dict_get "stale_forecast_count" d' = Some (PInt c') /\
    (forall k, k <> "last_forecast_time" -> k <> "stale_forecast_count" ->
               k <> "last_stale_warning" -> dict_get k d' = dict_get k d).
Proof.
  intros C. unfold on_forecast_time.
  destruct forecast_time as [ft|]; [|exists d, c; repeat split; assumption].
  destruct (truthy (PStr ft)); [|exists d, c; repeat split; assumption].
  cbn [setitem bind].
  destruct (check_stale_count (dict_set "last_forecast_time" (PStr ft) d) ft c)
    as (d' & c' & E & C' & Fr); [dict_norm; exact C|].
  exists d', c'. rewrite E. split; [reflexivity|]. split; [exact C'|].
  intros k K1 K2 K3. rewrite (Fr k K2 K3). apply dict_get_set_ne. exact K1.
Qed.

(** After an attempt the fields a status is computed from are in order:
    [last_success] is the timestamp of the attempt or what it was, the
    staleness tally is an integer. *)
Lemma update_location_status_fields (loc loc' : pyval) (success : bool)
  (forecast_time error_message : option string) :
  wf_record loc = true -> status_fields_ok loc = true ->
  naive_timestamp (PStr now) = true ->
  update_location loc success forecast_time error_message now utcnow2 = Ok loc' ->
  status_fields_ok loc' = true.
Proof.
  intros W S N U.
  destruct (wf_record_inv loc W)
    as (d & t & s & f & c & h & -> & T & Sc & F & C & H & _).
  unfold status_fields_ok in S. cbn [field] in S.
  apply andb_true_iff in S. destruct S as [Ls Cn].
  destruct (dict_get "stale_forecast_count" d) as [[| |n| | |]|] eqn:En;
    try discriminate.
  destruct success.
  - revert U. unfold update_location. rewrite (iadd_one_int _ _ _ T).
    cbn [bind setitem]. unfold on_success.
    erewrite iadd_one_int by (dict_norm; exact Sc). cbn [bind setitem].
    match goal with
    | |- context [on_forecast_time (PDict ?d0) _ _ _] =>
        destruct (on_forecast_time_count d0 forecast_time n) as (d1 & n' & E & Cn' & Fr);
          [dict_norm; exact En|]
    end.
    rewrite E. cbn [bind getitem].
    rewrite (Fr "current_outage_start") by discriminate. dict_norm. rewrite C.
    cbn [bind].
    assert (L1 : dict_get "last_success" d1 = Some (PStr now)).
    { rewrite Fr by discriminate. dict_norm. reflexivity. }
    destruct (truthy c).
    + rewrite (Fr "outage_history") by discriminate. dict_norm. rewrite H.
      cbn [bind append setitem]. intros U. inversion U; subst loc'. clear U.
      unfold status_fields_ok. cbn [field]. dict_norm. rewrite L1, Cn'.
      cbn [naive_timestamp] in *. rewrite N. reflexivity.
    + intros U. inversion U; subst loc'. clear U.
      unfold status_fields_ok. cbn [field]. rewrite L1, Cn'.
      cbn [naive_timestamp] in *. rewrite N. reflexivity.
  - destruct (update_location_failure now utcnow2 d forecast_time error_message
                t f c T F C) as (d' & U' & _ & _ & _ & _ & _ & Fr).
    rewrite U in U'. inversion U'; subst loc'. clear U'.
    unfold status_fields_ok. cbn [field].
    rewrite !Fr by (unfold failure_keys; cbn [In]; intuition discriminate).
    rewrite En, Ls. reflexivity.
Qed.

End OwnStores.

Section OwnStoreStatus.

Context {python : Interpreter}.

Lemma naive_timestamp_isoformat (d : naive) :
  valid_naive d = true -> naive_timestamp (PStr (isoformat d)) = true.
Proof.
  intros V. cbn [naive_timestamp]. rewrite (fromisoformat_isoformat d V). reflexivity.
Qed.

Lemma own_store_inv (hd : pyval) :
  own_store hd = true ->
  exists locs,
    locations_of hd = Some locs /\
    forallb (fun kv => (fun v => wf_record v && status_fields_ok v) (snd kv)) locs
    = true.
Proof.
  unfold own_store. destruct (locations_of hd) as [locs|]; [|discriminate].
  intros W. exists locs. split; [reflexivity|exact W].
Qed.

Lemma own_store_wf (hd : pyval) : own_store hd = true -> wf_store hd = true.
Proof.
  intros O. destruct (own_store_inv hd O) as (locs & L & A).
  unfold wf_store. rewrite L. clear L.
  induction locs as [|kv locs IH]; [reflexivity|].
  cbn [forallb] in *. apply andb_true_iff in A. destruct A as [A1 A2].
  apply andb_true_iff in A1. destruct A1 as [A1 _].
  rewrite A1, (IH A2). reflexivity.
Qed.

(** An attempt at a valid clock reading keeps a store the monitor's own. *)
Lemma record_own (st : pyval * filesystem) (a : attempt) :
  own_store (fst st) = true -> valid_clock a = true ->
  exists st', record st a = Ok st' /\ own_store (fst st') = true.
Proof.
  intros O V. destruct st as [hd fs]. cbn [fst] in O. unfold valid_clock in V.
  destruct (own_store_inv hd O) as (locs & L & A).
  pose proof (own_store_wf hd O) as W.
  set (now := isoformat (a_utcnow a)).
  assert (R0 : wf_record (record_or_new hd (a_location a) now) = true /\
               status_fields_ok (record_or_new hd (a_location a) now) = true).
  { unfold record_or_new. rewrite (location_record_locations _ _ _ L).
    destruct (dict_get (a_location a) locs) as [loc|] eqn:G.
    - apply andb_true_iff.
      exact (forallb_dict_get (fun v => wf_record v && status_fields_ok v)
               _ _ _ A G).
    - split; reflexivity. }
  destruct R0 as [W0 S0].
  destruct (update_location_wf now (a_utcnow2 a) (isoformat_nonempty _)
              (record_or_new hd (a_location a) now) (a_success a)
              (a_forecast_time a) (a_error_message a) W0) as (loc' & U & W').
  pose proof (update_location_status_fields now (a_utcnow2 a) _ _ _ _ _ W0 S0
                (naive_timestamp_isoformat _ V) U) as S'.
  destruct (record_attempt_store hd fs locs (a_location a) (a_forecast_type a)
              (a_success a) (a_forecast_time a) (a_error_message a)
              (a_utcnow a) (a_utcnow2 a) loc' L U) as (hd' & R & L' & _ & _).
  exists (hd', _save_health_data hd' fs). split; [exact R|].
  cbn [fst]. unfold own_store. rewrite L'.
  apply (forallb_dict_set (fun v => wf_record v && status_fields_ok v));
    [|rewrite W', S'; reflexivity].
  destruct (dict_mem (a_location a) locs); [exact A|].
  apply (forallb_dict_set (fun v => wf_record v && status_fields_ok v));
    [exact A|reflexivity].
Qed.

Lemma record_all_own (l : list attempt) : forall st : pyval * filesystem,
  own_store (fst st) = true -> forallb valid_clock l = true ->
  exists st', record_all st l = Ok st' /\ own_store (fst st') = true.
Proof.
  induction l as [|a l IH]; intros st O V; cbn [record_all].
  - exists st. split; [reflexivity|exact O].
  - cbn [forallb] in V. apply andb_true_iff in V. destruct V as [Va V].
    destruct (record_own st a O Va) as (st1 & R & O1).
    rewrite R. cbn [bind]. exact (IH st1 O1 V).
Qed.

(** On a store of the monitor's own making [get_location_status] does not
    raise, for any location and at any time, and answers with one of the
    five statuses. *)
Lemma get_location_status_defined (hd : pyval) (location : string) (utcnow : naive) :
  own_store hd = true ->
  exists st, get_location_status hd location utcnow = Ok st /\ known_status st = true.
Proof.
  intros O. destruct (own_store_inv hd O) as (locs & L & A).
  destruct (locations_of_inv hd locs L) as (d & -> & E).
  unfold get_location_status. cbn [getitem]. rewrite E. cbn [bind contains].
  unfold dict_mem.
  destruct (dict_get location locs) as [loc|] eqn:G; cbn [negb];
    [|eexists; split; reflexivity].
  cbn [bind getitem]. rewrite G. cbn [bind].
  pose proof (forallb_dict_get (fun v => wf_record v && status_fields_ok v)
                _ _ _ A G) as WS.
  apply andb_true_iff in WS. destruct WS as [W S].
  destruct (wf_record_inv loc W)
    as (r & t & s & f & c & h & -> & _ & _ & _ & C & _ & _ & _ & _ & _ & Hc).
  cbn [getitem]. rewrite C. cbn [bind].
  destruct Hc as [->|(str & -> & N)].
  2:{ cbn [truthy]. rewrite N. cbn [negb get_default bind].
      eexists. split; reflexivity. }
  cbn [truthy].
  unfold status_fields_ok in S. cbn [field] in S.
  apply andb_true_iff in S. destruct S as [Ls Cn].
  destruct (dict_get "last_success" r) as [ls|]; [|discriminate]. cbn [bind].
  destruct (dict_get "stale_forecast_count" r) as [[| |n| | |]|] eqn:En;
    try discriminate.
  destruct ls as [| | |text| |]; try discriminate;
    [eexists; split; reflexivity|].
  cbn [naive_timestamp] in Ls.
  destruct (fromisoformat text) as [[last [off|]]|e] eqn:P; try discriminate.
  rewrite (parsed_truthy _ _ P). cbn [fromisoformat_obj]. rewrite P.
  cbn [bind sub of_utcnow tzinfo fields].
  destruct (_ <? 2 * hour_micros); [|eexists; split; reflexivity].
  cbn [get_default bind]. rewrite En.
  destruct (0 <? n); cbn [bind]; eexists; split; reflexivity.
Qed.

(** X9: From a fresh store, through any sequence of attempts at valid clock
    readings, every location has a status at any time. *)
Theorem status_after_attempts (fs : filesystem) (l : list attempt)
  (location : string) (utcnow : naive) :
  forallb valid_clock l = true ->
  exists st status,
    record_all (empty_store, fs) l = Ok st /\
    get_location_status (fst st) location utcnow = Ok status /\
    known_status status = true.
Proof.
  intros V.
  destruct (record_all_own l (empty_store, fs) eq_refl V) as (st & R & O).
  destruct (get_location_status_defined (fst st) location utcnow O) as (s & G & K).
  exists st, s. repeat split; assumption.
Qed.

End OwnStoreStatus.

(* ================================================================== *)
(** * Forecast times and staleness (C2, C7, C9) *)
(* ================================================================== *)

Section Staleness.

Context {python : Interpreter}.

(** What the forecast-time part of a success does in general.  A forecast
    time that parses as a naive datetime is counted when it is more than 12
    hours behind the second clock reading. *)
Lemma naive_forecast_time_counted (d : dict) (ft now : string) (dt utcnow2 : naive)
  (c : Z) :
  String.eqb ft "" = false ->
  fromisoformat (replace_char "Z" "+00:00" ft) = Ok (mkDatetime dt None) ->
  dict_get "stale_forecast_count" d = Some (PInt c) ->
  exists d',
    on_forecast_time (PDict d) (Some ft) now utcnow2 = Ok (PDict d') /\
    dict_get "stale_forecast_count" d' =
      Some (PInt (if 12 * hour_micros <? wall_micros utcnow2 - wall_micros dt
                  then c + 1 else c)) /\
    dict_get "last_stale_warning" d' =
      (if 12 * hour_micros <? wall_micros utcnow2 - wall_micros dt
       then Some (PStr now) else dict_get "last_stale_warning" d).
Proof.
  intros N P C. unfold on_forecast_time. cbn [truthy]. rewrite N.
  cbn [negb setitem bind].
  rewrite (check_stale_naive now utcnow2 _ ft dt c P) by (dict_norm; exact C).
  destruct (_ <? _); eexists; (split; [reflexivity|]); dict_norm;
    split; first [reflexivity | exact C].
Qed.

(** A forecast time that parses as an aware datetime, as every time with a
    Z suffix or an offset does, is never counted. *)
Lemma aware_forecast_time_never_counted (d : dict) (ft now : string)
  (dt utcnow2 : naive) (off : Z) :
  String.eqb ft "" = false ->
  fromisoformat (replace_char "Z" "+00:00" ft) = Ok (mkDatetime dt (Some off)) ->
  on_forecast_time (PDict d) (Some ft) now utcnow2 =
  Ok (PDict (dict_set "last_forecast_time" (PStr ft) d)).
Proof.
  intros N P. unfold on_forecast_time. cbn [truthy]. rewrite N.
  cbn [negb setitem bind].
  rewrite (check_stale_aware now utcnow2 _ ft dt off P). reflexivity.
Qed.

(** [check_data_freshness] where it does what its docstring says *)
Lemma check_data_freshness_absent (d : dict) (utcnow : naive) :
  dict_get "updated" d = None -> check_data_freshness (PDict d) utcnow = true.
Proof.
  intros H. unfold check_data_freshness. cbn [contains]. unfold dict_mem.
  rewrite H. reflexivity.
Qed.

Lemma check_data_freshness_unparseable (d : dict) (text : string) (e : exn)
  (utcnow : naive) :
  dict_get "updated" d = Some (PStr text) ->
  fromisoformat (replace_char "Z" "+00:00" text) = Raise e ->
  check_data_freshness (PDict d) utcnow = true.
Proof.
  intros H P. unfold check_data_freshness. cbn [contains]. unfold dict_mem.
  rewrite H. cbn [bind getitem]. rewrite H. cbn [bind]. rewrite P. reflexivity.
Qed.

Lemma check_data_freshness_naive (d : dict) (text : string) (updated utcnow : naive) :
  dict_get "updated" d = Some (PStr text) ->
  fromisoformat (replace_char "Z" "+00:00" text) = Ok (mkDatetime updated None) ->
  check_data_freshness (PDict d) utcnow =
  (wall_micros utcnow - wall_micros updated <=? 12 * hour_micros).
Proof.
  intros H P. unfold check_data_freshness. cbn [contains]. unfold dict_mem.
  rewrite H. cbn [bind getitem]. rewrite H. cbn [bind]. rewrite P.
  cbn [bind sub of_utcnow tzinfo fields try_except]. apply fresh_age.
Qed.

(** An aware timestamp, which is what a Z suffix gives, is always fresh. *)
Lemma check_data_freshness_aware (d : dict) (text : string) (updated utcnow : naive)
  (off : Z) :
  dict_get "updated" d = Some (PStr text) ->
  fromisoformat (replace_char "Z" "+00:00" text) = Ok (mkDatetime updated (Some off)) ->
  check_data_freshness (PDict d) utcnow = true.
Proof.
  intros H P. unfold check_data_freshness. cbn [contains]. unfold dict_mem.
  rewrite H. cbn [bind getitem]. rewrite H. cbn [bind]. rewrite P. reflexivity.
Qed.

(** C9, amended: on a successful attempt [last_forecast_time] becomes the
    supplied forecast time whenever one is supplied and is not the empty
    string, whether or not it parses; with no forecast time, or an empty
    one, it is left as it was. *)
Theorem last_forecast_time_stored_as_given (hd : pyval) (fs : filesystem)
  (location forecast_type : string) (forecast_time error_message : option string)
  (utcnow utcnow2 : naive) :
  wf_store hd = true ->
  exists hd' fs' loc',
    record_attempt hd fs location forecast_type true forecast_time
      error_message utcnow utcnow2 = Ok (hd', fs') /\
    location_record hd' location = Some loc' /\
    field loc' "last_forecast_time" =
      match forecast_time with
      | Some ft =>
          if String.eqb ft ""
          then field (record_or_new hd location (isoformat utcnow)) "last_forecast_time"
          else Some (PStr ft)
      | None => field (record_or_new hd location (isoformat utcnow)) "last_forecast_time"
      end.
Proof.
  intros W.
  destruct (record_attempt_wf hd fs location forecast_type true forecast_time
              error_message utcnow utcnow2 W) as (hd' & loc' & R & U & G & _ & _).
  exists hd', (_save_health_data hd' fs), loc'.
  split; [exact R|]. split; [exact G|].
  destruct (wf_record_inv _ (record_or_new_wf hd location (isoformat utcnow) W))
    as (d & t & s & f & c & h & Eq & T & S & F & C & H & _).
  rewrite Eq in *.
  destruct (update_location_success (isoformat utcnow) utcnow2 d forecast_time
              error_message t s c h T S C H) as (d' & U' & _ & _ & _ & _ & _ & Lft & _).
  rewrite U in U'. inversion U'; subst loc'. cbn [field]. exact Lft.
Qed.

End Staleness.

Section StalenessAtWork.

Context {python : Interpreter}.

(** The forecast time of the samples, with and without the Z suffix, on
    every interpreter *)
Lemma old_forecast_Z_aware :
  fromisoformat (replace_char "Z" "+00:00" Samples.old_forecast_Z)
  = Ok (mkDatetime (mkNaive 2024 4 30 21 0 0 0) (Some 0)).
Proof. apply fromisoformat_extends. vm_compute. reflexivity. Qed.

Lemma old_forecast_naive_naive :
  fromisoformat (replace_char "Z" "+00:00" Samples.old_forecast_naive)
  = Ok (mkDatetime (mkNaive 2024 4 30 21 0 0 0) None).
Proof. apply fromisoformat_extends. vm_compute. reflexivity. Qed.

(** C2 (the code at the failing input): a successful attempt whose forecast
    time, written with a Z suffix, is 13 hours 40 minutes old.  The time
    parses, as an aware datetime; subtracting it from the naive clock
    reading is a [TypeError], which the [except] clause swallows: the tally
    stays 0 and no warning time is set.  The same forecast time without the
    suffix is counted.  This is so on every interpreter. *)
Theorem stale_forecast_with_Z_suffix_not_counted :
  fromisoformat (replace_char "Z" "+00:00" Samples.old_forecast_Z)
  = Ok (mkDatetime (mkNaive 2024 4 30 21 0 0 0) (Some 0)) /\
  (exists hd fs loc,
     record_attempt empty_store Samples.no_file "A" "local" true
       (Some Samples.old_forecast_Z) None Samples.t_10_40 Samples.t_10_40
     = Ok (hd, fs) /\
     location_record hd "A" = Some loc /\
     field loc "stale_forecast_count" = Some (PInt 0) /\
     field loc "last_stale_warning" = None) /\
  (exists hd fs loc,
     record_attempt empty_store Samples.no_file "A" "local" true
       (Some Samples.old_forecast_naive) None Samples.t_10_40 Samples.t_10_40
     = Ok (hd, fs) /\
     location_record hd "A" = Some loc /\
     field loc "stale_forecast_count" = Some (PInt 1) /\
     field loc "last_stale_warning" = Some (PStr (isoformat Samples.t_10_40))).
Proof.
  split; [exact old_forecast_Z_aware|]. split.
  - destruct (record_attempt_wf empty_store Samples.no_file "A" "local" true
                (Some Samples.old_forecast_Z) None Samples.t_10_40 Samples.t_10_40
                eq_refl) as (hd' & loc' & R & U & G & _ & _).
    exists hd', (_save_health_data hd' Samples.no_file), loc'.
    split; [exact R|]. split; [exact G|].
    lazy -[check_stale _calculate_duration] in U.
    rewrite (check_stale_aware _ _ _ Samples.old_forecast_Z _ _ old_forecast_Z_aware)
      in U.
    lazy in U. inversion U; subst loc'. split; reflexivity.
  - destruct (record_attempt_wf empty_store Samples.no_file "A" "local" true
                (Some Samples.old_forecast_naive) None Samples.t_10_40
                Samples.t_10_40 eq_refl) as (hd' & loc' & R & U & G & _ & _).
    exists hd', (_save_health_data hd' Samples.no_file), loc'.
    split; [exact R|]. split; [exact G|].
    lazy -[check_stale _calculate_duration] in U.
    rewrite (check_stale_naive _ _ _ Samples.old_forecast_naive _ 0
               old_forecast_naive_naive) in U by reflexivity.
    lazy in U. inversion U; subst loc'. split; reflexivity.
Qed.

(** C7 (the code at the failing input): the payload's [updated] field is
    present, parses, and is 13 hours 40 minutes older than the clock
    reading, yet [check_data_freshness] answers [True]; without the Z
    suffix the same time is reported stale.  This is so on every
    interpreter. *)
Theorem check_data_freshness_Z_suffix_always_fresh :
  check_data_freshness (PDict [("updated", PStr Samples.old_forecast_Z)])
    Samples.t_10_40 = true /\
  check_data_freshness (PDict [("updated", PStr Samples.old_forecast_naive)])
    Samples.t_10_40 = false.
Proof.
  split.
  - apply (check_data_freshness_aware _ Samples.old_forecast_Z
             (mkNaive 2024 4 30 21 0 0 0) Samples.t_10_40 0);
      [reflexivity|exact old_forecast_Z_aware].
  - rewrite (check_data_freshness_naive _ Samples.old_forecast_naive
               (mkNaive 2024 4 30 21 0 0 0) Samples.t_10_40);
      [vm_compute; reflexivity|reflexivity|exact old_forecast_naive_naive].
Qed.

(** A forecast time that no interpreter reads is stored all the same. *)
Lemma forecast_time_soon_is_stored :
  fromisoformat (replace_char "Z" "+00:00" "soon") = Raise ValueError /\
  field (new_location (isoformat Samples.t_10_00)) "last_forecast_time" = Some PNone /\
  exists hd fs loc,
    record_attempt empty_store Samples.no_file "A" "local" true (Some "soon") None
      Samples.t_10_00 Samples.t_10_00 = Ok (hd, fs) /\
    location_record hd "A" = Some loc /\
    field loc "last_forecast_time" = Some (PStr "soon").
Proof.
  assert (P : fromisoformat (replace_char "Z" "+00:00" "soon") = Raise ValueError)
    by (apply fromisoformat_no_digit; reflexivity).
  split; [exact P|]. split; [reflexivity|].
  destruct (record_attempt_wf empty_store Samples.no_file "A" "local" true
              (Some "soon") None Samples.t_10_00 Samples.t_10_00 eq_refl)
    as (hd' & loc' & R & U & G & _ & _).
  exists hd', (_save_health_data hd' Samples.no_file), loc'.
  split; [exact R|]. split; [exact G|].
  lazy -[check_stale _calculate_duration] in U.
  rewrite (check_stale_unparseable _ _ _ "soon" _ P) in U.
  lazy in U. inversion U; subst loc'. reflexivity.
Qed.

End StalenessAtWork.

Section UnparseableForecastTime.

#[local] Existing Instance python_3_7.

(** C9, as stated, fails: a forecast time that does not parse is stored
    all the same. *)
Lemma unparseable_forecast_time_is_stored :
  fromisoformat (replace_char "Z" "+00:00" "soon") = Raise ValueError /\
  field (new_location (isoformat Samples.t_10_00)) "last_forecast_time" = Some PNone /\
  exists hd fs loc,
    record_attempt empty_store Samples.no_file "A" "local" true (Some "soon") None
      Samples.t_10_00 Samples.t_10_00 = Ok (hd, fs) /\
    location_record hd "A" = Some loc /\
    field loc "last_forecast_time" = Some (PStr "soon").
Proof.
  split; [vm_compute; reflexivity|]. split; [reflexivity|].
  eexists; eexists; eexists. split; [vm_compute; reflexivity|].
  split; vm_compute; reflexivity.
Qed.

End UnparseableForecastTime.

(* ================================================================== *)
(** * Writing a store and reading it back (C8) *)
(* ================================================================== *)

Section JsonFacts.

Import Json.

Lemma append_assoc (a b c : string) : (a ++ b) ++ c = a ++ (b ++ c).
Proof. induction a as [|x a IH]; simpl; [reflexivity|]. f_equal. exact IH. Qed.

Lemma append_nil_r (a : string) : a ++ EmptyString = a.
Proof. induction a as [|x a IH]; simpl; [reflexivity|]. f_equal. exact IH. Qed.

Lemma code_chr (n : Z) : 0 <= n < 256 -> code (chr n) = n.
Proof.
  intros H. unfold code, chr. rewrite N_ascii_embedding by lia. lia.
Qed.

(** An escaped character reads back as the character. *)
Lemma parse_escape_char (c : ascii) (rest : string) :
  parse_string_body (escape_char c rest) =
  match parse_string_body rest with
  | Some (str, r) => Some (String c str, r)
  | None => None
  end.
Proof.
  destruct c as [b0 b1 b2 b3 b4 b5 b6 b7].
  destruct b0, b1, b2, b3, b4, b5, b6, b7; reflexivity.
Qed.

Lemma parse_escape (s : string) (tail : string) :
  parse_string_body (escape s (String dquote tail)) = Some (s, tail).
Proof.
  induction s as [|c s IH]; cbn [escape].
  - reflexivity.
  - rewrite parse_escape_char, IH. reflexivity.
Qed.

Lemma take_digits_end (tail : string) (n : Z) :
  ends_number tail -> take_digits tail n = (n, tail).
Proof.
  destruct tail as [|c r]; cbn [take_digits ends_number]; [reflexivity|].
  intros [D _]. rewrite D. reflexivity.
Qed.

Lemma starts_float_part_end (tail : string) :
  ends_number tail -> starts_float_part tail = false.
Proof. destruct tail; [reflexivity|]. intros [_ F]. exact F. Qed.

(** The digits of a positive number: a first digit that is not 0, then a
    run of digits that [take_digits] folds into the number. *)
Lemma digits_pos_spec (fuel : nat) : forall (n : Z) (acc : string),
  1 <= n < 10 ^ Z.of_nat fuel ->
  exists d0 body,
    1 <= d0 <= 9 /\
    digits_pos fuel n acc = String (digit_char d0) (body ++ acc) /\
    forall tail, take_digits (body ++ tail) d0 = take_digits tail n.
Proof.
  induction fuel as [|fuel IH]; intros n acc Hn.
  - simpl in Hn. lia.
  - cbn [digits_pos]. destruct (n <? 10) eqn:E.
    + apply Z.ltb_lt in E. exists n, EmptyString.
      split; [lia|]. split.
      * unfold digit_char. rewrite Z.mod_small by lia. reflexivity.
      * intros tail. reflexivity.
    + apply Z.ltb_ge in E.
      rewrite Nat2Z.inj_succ, Z.pow_succ_r in Hn by lia.
      destruct (IH (n / 10) (String (ascii_of_N (Z.to_N (48 + n mod 10))) acc))
        as (d0 & body & Hd & Eq & Tk).
      { split.
        - apply Z.div_le_lower_bound; lia.
        - apply Z.div_lt_upper_bound; lia. }
      exists d0, (body ++ String (digit_char (n mod 10)) EmptyString).
      split; [exact Hd|]. split.
      * rewrite Eq. rewrite append_assoc. reflexivity.
      * intros tail. rewrite append_assoc. rewrite Tk.
        cbn [String.append take_digits].
        rewrite digit_digit_char by (apply Z.mod_pos_bound; lia).
        f_equal. pose proof (Z.div_mod n 10 ltac:(lia)). lia.
Qed.

Lemma pow2_le_pow10 (k : nat) : 2 ^ Z.of_nat k <= 10 ^ Z.of_nat k.
Proof. apply Z.pow_le_mono_l. lia. Qed.

Lemma str_of_nonneg_spec (n : Z) (tail : string) :
  0 <= n -> ends_number tail ->
  exists c r, str_of_nonneg n ++ tail = String c r /\
              48 <= code c <= 57 /\
              parse_nat (String c r) = Some (n, tail).
Proof.
  intros Hn Ht.
  destruct (Z.eq_dec n 0) as [->|Nz].
  - exists "0"%char, tail. split; [reflexivity|]. split; [vm_compute; split; discriminate|].
    unfold parse_nat. cbn [digit]. change (digit "0") with (Some 0).
    cbn [Z.eqb]. rewrite (starts_float_part_end tail Ht). reflexivity.
  - unfold str_of_nonneg.
    destruct (digits_pos_spec (S (Z.to_nat (Z.log2 n))) n EmptyString)
      as (d0 & body & Hd & Eq & Tk).
    { split; [lia|].
      pose proof (Z.log2_spec n ltac:(lia)) as [_ Hl].
      pose proof (pow2_le_pow10 (S (Z.to_nat (Z.log2 n)))) as Hp.
      rewrite Nat2Z.inj_succ, Z2Nat.id in * by (apply Z.log2_nonneg).
      lia. }
    rewrite Eq. exists (digit_char d0), ((body ++ EmptyString) ++ tail).
    split; [reflexivity|]. split.
    + unfold digit_char. fold (chr (48 + d0)). rewrite code_chr by lia. lia.
    + unfold parse_nat. rewrite digit_digit_char by lia.
      replace (d0 =? 0) with false by (symmetry; apply Z.eqb_neq; lia).
      rewrite append_nil_r, Tk, (take_digits_end tail n Ht).
      rewrite (starts_float_part_end tail Ht). reflexivity.
Qed.

(** [str(n)] reads back as [n]. *)
Lemma parse_str_of_int (n : Z) (tail : string) :
  ends_number tail ->
  exists c r, str_of_int n ++ tail = String c r /\
              (code c = 45 \/ 48 <= code c <= 57) /\
              parse_int (String c r) = Some (n, tail).
Proof.
  intros Ht. unfold str_of_int. destruct (n <? 0) eqn:E.
  - apply Z.ltb_lt in E.
    destruct (str_of_nonneg_spec (- n) tail ltac:(lia) Ht) as (c & r & Eq & Hc & P).
    exists "-"%char, (String c r). split; [cbn [String.append]; rewrite Eq; reflexivity|].
    split; [left; reflexivity|].
    unfold parse_int. change (code "-" =? 45) with true. cbn iota.
    rewrite P. f_equal. f_equal. lia.
  - apply Z.ltb_ge in E.
    destruct (str_of_nonneg_spec n tail E Ht) as (c & r & Eq & Hc & P).
    exists c, r. split; [exact Eq|]. split; [right; exact Hc|].
    unfold parse_int.
    replace (code c =? 45) with false by (symmetry; apply Z.eqb_neq; lia).
    exact P.
Qed.

Lemma skip_ws_spaces (n : nat) (t : string) : skip_ws (spaces n t) = skip_ws t.
Proof. induction n as [|n IH]; [reflexivity|]. exact IH. Qed.

Lemma skip_ws_newline_indent (level : nat) (t : string) :
  skip_ws (newline_indent level t) = skip_ws t.
Proof. unfold newline_indent. cbn [skip_ws]. apply skip_ws_spaces. Qed.

Lemma str_of_int_head (n : Z) (tail : string) :
  exists c r, str_of_int n ++ tail = String c r /\
              (code c = 45 \/ 48 <= code c <= 57).
Proof.
  destruct (parse_str_of_int n EmptyString I) as (c & r & Eq & Hc & _).
  rewrite append_nil_r in Eq. exists c, (r ++ tail).
  rewrite Eq. split; [reflexivity|exact Hc].
Qed.

Lemma dump_head (level : nat) (v : pyval) (tail : string) :
  exists c r, dump level v tail = String c r /\ value_head c.
Proof.
  unfold value_head.
  destruct v as [|[|]|n|s|[|x xs]|[|[k x] xs]]; cbn [dump];
    try (eexists; eexists; split; [reflexivity|]; vm_compute; tauto).
  destruct (str_of_int_head n tail) as (c & r & Eq & Hc).
  exists c, r. split; [exact Eq|]. tauto.
Qed.

Lemma skip_ws_head (c : ascii) (r : string) :
  value_head c -> skip_ws (String c r) = String c r.
Proof.
  unfold value_head. intros H. cbn [skip_ws]. unfold is_ws.
  replace (code c =? 32) with false by (symmetry; apply Z.eqb_neq; lia).
  replace (code c =? 9) with false by (symmetry; apply Z.eqb_neq; lia).
  replace (code c =? 10) with false by (symmetry; apply Z.eqb_neq; lia).
  replace (code c =? 13) with false by (symmetry; apply Z.eqb_neq; lia).
  reflexivity.
Qed.

Lemma skip_ws_dump (level : nat) (v : pyval) (tail : string) :
  skip_ws (dump level v tail) = dump level v tail.
Proof.
  destruct (dump_head level v tail) as (c & r & Eq & H).
  rewrite Eq. apply skip_ws_head. exact H.
Qed.

Lemma dict_set_fresh (k : string) (v : pyval) (d : dict) :
  dict_get k d = None -> dict_set k v d = (d ++ [(k, v)])%list.
Proof.
  induction d as [|[k0 v0] d IH]; cbn [dict_get dict_set app]; [reflexivity|].
  destruct (String.eqb k k0); [discriminate|].
  intros H. rewrite (IH H). reflexivity.
Qed.

Lemma distinct_fresh (acc : dict) (k : string) (x : pyval) (xs : dict) :
  distinct (map fst (acc ++ (k, x) :: xs)) = true -> dict_get k acc = None.
Proof.
  induction acc as [|[k0 v0] acc IH]; cbn [app map fst distinct dict_get];
    [reflexivity|].
  intros H. apply andb_true_iff in H. destruct H as [N D].
  rewrite map_app, existsb_app in N. cbn [map fst existsb] in N.
  destruct (String.eqb k k0) eqn:E.
  - rewrite String.eqb_sym in E. rewrite E in N.
    rewrite orb_true_r in N. discriminate.
  - exact (IH D).
Qed.

Lemma distinct_tail (acc : dict) (k : string) (x : pyval) (xs : dict) :
  distinct (map fst (acc ++ (k, x) :: xs)) = true ->
  distinct (map fst ((acc ++ [(k, x)]) ++ xs)) = true.
Proof. rewrite <- app_assoc. cbn [app]. intros H; exact H. Qed.

Lemma parse_value_string (f : nat) (r : string) :
  parse_value (S f) (String dquote r) =
  match parse_string_body r with
  | Some (str, rest) => Some (PStr str, rest)
  | None => None
  end.
Proof. reflexivity. Qed.

Lemma parse_value_list (f : nat) (r : string) :
  parse_value (S f) (String "[" r) =
  match skip_ws r with
  | String c1 r1 =>
      if code c1 =? 93 then Some (PList [], r1)
      else parse_elems f (String c1 r1) []
  | EmptyString => None
  end.
Proof. reflexivity. Qed.

Lemma parse_value_dict (f : nat) (r : string) :
  parse_value (S f) (String "{" r) =
  match skip_ws r with
  | String c1 r1 =>
      if code c1 =? 125 then Some (PDict [], r1)
      else parse_members f (String c1 r1) []
  | EmptyString => None
  end.
Proof. reflexivity. Qed.

Lemma parse_value_int (f : nat) (c : ascii) (r : string) :
  code c = 45 \/ 48 <= code c <= 57 ->
  parse_value (S f) (String c r) =
  match parse_int (String c r) with
  | Some (z, rest) => Some (PInt z, rest)
  | None => None
  end.
Proof.
  intros H. cbn [parse_value].
  replace (code c =? 34) with false by (symmetry; apply Z.eqb_neq; lia).
  replace (code c =? 123) with false by (symmetry; apply Z.eqb_neq; lia).
  replace (code c =? 91) with false by (symmetry; apply Z.eqb_neq; lia).
  replace (code c =? 110) with false by (symmetry; apply Z.eqb_neq; lia).
  replace (code c =? 116) with false by (symmetry; apply Z.eqb_neq; lia).
  replace (code c =? 102) with false by (symmetry; apply Z.eqb_neq; lia).
  reflexivity.
Qed.

Lemma skip_ws_comma (r : string) : skip_ws (String "," r) = String "," r.
Proof. reflexivity. Qed.

Lemma skip_ws_colon (r : string) : skip_ws (String ":" r) = String ":" r.
Proof. reflexivity. Qed.

Lemma skip_ws_space (r : string) : skip_ws (String " " r) = skip_ws r.
Proof. reflexivity. Qed.

Lemma skip_ws_dump_string (k r : string) : skip_ws (dump_string k r) = dump_string k r.
Proof. reflexivity. Qed.

Lemma skip_ws_close_list (r : string) : skip_ws (String "]" r) = String "]" r.
Proof. reflexivity. Qed.

Lemma skip_ws_close_dict (r : string) : skip_ws (String "}" r) = String "}" r.
Proof. reflexivity. Qed.

Lemma ends_number_items (dump1 : pyval -> string -> string) (level : nat)
  (tail : string) (xs : list pyval) :
  ends_number (dump_items dump1 level tail xs).
Proof. destruct xs; split; reflexivity. Qed.

Lemma ends_number_members (dump1 : pyval -> string -> string) (level : nat)
  (tail : string) (xs : dict) :
  ends_number (dump_members dump1 level tail xs).
Proof. destruct xs as [|[k y] ys]; split; reflexivity. Qed.

Lemma elems_read_back (level : nat) (tail : string) (xs : list pyval) :
  Forall reads_back xs -> forallb unique_keys xs = true ->
  forall (x : pyval) (acc : list pyval) (f : nat),
    reads_back x -> unique_keys x = true ->
    (S (size x) + list_sum (map (fun y => S (size y)) xs) <= f)%nat ->
    parse_elems f (dump (S level) x (dump_items (dump (S level)) level tail xs)) acc
    = Some (PList (acc ++ x :: xs), tail).
Proof.
  induction xs as [|y ys IH]; intros Hxs Uxs x acc f Hx Ux Hf.
  - destruct f as [|f]; [cbn in Hf; lia|]. cbn [parse_elems].
    rewrite (Hx Ux (S level) f _ ltac:(cbn in Hf; lia)
               (ends_number_items _ _ _ [])).
    cbn [dump_items]. rewrite skip_ws_newline_indent, skip_ws_close_list.
    reflexivity.
  - destruct f as [|f]; [cbn in Hf; lia|]. cbn [parse_elems].
    unfold list_sum in *. cbn [map fold_right] in Hf.
    rewrite (Hx Ux (S level) f _ ltac:(lia) (ends_number_items _ _ _ (y :: ys))).
    cbn [dump_items]. rewrite skip_ws_comma.
    change (code "," =? 44) with true. cbv iota.
    rewrite skip_ws_newline_indent, skip_ws_dump.
    inversion Hxs as [|? ? Hy Hys]; subst.
    cbn [forallb] in Uxs. apply andb_true_iff in Uxs. destruct Uxs as [Uy Uys].
    rewrite (IH Hys Uys y (acc ++ [x])%list f Hy Uy ltac:(lia)).
    rewrite <- app_assoc. reflexivity.
Qed.

Lemma members_read_back (level : nat) (tail : string) (xs : dict) :
  Forall (fun kv => reads_back (snd kv)) xs ->
  forallb (fun kv => unique_keys (snd kv)) xs = true ->
  forall (k : string) (x : pyval) (acc : dict) (f : nat),
    reads_back x -> unique_keys x = true ->
    distinct (map fst (acc ++ (k, x) :: xs)) = true ->
    (S (size x) + list_sum (map (fun kv => S (size (snd kv))) xs) <= f)%nat ->
    parse_members f
      (dump_string k (String ":" (String " " (
         dump (S level) x (dump_members (dump (S level)) level tail xs))))) acc
    = Some (PDict (acc ++ (k, x) :: xs), tail).
Proof.
  induction xs as [|[k' y] ys IH]; intros Hxs Uxs k x acc f Hx Ux D Hf.
  - destruct f as [|f]; [cbn in Hf; lia|].
    unfold dump_string. cbn [parse_members].
    change (code dquote =? 34) with true. cbv iota.
    rewrite parse_escape, skip_ws_colon.
    change (code ":" =? 58) with true. cbv iota.
    rewrite skip_ws_space, skip_ws_dump.
    rewrite (Hx Ux (S level) f _ ltac:(cbn in Hf; lia)
               (ends_number_members _ _ _ [])).
    cbn [dump_members]. rewrite skip_ws_newline_indent, skip_ws_close_dict.
    rewrite (dict_set_fresh _ _ _ (distinct_fresh _ _ _ _ D)).
    reflexivity.
  - destruct f as [|f]; [cbn in Hf; lia|].
    unfold dump_string at 1. cbn [parse_members].
    change (code dquote =? 34) with true. cbv iota.
    rewrite parse_escape, skip_ws_colon.
    change (code ":" =? 58) with true. cbv iota.
    rewrite skip_ws_space, skip_ws_dump.
    unfold list_sum in *. cbn [map fold_right snd] in Hf.
    rewrite (Hx Ux (S level) f _ ltac:(lia)
               (ends_number_members _ _ _ ((k', y) :: ys))).
    cbn [dump_members]. rewrite skip_ws_comma.
    change (code "," =? 44) with true. cbv iota.
    rewrite skip_ws_newline_indent, skip_ws_dump_string.
    rewrite (dict_set_fresh _ _ _ (distinct_fresh _ _ _ _ D)).
    inversion Hxs as [|? ? Hy Hys]; subst. cbn [snd] in Hy.
    cbn [forallb snd] in Uxs. apply andb_true_iff in Uxs. destruct Uxs as [Uy Uys].
    rewrite (IH Hys Uys k' y (acc ++ [(k, x)])%list f Hy Uy
               (distinct_tail _ _ _ _ D) ltac:(lia)).
    rewrite <- app_assoc. reflexivity.
Qed.

Lemma dump_reads_back (v : pyval) : reads_back v.
Proof.
  induction v as [|b|n|s|l IH|d IH] using pyval_ind;
    intros U level fuel tail Hf Ht;
    (destruct fuel as [|f]; [cbn in Hf; lia|]).
  - reflexivity.
  - destruct b; reflexivity.
  - cbn [dump].
    destruct (parse_str_of_int n tail Ht) as (c & r & Eq & Hc & P).
    rewrite Eq, (parse_value_int f c r Hc), P. reflexivity.
  - cbn [dump]. unfold dump_string. rewrite parse_value_string, parse_escape.
    reflexivity.
  - destruct l as [|x xs]; [reflexivity|].
    cbn [dump]. rewrite parse_value_list, skip_ws_newline_indent, skip_ws_dump.
    destruct (dump_head (S level) x (dump_items (dump (S level)) level tail xs))
      as (c & r & Eq & Hc).
    rewrite Eq.
    replace (code c =? 93) with false
      by (symmetry; apply Z.eqb_neq; unfold value_head in Hc; lia).
    rewrite <- Eq.
    inversion IH as [|? ? Hx Hxs]; subst.
    cbn [unique_keys forallb] in U. apply andb_true_iff in U. destruct U as [Ux Uxs].
    cbn [size] in Hf. unfold list_sum in Hf. cbn [map fold_right] in Hf.
    exact (elems_read_back level tail xs Hxs Uxs x [] f Hx Ux
             ltac:(unfold list_sum; lia)).
  - destruct d as [|[k x] xs]; [reflexivity|].
    cbn [dump]. rewrite parse_value_dict, skip_ws_newline_indent, skip_ws_dump_string.
    unfold dump_string at 1.
    change (code dquote =? 125) with false. cbv iota.
    fold (dump_string k (String ":" (String " " (
            dump (S level) x (dump_members (dump (S level)) level tail xs))))).
    inversion IH as [|? ? Hx Hxs]; subst. cbn [snd] in Hx.
    cbn [unique_keys] in U. apply andb_true_iff in U. destruct U as [D U].
    cbn [forallb snd] in U. apply andb_true_iff in U. destruct U as [Ux Uxs].
    cbn [size] in Hf. unfold list_sum in Hf. cbn [map fold_right snd] in Hf.
    exact (members_read_back level tail xs Hxs Uxs k x [] f Hx Ux D
             ltac:(unfold list_sum; lia)).
Qed.

Lemma length_append (a b : string) :
  String.length (a ++ b) = (String.length a + String.length b)%nat.
Proof. induction a as [|x a IH]; simpl; [reflexivity|]. rewrite IH. reflexivity. Qed.

Lemma length_spaces (n : nat) (t : string) :
  String.length (spaces n t) = (n + String.length t)%nat.
Proof. induction n as [|n IH]; simpl; [reflexivity|]. rewrite IH. reflexivity. Qed.

Lemma length_newline_indent (level : nat) (t : string) :
  (S (String.length t) <= String.length (newline_indent level t))%nat.
Proof. unfold newline_indent. cbn [String.length]. rewrite length_spaces. lia. Qed.

Lemma length_escape_char (c : ascii) (t : string) :
  (String.length t <= String.length (escape_char c t))%nat.
Proof.
  unfold escape_char.
  repeat match goal with
         | |- context [if ?b then _ else _] => destruct b
         end; cbn [String.length]; lia.
Qed.

Lemma length_escape (s t : string) :
  (String.length t <= String.length (escape s t))%nat.
Proof.
  induction s as [|c s IH]; cbn [escape]; [lia|].
  pose proof (length_escape_char c (escape s t)). lia.
Qed.

Lemma length_dump_string (k t : string) :
  (S (String.length t) <= String.length (dump_string k t))%nat.
Proof.
  unfold dump_string. cbn [String.length].
  pose proof (length_escape k (String dquote t)) as H. cbn [String.length] in H. lia.
Qed.

(** The text of a value is at least as long as the fuel reading it takes. *)
Lemma size_le_length (v : pyval) : forall (level : nat) (tail : string),
  (size v + String.length tail <= String.length (dump level v tail))%nat.
Proof.
  induction v as [|b|n|s|l IH|d IH] using pyval_ind; intros level tail.
  - cbn. lia.
  - destruct b; cbn; lia.
  - cbn [dump size]. destruct (str_of_int_head n EmptyString) as (c & r & Eq & _).
    rewrite append_nil_r in Eq. rewrite Eq. cbn [String.append String.length].
    rewrite length_append. lia.
  - cbn [dump size]. pose proof (length_dump_string s tail). lia.
  - destruct l as [|x xs]; [cbn; lia|].
    inversion IH as [|? ? Hx Hxs]; subst.
    cbn [dump size String.length]. unfold list_sum. cbn [map fold_right].
    assert (T : (fold_right Nat.add 0 (map (fun y => S (size y)) xs)
                 + String.length tail
                 <= String.length (dump_items (dump (S level)) level tail xs))%nat).
    { clear Hx IH. revert Hxs.
      induction xs as [|y ys IHys]; intros Hxs; cbn [map fold_right dump_items].
      - pose proof (length_newline_indent level (String "]" tail)) as H.
        cbn [String.length] in H. lia.
      - inversion Hxs as [|? ? Hy Hys]; subst. cbn [String.length].
        pose proof (length_newline_indent (S level)
                      (dump (S level) y (dump_items (dump (S level)) level tail ys))).
        pose proof (Hy (S level) (dump_items (dump (S level)) level tail ys)).
        pose proof (IHys Hys). lia. }
    pose proof (length_newline_indent (S level)
                  (dump (S level) x (dump_items (dump (S level)) level tail xs))).
    pose proof (Hx (S level) (dump_items (dump (S level)) level tail xs)).
    lia.
  - destruct d as [|[k x] xs]; [cbn; lia|].
    inversion IH as [|? ? Hx Hxs]; subst. cbn [snd] in Hx.
    cbn [dump size String.length]. unfold list_sum. cbn [map fold_right snd].
    assert (T : (fold_right Nat.add 0 (map (fun kv => S (size (snd kv))) xs)
                 + String.length tail
                 <= String.length (dump_members (dump (S level)) level tail xs))%nat).
    { clear Hx IH. revert Hxs.
      induction xs as [|[k' y] ys IHys]; intros Hxs;
        cbn [map fold_right dump_members snd].
      - pose proof (length_newline_indent level (String "}" tail)) as H.
        cbn [String.length] in H. lia.
      - inversion Hxs as [|? ? Hy Hys]; subst. cbn [snd] in Hy. cbn [String.length].
        match goal with
        | |- context [newline_indent ?l ?t] =>
            pose proof (length_newline_indent l t)
        end.
        match goal with
        | |- context [dump_string ?a ?t] => pose proof (length_dump_string a t) as Hk
        end.
        cbn [String.length] in Hk.
        pose proof (Hy (S level) (dump_members (dump (S level)) level tail ys)).
        pose proof (IHys Hys). lia. }
    match goal with
    | |- context [newline_indent ?l ?t] => pose proof (length_newline_indent l t)
    end.
    match goal with
    | |- context [dump_string ?a ?t] => pose proof (length_dump_string a t) as Hk
    end.
    cbn [String.length] in Hk.
    pose proof (Hx (S level) (dump_members (dump (S level)) level tail xs)).
    lia.
Qed.

(** [json.loads(json.dumps(v, indent=2)) == v] *)
Lemma loads_dumps (v : pyval) :
  unique_keys v = true -> loads (dumps v) = Some v.
Proof.
  intros U. unfold loads, dumps. rewrite skip_ws_dump.
  rewrite (dump_reads_back v U 0%nat _ EmptyString); [reflexivity| |exact I].
  pose proof (size_le_length v 0%nat EmptyString) as H. lia.
Qed.

(** C8: a store saved and loaded again is the same store, key for key and
    value for value, when the file can be written and read.  ([unique_keys]
    says that the association lists stand for dicts.) *)
Theorem save_then_load (hd : pyval) (fs : filesystem) :
  unique_keys hd = true ->
  writable fs = true -> readable fs = true ->
  _load_health_data (_save_health_data hd fs) = hd.
Proof.
  intros U Wr Rd. unfold _save_health_data, _load_health_data.
  rewrite Wr. cbn [monitor_file readable]. rewrite Rd.
  rewrite (loads_dumps hd U). reflexivity.
Qed.

End JsonFacts.

(* ================================================================== *)
(** * The theorems at work on sample data *)
(* ================================================================== *)

Section Instances.

Import Samples.

#[local] Existing Instance python_3_7.

Lemma counters_add_up_witness :
  exists st,
    record_all (empty_store, no_file)
      [ok "A" None t_10_00; failed "A" "timeout" t_10_10; ok "B" None t_10_40]
    = Ok st /\
    forall location loc,
      location_record (fst st) location = Some loc ->
      exists t s f,
        counters loc = Some (t, s, f) /\
        t = s + f /\ 0 <= t /\ 0 <= s /\ 0 <= f.
Proof.
  apply (counters_add_up empty_store no_file
           [ok "A" None t_10_00; failed "A" "timeout" t_10_10; ok "B" None t_10_40]).
  reflexivity.
Defined.

(** The empty string is a location like any other. *)
Lemma record_attempt_any_location_witness :
  exists hd' fs' loc',
    record_attempt empty_store no_file "" "local" false None (Some "timeout")
      t_10_00 t_10_00 = Ok (hd', fs') /\
    location_record hd' "" = Some loc' /\
    update_location
      (match location_record empty_store "" with
       | Some loc => loc
       | None => new_location (isoformat t_10_00)
       end)
      false None (Some "timeout") (isoformat t_10_00) t_10_00 = Ok loc' /\
    (forall other, other <> "" ->
                   location_record hd' other = location_record empty_store other) /\
    wf_store hd' = true /\
    (exists t s f,
       counters (record_or_new empty_store "" (isoformat t_10_00)) = Some (t, s, f) /\
       counters loc' = Some (t + 1, s, f + 1)) /\
    field loc' "last_attempt" = Some (PStr (isoformat t_10_00)) /\
    field loc' "last_failure" = Some (PStr (isoformat t_10_00)) /\
    (location_record empty_store "" = None ->
     counters loc' = Some (1, 0, 1) /\
     field loc' "first_seen" = Some (PStr (isoformat t_10_00))).
Proof.
  apply (record_attempt_any_location empty_store no_file "" "local" false None
           (Some "timeout") t_10_00 t_10_00).
  reflexivity.
Defined.



(** Why the amended C1 keeps the two timestamps within a century: an
    outage from 0001-01-01T00:00:00 to 2100-01-01T00:00:59.999999 is
    recorded with 1103967361 minutes, one more than the floor, the two
    float divisions having rounded up to a whole number. *)
Example outage_across_centuries_rounds_up :
  exists st0 st2,
    record (empty_store, no_file) (failed "A" "timeout" (mkNaive 1 1 1 0 0 0 0))
      = Ok st0 /\
    record st0 (ok "A" None (mkNaive 2100 1 1 0 0 59 999999)) = Ok st2 /\
    history_of (fst st2) "A" =
      [PDict [("start", PStr "0001-01-01T00:00:00");
              ("end", PStr "2100-01-01T00:00:59.999999");
              ("duration_minutes", PInt 1103967361)]] /\
    (wall_micros (mkNaive 2100 1 1 0 0 59 999999) -
     wall_micros (mkNaive 1 1 1 0 0 0 0)) / minute_micros = 1103967360.
Proof.
  eexists. eexists.
  split; [vm_compute; reflexivity|].
  split; [vm_compute; reflexivity|].
  split; vm_compute; reflexivity.
Qed.



Lemma save_then_load_witness :
  _load_health_data (_save_health_data healthy_store no_file) = healthy_store.
Proof.
  apply (save_then_load healthy_store no_file); reflexivity.
Defined.

Lemma last_forecast_time_stored_as_given_witness :
  exists hd' fs' loc',
    record_attempt empty_store no_file "A" "local" true (Some "soon") None
      t_10_00 t_10_00 = Ok (hd', fs') /\
    location_record hd' "A" = Some loc' /\
    field loc' "last_forecast_time" =
      (if String.eqb "soon" ""
       then field (record_or_new empty_store "A" (isoformat t_10_00))
              "last_forecast_time"
       else Some (PStr "soon")).
Proof.
  apply (last_forecast_time_stored_as_given empty_store no_file "A" "local"
           (Some "soon") None t_10_00 t_10_00).
  reflexivity.
Defined.

(** The first scenario of the specification: a success, a failure ten
    minutes later, a success thirty minutes after that. *)
Example scenario_outage_of_thirty_minutes :
  let t0 := mkNaive 2024 5 1 10 0 0 0 in
  let t1 := mkNaive 2024 5 1 10 10 0 0 in
  let t2 := mkNaive 2024 5 1 10 40 0 0 in
  exists s0 s1 s2,
    record (empty_store, no_file) (ok "A" (Some (isoformat t0)) t0) = Ok s0 /\
    (st <- get_location_status (fst s0) "A" t0 ;; Ok (status_of st))
      = Ok (Some (PStr "online")) /\
    record s0 (failed "A" "timeout" t1) = Ok s1 /\
    (st <- get_location_status (fst s1) "A" t1 ;; Ok (message_of st))
      = Ok (Some (PStr "API offline for 0 minutes")) /\
    record s1 (ok "A" (Some (isoformat t2)) t2) = Ok s2 /\
    history_of (fst s2) "A" =
      [PDict [("start", PStr "2024-05-01T10:10:00");
              ("end", PStr "2024-05-01T10:40:00");
              ("duration_minutes", PInt 30)]] /\
    (st <- get_location_status (fst s2) "A" t2 ;; Ok (status_of st))
      = Ok (Some (PStr "online")).
Proof.
  cbv zeta. eexists. eexists. eexists.
  split; [vm_compute; reflexivity|].
  split; [vm_compute; reflexivity|].
  split; [vm_compute; reflexivity|].
  split; [vm_compute; reflexivity|].
  split; [vm_compute; reflexivity|].
  split; vm_compute; reflexivity.
Qed.

(** The second scenario: a forecast 13 hours old gives "warning", once. *)
Example scenario_stale_forecast :
  exists s0,
    record (empty_store, no_file) (ok "A" (Some "2024-04-30T21:00:00") t_10_00)
      = Ok s0 /\
    get_location_status (fst s0) "A" t_10_00 =
    Ok (status "warning" "API online but serving stale forecasts (1 times)"
          [("last_success", PStr "2024-05-01T10:00:00")]).
Proof.
  eexists. split; [vm_compute; reflexivity|]. vm_compute. reflexivity.
Qed.

End Instances.

(* ================================================================== *)
(** * A record is a function of the attempts made for its location *)
(* ================================================================== *)

Section AttemptHistory.

Context {python : Interpreter}.

Lemma count_snoc (p : attempt -> bool) (la : list attempt) (a : attempt) :
  count p (la ++ [a]) = count p la + (if p a then 1 else 0).
Proof.
  unfold count. rewrite filter_app, length_app. cbn [filter].
  destruct (p a); cbn [List.length]; lia.
Qed.

Lemma latest_snoc (p : attempt -> bool) (la : list attempt) (a : attempt) :
  latest p (la ++ [a]) = if p a then Some a else latest p la.
Proof. unfold latest. rewrite rev_app_distr. reflexivity. Qed.

Lemma attempts_for_snoc (location : string) (l : list attempt) (a : attempt) :
  attempts_for location (l ++ [a]) =
  (attempts_for location l ++
   (if String.eqb (a_location a) location then [a] else []))%list.
Proof. unfold attempts_for. rewrite filter_app. reflexivity. Qed.

Lemma tallied_brought (a : attempt) : tallied a = true -> brought_time a = true.
Proof.
  unfold tallied, brought_time. destruct (a_success a); [|discriminate].
  destruct (a_forecast_time a); [|discriminate].
  cbn [andb]. intros H. apply andb_true_iff in H. destruct H as [H _]. exact H.
Qed.

Lemma tallied_failed (a : attempt) : a_success a = false -> tallied a = false.
Proof. unfold tallied. intros ->. reflexivity. Qed.

Lemma brought_failed (a : attempt) : a_success a = false -> brought_time a = false.
Proof. unfold brought_time. intros ->. reflexivity. Qed.

(** [update_location] on a record with the counters, tally, marker and
    history the attempt needs is [updated_record]: it does not raise. *)
Lemma update_location_exact (d : dict) (a : attempt) (t s f c : Z) (start : pyval)
  (h : list pyval) :
  dict_get "total_attempts" d = Some (PInt t) ->
  dict_get "successful_attempts" d = Some (PInt s) ->
  dict_get "failed_attempts" d = Some (PInt f) ->
  dict_get "stale_forecast_count" d = Some (PInt c) ->
  dict_get "current_outage_start" d = Some start ->
  dict_get "outage_history" d = Some (PList h) ->
  update_location (PDict d) (a_success a) (a_forecast_time a) (a_error_message a)
    (isoformat (a_utcnow a)) (a_utcnow2 a)
  = Ok (PDict (updated_record d a t s f c start h)).
Proof.
  intros T S F C M H.
  unfold update_location, updated_record.
  rewrite (iadd_one_int _ _ _ T). cbn [bind setitem].
  destruct (a_success a) eqn:Sx.
  - unfold on_success.
    erewrite iadd_one_int by (dict_norm; exact S). cbn [bind setitem].
    unfold on_forecast_time, brought_time, tallied, fires. rewrite Sx. cbn [andb].
    destruct (a_forecast_time a) as [ft|]; cbn [truthy of_option_str].
    + destruct (String.eqb ft ""); cbn [negb andb].
      * cbn [bind getitem]. dict_norm. rewrite M. cbn [bind].
        destruct (truthy start); [|reflexivity].
        dict_norm. rewrite H. reflexivity.
      * cbn [setitem bind]. unfold check_stale.
        destruct (fromisoformat (replace_char "Z" "+00:00" ft)) as [[dt [off|]]|e];
          cbn [bind sub of_utcnow tzinfo fields try_except].
        -- cbn [getitem]. dict_norm. rewrite M. cbn [bind].
           destruct (truthy start); [|reflexivity].
           dict_norm. rewrite H. reflexivity.
        -- rewrite stale_age.
           destruct (12 * hour_micros <? wall_micros (a_utcnow2 a) - wall_micros dt).
           ++ erewrite iadd_one_int by (dict_norm; exact C).
              cbn [bind setitem try_except getitem]. dict_norm. rewrite M. cbn [bind].
              destruct (truthy start); [|reflexivity].
              dict_norm. rewrite H. reflexivity.
           ++ cbn [try_except bind getitem]. dict_norm. rewrite M. cbn [bind].
              destruct (truthy start); [|reflexivity].
              dict_norm. rewrite H. reflexivity.
        -- cbn [getitem]. dict_norm. rewrite M. cbn [bind].
           destruct (truthy start); [|reflexivity].
           dict_norm. rewrite H. reflexivity.
    + cbn [bind getitem]. dict_norm. rewrite M. cbn [bind].
      destruct (truthy start); [|reflexivity].
      dict_norm. rewrite H. reflexivity.
  - unfold on_failure.
    erewrite iadd_one_int by (dict_norm; exact F). cbn [bind setitem getitem].
    dict_norm. rewrite M. cbn [bind].
    destruct (truthy start); reflexivity.
Qed.

Lemma new_fields_body (now : string) : body [] (new_fields now).
Proof. split; reflexivity. Qed.

Ltac field_done :=
  first [ reflexivity
        | assumption
        | (repeat f_equal; lia)
        | (rewrite map_app; reflexivity) ].

(** One more attempt: the updated record describes the longer list. *)
Lemma body_updated (la : list attempt) (d : dict) (a : attempt) :
  body la d ->
  body (la ++ [a])
    (updated_record d a (Z.of_nat (List.length la)) (count a_success la)
       (count failed la) (count tallied la)
       (match open_since (rev la) with
        | Some s => PStr (isoformat s)
        | None => PNone
        end)
       (map event_of (closed_outages (rev la)))) /\
  dict_get "first_seen"
    (updated_record d a (Z.of_nat (List.length la)) (count a_success la)
       (count failed la) (count tallied la)
       (match open_since (rev la) with
        | Some s => PStr (isoformat s)
        | None => PNone
        end)
       (map event_of (closed_outages (rev la)))) = dict_get "first_seen" d /\
  dict_get "last_attempt"
    (updated_record d a (Z.of_nat (List.length la)) (count a_success la)
       (count failed la) (count tallied la)
       (match open_since (rev la) with
        | Some s => PStr (isoformat s)
        | None => PNone
        end)
       (map event_of (closed_outages (rev la)))) = Some (stamp a).
Proof.
  intros [T S F LS LF LE M H FT TL SW].
  unfold updated_record.
  destruct (a_success a) eqn:Sx.
  - pose proof (tallied_brought a) as TB.
    destruct (brought_time a) eqn:Bx; destruct (tallied a) eqn:Tx;
      try (specialize (TB eq_refl); discriminate TB); clear TB;
      destruct (open_since (rev la)) as [since|] eqn:Ox;
      rewrite ?isoformat_truthy; cbn [truthy];
      (split; [split|split]);
      rewrite ?count_snoc, ?latest_snoc, ?rev_app_distr, ?length_app;
      cbn [rev app open_since closed_outages List.length];
      unfold failed in *; rewrite ?Sx, ?Bx, ?Tx, ?Ox; cbn [negb];
      dict_norm;
      rewrite ?T, ?S, ?F, ?LS, ?LF, ?LE, ?M, ?H, ?FT, ?TL, ?SW, ?app_nil_r;
      field_done.
  - destruct (open_since (rev la)) as [since|] eqn:Ox;
      rewrite ?isoformat_truthy; cbn [truthy];
      (split; [split|split]);
      rewrite ?count_snoc, ?latest_snoc, ?rev_app_distr, ?length_app;
      cbn [rev app open_since closed_outages List.length];
      unfold failed in *; rewrite ?Sx, ?Ox;
      rewrite ?(tallied_failed a Sx), ?(brought_failed a Sx); cbn [negb];
      dict_norm;
      rewrite ?T, ?S, ?F, ?LS, ?LF, ?LE, ?M, ?H, ?FT, ?TL, ?SW, ?app_nil_r;
      field_done.
Qed.

Lemma dict_mem_keys (k : string) (d : dict) :
  dict_mem k d = existsb (String.eqb k) (map fst d).
Proof.
  unfold dict_mem. induction d as [|[k0 v0] d IH]; cbn [dict_get map fst existsb];
    [reflexivity|].
  destruct (String.eqb k k0); [reflexivity|exact IH].
Qed.

Lemma keys_set_present (k : string) (v : pyval) (d : dict) :
  dict_mem k d = true -> map fst (dict_set k v d) = map fst d.
Proof.
  unfold dict_mem. induction d as [|[k0 v0] d IH]; cbn [dict_get dict_set map fst];
    [discriminate|].
  destruct (String.eqb k k0) eqn:E; cbn [map fst].
  - apply String.eqb_eq in E. subst. reflexivity.
  - intros H. rewrite (IH H). reflexivity.
Qed.

Lemma keys_set_absent (k : string) (v : pyval) (d : dict) :
  dict_mem k d = false -> map fst (dict_set k v d) = (map fst d ++ [k])%list.
Proof.
  unfold dict_mem. intros H.
  rewrite dict_set_fresh by (destruct (dict_get k d); [discriminate|reflexivity]).
  rewrite map_app. reflexivity.
Qed.

Lemma dict_mem_set (k : string) (v : pyval) (d : dict) :
  dict_mem k (dict_set k v d) = true.
Proof. unfold dict_mem. rewrite dict_get_set_eq. reflexivity. Qed.

Lemma save_save (hd hd' : pyval) (fs : filesystem) :
  _save_health_data hd' (_save_health_data hd fs) = _save_health_data hd' fs.
Proof.
  unfold _save_health_data. destruct (writable fs) eqn:W; cbn [writable readable];
    [reflexivity|]. rewrite W. reflexivity.
Qed.

Lemma save_file_after (hd hd' : pyval) (fs : filesystem) (l : list attempt) :
  _save_health_data hd' (file_after hd fs l) = _save_health_data hd' fs.
Proof. destruct l; [reflexivity|apply save_save]. Qed.

Lemma described_snoc (la : list attempt) (a : attempt) (d : dict) :
  describes (la ++ [a]) d -> described (la ++ [a]) (Some (PDict d)).
Proof.
  intros D. unfold described.
  destruct (la ++ [a])%list eqn:E; [destruct la; discriminate|].
  exists d. split; [reflexivity|exact D].
Qed.

(** One attempt on a store that describes the attempts so far. *)
Lemma record_described (locs : dict) (lu : pyval) (fs : filesystem) (a : attempt)
  (la : list attempt) :
  described la (dict_get (a_location a) locs) ->
  exists d' locs',
    record (PDict [("locations", PDict locs); ("last_updated", lu)], fs) a =
    Ok (PDict [("locations", PDict locs'); ("last_updated", stamp a)],
        _save_health_data
          (PDict [("locations", PDict locs'); ("last_updated", stamp a)]) fs) /\
    dict_get (a_location a) locs' = Some (PDict d') /\
    describes (la ++ [a]) d' /\
    (forall other, other <> a_location a ->
                   dict_get other locs' = dict_get other locs) /\
    map fst locs' =
      (if existsb (String.eqb (a_location a)) (map fst locs) then map fst locs
       else map fst locs ++ [a_location a])%list.
Proof.
  intros D.
  set (now := isoformat (a_utcnow a)).
  (* the record the attempt starts from, and what it holds *)
  assert (R : exists d0,
             match dict_get (a_location a) locs with
             | Some loc => loc
             | None => new_location now
             end = PDict d0 /\
             body la d0 /\
             dict_get "first_seen" d0 = Some (stamp_of (head (la ++ [a]))) /\
             dict_mem (a_location a) locs =
               match la with [] => false | _ :: _ => true end).
  { unfold described in D. unfold dict_mem. destruct la as [|x la'].
    - rewrite D. exists (new_fields now).
      split; [reflexivity|]. split; [apply new_fields_body|].
      split; reflexivity.
    - destruct D as (d & -> & F & _ & B). exists d.
      split; [reflexivity|]. split; [exact B|]. split; [exact F|reflexivity]. }
  destruct R as (d0 & E0 & B & F0 & Mem).
  pose proof (update_location_exact d0 a _ _ _ _ _ _
                (d_total _ _ B) (d_successful _ _ B) (d_failed _ _ B)
                (d_tally _ _ B) (d_marker _ _ B) (d_history _ _ B)) as U.
  destruct (body_updated la d0 a B) as (B' & F' & L').
  match type of U with
  | _ = Ok (PDict ?x) => set (d' := x) in *
  end.
  set (locs1 := if dict_mem (a_location a) locs then locs
                else dict_set (a_location a) (new_location now) locs).
  exists d', (dict_set (a_location a) (PDict d') locs1).
  assert (G1 : dict_get (a_location a) locs1 = Some (PDict d0)).
  { unfold locs1, dict_mem. rewrite <- E0.
    destruct (dict_get (a_location a) locs) eqn:G; [exact G|apply dict_get_set_eq]. }
  split.
  { unfold record, record_attempt. cbn [fst snd getitem dict_get String.eqb
      Ascii.eqb Bool.eqb andb bind contains].
    fold now. fold locs1. fold now in U.
    assert (S1 : (if negb (dict_mem (a_location a) locs)
                  then setitem (PDict locs) (a_location a) (new_location now)
                  else Ok (PDict locs)) = Ok (PDict locs1)).
    { unfold locs1. destruct (dict_mem (a_location a) locs); reflexivity. }
    rewrite S1. cbn [bind getitem]. rewrite G1. cbn [bind]. rewrite U.
    reflexivity. }
  split; [apply dict_get_set_eq|].
  split.
  { split; [rewrite F'; exact F0|]. split; [|exact B'].
    rewrite L', latest_snoc. reflexivity. }
  split.
  { intros other N. rewrite dict_get_set_ne by exact N.
    unfold locs1. destruct (dict_mem (a_location a) locs); [reflexivity|].
    apply dict_get_set_ne. exact N. }
  rewrite <- dict_mem_keys. unfold locs1.
  destruct (dict_mem (a_location a) locs) eqn:M.
  - apply keys_set_present. exact M.
  - rewrite keys_set_present by apply dict_mem_set.
    apply keys_set_absent. exact M.
Qed.

(** After any sequence of attempts on a fresh monitor, the store is made of
    the records of the locations in the order of their first attempt, each
    describing the attempts of its location; the file is what was saved
    last. *)
Lemma attempts_described (fs : filesystem) (l : list attempt) :
  exists locs,
    record_all (empty_store, fs) l =
    Ok (store_after locs l, file_after (store_after locs l) fs l) /\
    map fst locs = first_seen_order (rev l) /\
    forall location, described (attempts_for location l) (dict_get location locs).
Proof.
  induction l as [|a l IH] using rev_ind.
  - exists []. split; [reflexivity|]. split; [reflexivity|].
    intros location. reflexivity.
  - destruct IH as (locs & R & K & D).
    destruct (record_described locs (stamp_of (latest (fun _ => true) l))
                (file_after (store_after locs l) fs l) a
                (attempts_for (a_location a) l) (D (a_location a)))
      as (d' & locs' & Ra & G & De & O & K').
    exists locs'. split.
    { rewrite record_all_app, R. cbn [bind record_all].
      unfold store_after at 1. rewrite Ra. cbn [bind].
      rewrite save_file_after. unfold store_after. rewrite latest_snoc.
      cbn [stamp_of]. f_equal. f_equal.
      unfold file_after. destruct (l ++ [a])%list eqn:E; [destruct l; discriminate|].
      reflexivity. }
    split.
    { rewrite K', rev_app_distr. cbn [rev app first_seen_order]. rewrite K.
      reflexivity. }
    intros location. rewrite attempts_for_snoc.
    destruct (String.eqb (a_location a) location) eqn:E.
    + apply String.eqb_eq in E. subst location. rewrite G.
      apply described_snoc. exact De.
    + rewrite app_nil_r, O; [apply D|].
      intros ->. rewrite String.eqb_refl in E. discriminate.
Qed.

Lemma location_record_store_after (locs : dict) (l : list attempt) (location : string) :
  location_record (store_after locs l) location = dict_get location locs.
Proof. reflexivity. Qed.

(** The record of one location after the attempts [l] on a fresh monitor *)
Lemma location_described (fs : filesystem) (l : list attempt) (location : string) :
  exists st,
    record_all (empty_store, fs) l = Ok st /\
    described (attempts_for location l) (location_record (fst st) location).
Proof.
  destruct (attempts_described fs l) as (locs & R & _ & D).
  eexists. split; [exact R|]. cbn [fst].
  rewrite location_record_store_after. apply D.
Qed.

Lemma latest_any_last (first : attempt) (rest : list attempt) :
  latest (fun _ => true) (first :: rest) = Some (last rest first).
Proof.
  induction rest as [|b r _] using rev_ind; [reflexivity|].
  rewrite app_comm_cons, latest_snoc, last_last. reflexivity.
Qed.

(** X1: The three counters count: after any sequence of attempts on a fresh
    monitor, [total_attempts], [successful_attempts] and [failed_attempts]
    of a location are the numbers of its attempts, of its successes and of
    its failures; a location never attempted has no record. *)
Theorem counters_count_attempts (fs : filesystem) (l : list attempt)
  (location : string) :
  exists st,
    record_all (empty_store, fs) l = Ok st /\
    match attempts_for location l with
    | [] => location_record (fst st) location = None
    | _ :: _ =>
        exists loc,
          location_record (fst st) location = Some loc /\
          counters loc =
            Some (Z.of_nat (List.length (attempts_for location l)),
                  count a_success (attempts_for location l),
                  count failed (attempts_for location l))
    end.
Proof.
  destruct (location_described fs l location) as (st & R & D).
  exists st. split; [exact R|].
  unfold described in D. destruct (attempts_for location l) as [|x la]; [exact D|].
  destruct D as (d & G & _ & _ & B). exists (PDict d). split; [exact G|].
  unfold counters. cbn [field].
  rewrite (d_total _ _ B), (d_successful _ _ B), (d_failed _ _ B). reflexivity.
Qed.

(** X2: The timestamps of a record: [first_seen] is the time of the first
    attempt for the location and [last_attempt] of the latest;
    [last_success] and [last_failure] are the times of the latest success
    and the latest failure, [None] when there was none; [last_error] is the
    message of the latest failure, and the key is missing before the first
    failure. *)
Theorem timestamps_follow_attempts (fs : filesystem) (l : list attempt)
  (location : string) (first : attempt) (rest : list attempt) :
  attempts_for location l = first :: rest ->
  exists st loc,
    record_all (empty_store, fs) l = Ok st /\
    location_record (fst st) location = Some loc /\
    field loc "first_seen" = Some (stamp first) /\
    field loc "last_attempt" = Some (stamp (last rest first)) /\
    field loc "last_success" = Some (stamp_of (latest a_success (first :: rest))) /\
    field loc "last_failure" = Some (stamp_of (latest failed (first :: rest))) /\
    field loc "last_error" =
      match latest failed (first :: rest) with
      | Some a => Some (of_option_str (a_error_message a))
      | None => None
      end.
Proof.
  intros E. destruct (location_described fs l location) as (st & R & D).
  rewrite E in D. destruct D as (d & G & F & L & B).
  exists st, (PDict d). cbn [field].
  split; [exact R|]. split; [exact G|]. split; [exact F|].
  split.
  { rewrite L, latest_any_last. reflexivity. }
  split; [exact (d_last_success _ _ B)|].
  split; [exact (d_last_failure _ _ B)|exact (d_last_error _ _ B)].
Qed.

(** X3: The outage fields: [current_outage_start] is the time of the failure
    that began the run of failures the location is in, [None] after a
    success; [outage_history] lists the closed outages, oldest first, each
    from the failure that opened it to the success that closed it, with the
    [duration_minutes] that [_calculate_duration] gives for these two
    timestamps ([event_of]): the float divisions of line 137, whatever the
    span. *)
Theorem outages_follow_attempts (fs : filesystem) (l : list attempt)
  (location : string) (first : attempt) (rest : list attempt) :
  attempts_for location l = first :: rest ->
  exists st loc,
    record_all (empty_store, fs) l = Ok st /\
    location_record (fst st) location = Some loc /\
    field loc "current_outage_start" =
      Some (match open_since (rev (first :: rest)) with
            | Some s => PStr (isoformat s)
            | None => PNone
            end) /\
    field loc "outage_history" =
      Some (PList (map event_of (closed_outages (rev (first :: rest))))).
Proof.
  intros E. destruct (location_described fs l location) as (st & R & D).
  rewrite E in D. destruct D as (d & G & _ & _ & B).
  exists st, (PDict d). cbn [field].
  split; [exact R|]. split; [exact G|].
  split; [exact (d_marker _ _ B)|exact (d_history _ _ B)].
Qed.

(** X4: The forecast fields: [last_forecast_time] is the forecast time of the
    latest success that brought a non-empty one; [stale_forecast_count] is
    the number of successes whose forecast time the interpreter's
    [fromisoformat] read, after the replacement of "Z", as a datetime
    without offset more than 12 hours old ([tallied]), and
    [last_stale_warning] the time of the latest of them, the key missing
    when there was none. *)
Theorem forecast_fields_follow_attempts (fs : filesystem) (l : list attempt)
  (location : string) (first : attempt) (rest : list attempt) :
  attempts_for location l = first :: rest ->
  exists st loc,
    record_all (empty_store, fs) l = Ok st /\
    location_record (fst st) location = Some loc /\
    field loc "last_forecast_time" =
      Some (match latest brought_time (first :: rest) with
            | Some a => of_option_str (a_forecast_time a)
            | None => PNone
            end) /\
    field loc "stale_forecast_count" = Some (PInt (count tallied (first :: rest))) /\
    field loc "last_stale_warning" =
      match latest tallied (first :: rest) with
      | Some a => Some (stamp a)
      | None => None
      end.
Proof.
  intros E. destruct (location_described fs l location) as (st & R & D).
  rewrite E in D. destruct D as (d & G & _ & _ & B).
  exists st, (PDict d). cbn [field].
  split; [exact R|]. split; [exact G|].
  split; [exact (d_forecast_time _ _ B)|].
  split; [exact (d_tally _ _ B)|exact (d_stale_warning _ _ B)].
Qed.

(** X5: The store as a whole: its records are kept in the order in which the
    locations were first attempted, and [last_updated] is the time of the
    latest attempt. *)
Theorem store_follows_attempts (fs : filesystem) (l : list attempt) :
  exists st locs,
    record_all (empty_store, fs) l = Ok st /\
    locations_of (fst st) = Some locs /\
    map fst locs = first_seen_order (rev l) /\
    field (fst st) "last_updated" = Some (stamp_of (latest (fun _ => true) l)).
Proof.
  destruct (attempts_described fs l) as (locs & R & K & _).
  eexists. exists locs. split; [exact R|]. cbn [fst].
  split; [reflexivity|]. split; [exact K|reflexivity].
Qed.

End AttemptHistory.

(* ================================================================== *)
(** * Uptime *)
(* ================================================================== *)

Ltac bind_ok H x E :=
  match type of H with
  | bind ?m _ = Ok _ =>
      destruct m as [x|] eqn:E; [cbn [bind] in H | discriminate H]
  end.

Section Uptime.

Context {python : Interpreter}.

(** X10: [get_uptime_percentage] never divides by zero, whatever the store
    holds: when it returns a quotient, the divisor is not zero. *)
Theorem uptime_divisor_not_zero (hd : pyval) (location : string) (s t : Z) :
  get_uptime_percentage hd location = Ok (Percent s t) -> t <> 0.
Proof.
  unfold get_uptime_percentage. intros H.
  bind_ok H locations E1. bind_ok H known E2.
  destruct (negb known); [discriminate H|].
  bind_ok H loc E3. bind_ok H total E4.
  unfold equals_zero in H.
  destruct (as_number total) as [n|] eqn:En.
  - destruct (n =? 0) eqn:Z0; [discriminate H|].
    bind_ok H successful E5.
    destruct (as_number successful); [|discriminate H].
    inversion H; subst. apply Z.eqb_neq. exact Z0.
  - bind_ok H successful E5.
    destruct (as_number successful); discriminate H.
Qed.

Lemma uptime_of_record (hd : pyval) (locs r : dict) (location : string) (s t : Z) :
  locations_of hd = Some locs ->
  dict_get location locs = Some (PDict r) ->
  dict_get "total_attempts" r = Some (PInt t) ->
  dict_get "successful_attempts" r = Some (PInt s) ->
  get_uptime_percentage hd location = Ok (if t =? 0 then Zero else Percent s t).
Proof.
  intros L G T S. destruct (locations_of_inv hd locs L) as (d & -> & E).
  unfold get_uptime_percentage. cbn [getitem]. rewrite E. cbn [bind contains].
  unfold dict_mem. rewrite G. cbn [negb bind getitem]. rewrite G. cbn [bind getitem].
  rewrite T. cbn [bind]. unfold equals_zero. cbn [as_number].
  destruct (t =? 0); [reflexivity|]. rewrite S. reflexivity.
Qed.

Lemma uptime_unknown (hd : pyval) (locs : dict) (location : string) :
  locations_of hd = Some locs ->
  dict_get location locs = None ->
  get_uptime_percentage hd location = Ok Zero.
Proof.
  intros L G. destruct (locations_of_inv hd locs L) as (d & -> & E).
  unfold get_uptime_percentage. cbn [getitem]. rewrite E. cbn [bind contains].
  unfold dict_mem. rewrite G. reflexivity.
Qed.

Lemma percent_in_range (s t : Z) :
  0 <= s <= t -> 0 < t ->
  QArith_base.Qle (QArith_base.inject_Z 0) (exact (Percent s t)) /\
  QArith_base.Qle (exact (Percent s t)) (QArith_base.inject_Z 100).
Proof.
  intros Hs Ht. destruct t as [|tp|tn]; try lia.
  cbv [exact QArith_base.Qle QArith_base.Qmult QArith_base.Qdiv
       QArith_base.Qinv QArith_base.inject_Z QArith_base.Qnum QArith_base.Qden].
  rewrite ?Pos.mul_1_r, ?Pos.mul_1_l, ?Z.mul_1_r.
  split; nia.
Qed.

(** X11: On a well-formed store [get_uptime_percentage] does not raise, for a
    known or an unknown location, and the percentage lies between 0 and
    100. *)
Theorem uptime_between_0_and_100 (hd : pyval) (location : string) :
  wf_store hd = true ->
  exists p,
    get_uptime_percentage hd location = Ok p /\
    QArith_base.Qle (QArith_base.inject_Z 0) (exact p) /\
    QArith_base.Qle (exact p) (QArith_base.inject_Z 100).
Proof.
  intros W. destruct (wf_store_inv hd W) as (locs & L & A).
  destruct (dict_get location locs) as [loc|] eqn:G.
  - pose proof (forallb_dict_get wf_record _ _ _ A G) as Wl.
    destruct (wf_record_inv loc Wl)
      as (r & t & s & f & c & h & -> & T & S & _ & _ & _ & E & Ht & Hs & Hf & _).
    rewrite (uptime_of_record hd locs r location s t L G T S).
    destruct (t =? 0) eqn:Z0.
    + exists Zero. split; [reflexivity|]. split; discriminate.
    + apply Z.eqb_neq in Z0. exists (Percent s t). split; [reflexivity|].
      apply percent_in_range; lia.
  - rewrite (uptime_unknown hd locs location L G).
    exists Zero. split; [reflexivity|]. split; discriminate.
Qed.

(** X12: After any sequence of attempts on a fresh monitor, the uptime of a
    location is its number of successes over its number of attempts, times
    100, and 0.0 for a location never attempted. *)
Theorem uptime_is_success_ratio (fs : filesystem) (l : list attempt)
  (location : string) :
  exists st,
    record_all (empty_store, fs) l = Ok st /\
    get_uptime_percentage (fst st) location =
    Ok (match attempts_for location l with
        | [] => Zero
        | _ :: _ =>
            Percent (count a_success (attempts_for location l))
              (Z.of_nat (List.length (attempts_for location l)))
        end).
Proof.
  destruct (attempts_described fs l) as (locs & R & _ & D).
  eexists. split; [exact R|]. cbn [fst].
  specialize (D location). unfold described in D.
  destruct (attempts_for location l) as [|x la] eqn:E.
  - exact (uptime_unknown (store_after locs l) locs location eq_refl D).
  - destruct D as (d & G & _ & _ & B).
    rewrite (uptime_of_record (store_after locs l) locs d location _ _ eq_refl G
               (d_total _ _ B) (d_successful _ _ B)).
    reflexivity.
Qed.

End Uptime.

(* ================================================================== *)
(** * Alerts *)
(* ================================================================== *)

Section AlertFacts.

Context {python : Interpreter}.

Variables (offline_mark warning_mark stale_mark : string).

(** Whatever the store, a status that [get_location_status] returns is a
    dict that starts with a ["status"] and a ["message"], both strings. *)
Lemma get_location_status_shape (hd : pyval) (location : string) (utcnow : naive)
  (st : pyval) :
  get_location_status hd location utcnow = Ok st ->
  exists kind message more, st = status kind message more.
Proof.
  unfold get_location_status. intros H.
  bind_ok H locations E1. bind_ok H known E2.
  destruct (negb known); [inversion H; eauto|].
  bind_ok H loc E3. bind_ok H start E4.
  destruct (truthy start).
  { bind_ok H last_error E5. inversion H; eauto. }
  bind_ok H ls E5.
  destruct (truthy ls); [|inversion H; eauto].
  bind_ok H last_success E6. bind_ok H time_since E7.
  destruct (time_since <? 2 * hour_micros); [|inversion H; eauto].
  bind_ok H tally E8.
  destruct tally as [|[|]|n| | |]; try discriminate H.
  - inversion H; eauto.
  - bind_ok H lft E9. inversion H; eauto.
  - destruct (0 <? n).
    + inversion H; eauto.
    + bind_ok H lft E9. inversion H; eauto.
Qed.

(** The loop body does not raise on a status, and gives at most one alert. *)
Lemma alert_for_status (location kind message : string) (more : dict) :
  exists alerts,
    alert_for offline_mark warning_mark stale_mark location
      (status kind message more) = Ok alerts /\
    (List.length alerts <= 1)%nat /\
    (kind = "offline" ->
     alerts = [offline_mark ++ location ++ ": " ++ message]).
Proof.
  unfold alert_for, alert_line, status.
  cbn [getitem dict_get String.eqb Ascii.eqb Bool.eqb andb bind equals_str].
  destruct (String.eqb kind "offline") eqn:E1.
  { eexists. split; [reflexivity|]. split; [cbn; lia|]. intros _. reflexivity. }
  destruct (String.eqb kind "warning");
    [|destruct (String.eqb kind "stale")];
    (eexists; split; [reflexivity|]; split; [cbn; lia|]);
    intros ->; discriminate E1.
Qed.

(** With an open outage the status is "offline", at any time and whatever
    else the record holds. *)
Lemma offline_when_open (hd : pyval) (location : string) (utcnow : naive) :
  outage_open hd location = true ->
  exists message more,
    get_location_status hd location utcnow = Ok (status "offline" message more).
Proof.
  unfold outage_open, marker_of. intros H.
  destruct (location_record hd location) as [loc|] eqn:R; [|discriminate].
  destruct (field loc "current_outage_start") as [start|] eqn:C; [|discriminate].
  destruct loc as [| | | | |r]; try discriminate. cbn [field] in C.
  unfold location_record in R.
  destruct hd as [| | | | |d]; try discriminate.
  destruct (dict_get "locations" d) as [[| | | | |locs]|] eqn:E; try discriminate.
  unfold get_location_status. cbn [getitem]. rewrite E. cbn [bind contains].
  unfold dict_mem. rewrite R. cbn [negb bind getitem]. rewrite R. cbn [bind getitem].
  rewrite C. cbn [bind]. rewrite H. cbn [get_default bind].
  eexists. eexists. reflexivity.
Qed.

(** What the loop body gives for one location: nothing, or one line made
    of a mark, the location, a colon and a text. *)
Lemma alert_for_piece (location : string) (st : pyval) (here : list string) :
  alert_for offline_mark warning_mark stale_mark location st = Ok here ->
  here = [] \/
  exists mark text,
    In mark [offline_mark; warning_mark; stale_mark] /\
    here = [mark ++ location ++ ": " ++ text].
Proof.
  unfold alert_for. intros H. bind_ok H kind E.
  assert (L : forall mark x,
             (line <- alert_line mark location st ;; Ok [line]) = Ok x ->
             exists text, x = [mark ++ location ++ ": " ++ text]).
  { intros mark x A. bind_ok A line E1. unfold alert_line in E1.
    bind_ok E1 message E2. destruct message; try discriminate E1.
    inversion E1; subst. inversion A; subst. eexists. reflexivity. }
  destruct (equals_str kind "offline").
  { destruct (L _ _ H) as (text & ->). right.
    exists offline_mark, text. split; [left; reflexivity|reflexivity]. }
  destruct (equals_str kind "warning").
  { destruct (L _ _ H) as (text & ->). right.
    exists warning_mark, text. split; [right; left; reflexivity|reflexivity]. }
  destruct (equals_str kind "stale").
  { destruct (L _ _ H) as (text & ->). right.
    exists stale_mark, text. split; [right; right; left; reflexivity|reflexivity]. }
  inversion H; subst. left. reflexivity.
Qed.

Lemma alerts_from_own (hd : pyval) (clock : nat -> naive) :
  own_store hd = true ->
  forall (l : dict) (i : nat),
  exists pieces,
    alerts_from offline_mark warning_mark stale_mark hd clock i l
      = Ok (List.concat pieces) /\
    Forall2
      (fun kv piece =>
         (outage_open hd (fst kv) = true ->
          exists text, piece = [offline_mark ++ fst kv ++ ": " ++ text]) /\
         (piece = [] \/
          exists mark text,
            In mark [offline_mark; warning_mark; stale_mark] /\
            piece = [mark ++ fst kv ++ ": " ++ text]))
      l pieces.
Proof.
  intros O. induction l as [|[k v] l IH]; intros i.
  - exists []. split; [reflexivity|constructor].
  - cbn [alerts_from].
    destruct (get_location_status_defined hd k (clock i) O) as (st & G & _).
    rewrite G. cbn [bind].
    destruct (get_location_status_shape _ _ _ _ G) as (kind & message & more & ->).
    destruct (alert_for_status k kind message more) as (here & A & Len & Off).
    rewrite A. cbn [bind].
    destruct (IH (S i)) as (rest & R & F).
    rewrite R. cbn [bind].
    exists (here :: rest). split; [reflexivity|].
    constructor; [|exact F]. cbn [fst]. split.
    + intros Open.
      destruct (offline_when_open hd k (clock i) Open) as (m & mo & G').
      rewrite G in G'. inversion G'; subst.
      exists m. exact (Off eq_refl).
    + exact (alert_for_piece k _ here A).
Qed.

(** X13: On a store the monitor built, [get_alert_summary] does not raise.
    Its lines follow the locations in the order of the store, with at most
    one line for each, made of a mark, that location, a colon and a text;
    and a location with an open outage has its line, with the "offline"
    mark, whatever the clock reads. *)
Theorem alerts_cover_open_outages (hd : pyval) (clock : nat -> naive) :
  own_store hd = true ->
  exists alerts locs pieces,
    get_alert_summary offline_mark warning_mark stale_mark hd clock = Ok alerts /\
    locations_of hd = Some locs /\
    alerts = List.concat pieces /\
    Forall2
      (fun kv piece =>
         (outage_open hd (fst kv) = true ->
          exists text, piece = [offline_mark ++ fst kv ++ ": " ++ text]) /\
         (piece = [] \/
          exists mark text,
            In mark [offline_mark; warning_mark; stale_mark] /\
            piece = [mark ++ fst kv ++ ": " ++ text]))
      locs pieces.
Proof.
  intros O. destruct (own_store_inv hd O) as (locs & L & _).
  destruct (alerts_from_own hd clock O locs 0%nat) as (pieces & A & F).
  exists (List.concat pieces), locs, pieces.
  destruct (locations_of_inv hd locs L) as (d & -> & E).
  split.
  { unfold get_alert_summary. cbn [getitem]. rewrite E. cbn [bind items]. exact A. }
  split; [exact L|]. split; [reflexivity|exact F].
Qed.

End AlertFacts.

(* ================================================================== *)
(** * The status after a failure and after a success *)
(* ================================================================== *)

Section StatusAfterAttempts.

Context {python : Interpreter}.

Lemma status_offline_exact (hd : pyval) (locs r : dict) (location : string)
  (utcnow : naive) (start : pyval) :
  locations_of hd = Some locs ->
  dict_get location locs = Some (PDict r) ->
  dict_get "current_outage_start" r = Some start ->
  truthy start = true ->
  get_location_status hd location utcnow =
  Ok (status "offline"
        ("API offline for " ++
         str_of_int (_calculate_duration start (PStr (isoformat utcnow))) ++
         " minutes")
        [("outage_start", start);
         ("last_error", match dict_get "last_error" r with
                        | Some e => e
                        | None => PStr "Unknown error"
                        end)]).
Proof.
  intros L G C T. destruct (locations_of_inv hd locs L) as (d & -> & E).
  unfold get_location_status. cbn [getitem]. rewrite E. cbn [bind contains].
  unfold dict_mem. rewrite G. cbn [negb bind getitem]. rewrite G. cbn [bind getitem].
  rewrite C. cbn [bind]. rewrite T. reflexivity.
Qed.

Lemma status_success_exact (hd : pyval) (locs r : dict) (location text : string)
  (utcnow last : naive) (start : pyval) (n : Z) :
  locations_of hd = Some locs ->
  dict_get location locs = Some (PDict r) ->
  dict_get "current_outage_start" r = Some start ->
  truthy start = false ->
  dict_get "last_success" r = Some (PStr text) ->
  fromisoformat text = Ok (mkDatetime last None) ->
  dict_get "stale_forecast_count" r = Some (PInt n) ->
  get_location_status hd location utcnow =
  Ok (if wall_micros utcnow - wall_micros last <? 2 * hour_micros then
        if 0 <? n then
          status "warning"
            ("API online but serving stale forecasts (" ++ str_of_int n ++ " times)")
            [("last_success", PStr text)]
        else
          status "online" "API operating normally"
            [("last_success", PStr text);
             ("last_forecast_time", match dict_get "last_forecast_time" r with
                                    | Some v => v
                                    | None => PNone
                                    end)]
      else
        status "stale"
          ("No fresh data for " ++
           str_of_int (whole 3600 (wall_micros utcnow - wall_micros last)) ++
           " hours")
          [("last_success", PStr text)]).
Proof.
  intros L G C T S P N. destruct (locations_of_inv hd locs L) as (d & -> & E).
  unfold get_location_status. cbn [getitem]. rewrite E. cbn [bind contains].
  unfold dict_mem. rewrite G. cbn [negb bind getitem]. rewrite G. cbn [bind getitem].
  rewrite C. cbn [bind]. rewrite T, S. cbn [bind].
  rewrite (parsed_truthy _ _ P). cbn [fromisoformat_obj]. rewrite P.
  cbn [bind sub of_utcnow tzinfo fields].
  destruct (_ <? 2 * hour_micros); [|reflexivity].
  cbn [get_default bind]. rewrite N.
  destruct (0 <? n); reflexivity.
Qed.

Lemma open_since_in (r : list attempt) (s : naive) :
  open_since r = Some s -> exists b, In b r /\ s = a_utcnow b.
Proof.
  induction r as [|a older IH]; cbn [open_since]; [discriminate|].
  destruct (a_success a); [discriminate|].
  destruct (open_since older) as [s'|] eqn:E.
  - intros H. inversion H; subst. destruct (IH eq_refl) as (b & I & Eb).
    exists b. split; [right; exact I|exact Eb].
  - intros H. inversion H; subst. exists a. split; [left; reflexivity|reflexivity].
Qed.

Lemma attempts_for_valid (location : string) (l : list attempt) (b : attempt) :
  forallb valid_clock l = true -> In b (attempts_for location l) ->
  valid_naive (a_utcnow b) = true.
Proof.
  intros V I. unfold attempts_for in I. apply filter_In in I. destruct I as [I _].
  rewrite forallb_forall in V. exact (V b I).
Qed.

Lemma described_last (before : list attempt) (a : attempt) (o : option pyval) :
  described (before ++ [a]) o ->
  exists d, o = Some (PDict d) /\ describes (before ++ [a]) d.
Proof.
  unfold described. destruct (before ++ [a])%list eqn:E;
    [destruct before; discriminate|].
  intros H; exact H.
Qed.

Lemma attempts_for_in (location : string) (l : list attempt) (b : attempt) :
  In b (attempts_for location l) -> In b l.
Proof. unfold attempts_for. intros I. apply filter_In in I. apply I. Qed.

Lemma near_bound (t : naive) (l : list attempt) (b : attempt) :
  forallb (near t) l = true -> In b l ->
  Z.abs (wall_micros t - wall_micros (a_utcnow b)) < century_micros.
Proof.
  intros N I. rewrite forallb_forall in N. pose proof (N b I) as H.
  unfold near in H. apply Z.ltb_lt in H. exact H.
Qed.

(** X7: After a failed attempt the location is "offline" at any time less
    than a century from the attempts: the message counts the minutes since
    the failure that opened the outage (the first of the run of failures),
    cut towards zero, and the status carries the error message of the
    latest failure. *)
Theorem offline_after_failed_attempt (fs : filesystem) (l : list attempt)
  (location : string) (before : list attempt) (a : attempt) (utcnow : naive) :
  attempts_for location l = (before ++ [a])%list ->
  a_success a = false ->
  forallb valid_clock l = true -> valid_naive utcnow = true ->
  forallb (near utcnow) l = true ->
  exists st,
    record_all (empty_store, fs) l = Ok st /\
    get_location_status (fst st) location utcnow =
    Ok (let since := match open_since (rev before) with
                     | Some s => s
                     | None => a_utcnow a
                     end in
        status "offline"
          ("API offline for " ++
           str_of_int (Z.quot (wall_micros utcnow - wall_micros since) minute_micros)
           ++ " minutes")
          [("outage_start", PStr (isoformat since));
           ("last_error", of_option_str (a_error_message a))]).
Proof.
  intros E F V Vn Near.
  destruct (attempts_described fs l) as (locs & R & _ & D).
  eexists. split; [exact R|]. cbn [fst].
  specialize (D location). rewrite E in D.
  destruct (described_last _ _ _ D) as (d & G & _ & _ & B).
  pose proof (d_marker _ _ B) as M. pose proof (d_last_error _ _ B) as Le.
  rewrite rev_app_distr in M. cbn [rev app open_since] in M. rewrite F in M.
  rewrite latest_snoc in Le. unfold failed in Le at 1. rewrite F in Le. cbn [negb] in Le.
  set (since := match open_since (rev before) with
                | Some s => s
                | None => a_utcnow a
                end).
  assert (M' : dict_get "current_outage_start" d = Some (PStr (isoformat since))).
  { rewrite M. unfold since. destruct (open_since (rev before)); reflexivity. }
  assert (Is : exists b, In b (attempts_for location l) /\ since = a_utcnow b).
  { unfold since. rewrite E. destruct (open_since (rev before)) as [s|] eqn:O.
    - destruct (open_since_in _ _ O) as (b & I & ->).
      exists b. split; [|reflexivity].
      apply in_or_app. left. apply in_rev. exact I.
    - exists a. split; [|reflexivity]. apply in_or_app. right. left. reflexivity. }
  destruct Is as (b & Ib & Eb).
  assert (Vs : valid_naive since = true).
  { rewrite Eb. exact (attempts_for_valid location l b V Ib). }
  pose proof (near_bound utcnow l b Near (attempts_for_in _ _ _ Ib)) as Bd.
  rewrite <- Eb in Bd.
  rewrite (status_offline_exact (store_after locs l) locs d location utcnow _
             eq_refl G M' (isoformat_truthy since)).
  rewrite Le, (_calculate_duration_exact since utcnow Vs Vn Bd). reflexivity.
Qed.

(** X8: After a successful attempt the location is never "offline": for less
    than two hours it is "online", or "warning" with the staleness tally
    when that is positive; from two hours on, and for less than a century,
    it is "stale", with the whole hours elapsed.  The tally counts the
    forecast times that the interpreter's [fromisoformat] reads as a
    datetime without offset more than 12 hours old. *)
Theorem status_after_successful_attempt (fs : filesystem) (l : list attempt)
  (location : string) (before : list attempt) (a : attempt) (utcnow : naive) :
  attempts_for location l = (before ++ [a])%list ->
  a_success a = true ->
  valid_naive (a_utcnow a) = true ->
  wall_micros utcnow - wall_micros (a_utcnow a) < century_micros ->
  exists st,
    record_all (empty_store, fs) l = Ok st /\
    get_location_status (fst st) location utcnow =
    Ok (let age := wall_micros utcnow - wall_micros (a_utcnow a) in
        let n := count tallied (before ++ [a]) in
        if age <? 2 * hour_micros then
          if 0 <? n then
            status "warning"
              ("API online but serving stale forecasts (" ++ str_of_int n ++ " times)")
              [("last_success", stamp a)]
          else
            status "online" "API operating normally"
              [("last_success", stamp a);
               ("last_forecast_time",
                match latest brought_time (before ++ [a]) with
                | Some b => of_option_str (a_forecast_time b)
                | None => PNone
                end)]
        else
          status "stale"
            ("No fresh data for " ++ str_of_int (age / hour_micros) ++ " hours")
            [("last_success", stamp a)]).
Proof.
  intros E S V Bd.
  destruct (attempts_described fs l) as (locs & R & _ & D).
  eexists. split; [exact R|]. cbn [fst].
  specialize (D location). rewrite E in D.
  destruct (described_last _ _ _ D) as (d & G & _ & _ & B).
  pose proof (d_marker _ _ B) as M. pose proof (d_last_success _ _ B) as Ls.
  rewrite rev_app_distr in M. cbn [rev app open_since] in M. rewrite S in M.
  rewrite latest_snoc, S in Ls. cbn [stamp_of] in Ls.
  rewrite (status_success_exact (store_after locs l) locs d location _ utcnow
             (a_utcnow a) PNone _ eq_refl G M eq_refl Ls
             (fromisoformat_isoformat _ V) (d_tally _ _ B)).
  rewrite (d_forecast_time _ _ B). cbv zeta.
  destruct (_ <? 2 * hour_micros) eqn:A; [reflexivity|].
  apply Z.ltb_ge in A.
  rewrite whole_hours_exact by (unfold hour_micros in *; lia).
  rewrite Z.quot_div_nonneg by (unfold hour_micros in *; lia).
  reflexivity.
Qed.

Lemma clock_ordered_snoc (la : list attempt) (a : attempt) :
  clock_ordered (la ++ [a]) ->
  clock_ordered la /\
  Forall (fun b => wall_micros (a_utcnow b) <= wall_micros (a_utcnow a)) la.
Proof.
  induction la as [|x la IH]; cbn [app clock_ordered].
  - intros _. split; [exact I|constructor].
  - intros [F C]. destruct (IH C) as [C' F'].
    apply Forall_app in F. destruct F as [F1 F2].
    split; [split; assumption|].
    constructor; [inversion F2; assumption|exact F'].
Qed.

Lemma clock_ordered_filter (p : attempt -> bool) (l : list attempt) :
  clock_ordered l -> clock_ordered (filter p l).
Proof.
  induction l as [|x l IH]; cbn [filter clock_ordered]; [trivial|].
  intros [F C]. destruct (p x); [|exact (IH C)].
  split; [|exact (IH C)].
  rewrite Forall_forall in *. intros b I. apply filter_In in I. apply F. apply I.
Qed.

(** With valid clock readings that do not run backwards and are less than
    a century apart, every closed outage ends no earlier than it starts,
    and its event is the one with the floor of the minutes. *)
Lemma closed_outages_exact (la : list attempt) :
  clock_ordered la ->
  Forall (fun b => valid_naive (a_utcnow b) = true) la ->
  (forall x y, In x la -> In y la -> near (a_utcnow x) y = true) ->
  Forall (fun se => wall_micros (fst se) <= wall_micros (snd se))
    (closed_outages (rev la)) /\
  map event_of (closed_outages (rev la)) = map exact_event (closed_outages (rev la)).
Proof.
  induction la as [|a la IH] using rev_ind; intros C V N.
  - split; [constructor|reflexivity].
  - apply clock_ordered_snoc in C. destruct C as [C Le].
    apply Forall_app in V. destruct V as [V Va]. inversion Va as [|? ? Va' _]; subst.
    assert (N' : forall x y, In x la -> In y la -> near (a_utcnow x) y = true).
    { intros x y Ix Iy. apply N; apply in_or_app; left; assumption. }
    destruct (IH C V N') as [O M].
    rewrite rev_app_distr. cbn [rev app closed_outages].
    destruct (a_success a); [|rewrite app_nil_r; split; assumption].
    destruct (open_since (rev la)) as [s|] eqn:Os;
      [|rewrite app_nil_r; split; assumption].
    destruct (open_since_in _ _ Os) as (b & Ib & ->).
    apply in_rev in Ib.
    rewrite Forall_forall in Le, V.
    pose proof (Le b Ib) as Lb. pose proof (V b Ib) as Vb.
    assert (Bd : Z.abs (wall_micros (a_utcnow a) - wall_micros (a_utcnow b))
                 < century_micros).
    { assert (H : near (a_utcnow a) b = true).
      { apply N; apply in_or_app; [right; left; reflexivity|left; exact Ib]. }
      unfold near in H. apply Z.ltb_lt in H. exact H. }
    split.
    + apply Forall_app. split; [exact O|]. constructor; [exact Lb|constructor].
    + rewrite !map_app, M. f_equal. cbn [map]. f_equal.
      unfold event_of, exact_event, outage_event. cbn [fst snd].
      rewrite (_calculate_duration_exact _ _ Vb Va' Bd).
      rewrite Z.quot_div_nonneg by (unfold minute_micros; lia).
      reflexivity.
Qed.

(** X6: With valid clock readings that do not run backwards and are less
    than a century apart, every event in [outage_history] has a
    [duration_minutes] that is the floor of the minutes from its start to
    its end, and is not negative. *)
Theorem recorded_durations_are_floors (fs : filesystem) (l : list attempt)
  (location : string) (first : attempt) (rest : list attempt) :
  attempts_for location l = first :: rest ->
  forallb valid_clock l = true -> clock_ordered l ->
  close_together l = true ->
  exists st loc,
    record_all (empty_store, fs) l = Ok st /\
    location_record (fst st) location = Some loc /\
    field loc "outage_history" =
      Some (PList (map exact_event (closed_outages (rev (first :: rest))))) /\
    Forall (fun se => 0 <= (wall_micros (snd se) - wall_micros (fst se)) / minute_micros)
      (closed_outages (rev (first :: rest))).
Proof.
  intros E V C Cl0. destruct (location_described fs l location) as (st & R & D).
  rewrite E in D. destruct D as (d & G & _ & _ & B).
  assert (Cl : clock_ordered (first :: rest)).
  { rewrite <- E. apply clock_ordered_filter. exact C. }
  assert (Vl : Forall (fun b => valid_naive (a_utcnow b) = true) (first :: rest)).
  { rewrite Forall_forall. intros b I. apply (attempts_for_valid location l b V).
    rewrite E. exact I. }
  assert (Nl : forall x y, In x (first :: rest) -> In y (first :: rest) ->
                           near (a_utcnow x) y = true).
  { intros x y Ix Iy. rewrite <- E in Ix, Iy.
    apply attempts_for_in in Ix. apply attempts_for_in in Iy.
    unfold close_together in Cl0. rewrite forallb_forall in Cl0.
    pose proof (Cl0 x Ix) as Nx. rewrite forallb_forall in Nx. exact (Nx y Iy). }
  destruct (closed_outages_exact (first :: rest) Cl Vl Nl) as [O M].
  exists st, (PDict d). cbn [field].
  split; [exact R|]. split; [exact G|].
  split; [rewrite (d_history _ _ B), M; reflexivity|].
  eapply Forall_impl; [|exact O].
  intros se Hse. cbv beta in Hse. apply Z.div_pos; [lia|unfold minute_micros; lia].
Qed.

End StatusAfterAttempts.

(* ================================================================== *)
(** * The health file across restarts *)
(* ================================================================== *)

Section Persistence.

Context {python : Interpreter}.

Lemma distinct_set (k : string) (v : pyval) (d : dict) :
  distinct (map fst d) = true -> distinct (map fst (dict_set k v d)) = true.
Proof.
  induction d as [|[k0 v0] d IH]; cbn [dict_set map fst distinct]; [reflexivity|].
  intros H. apply andb_true_iff in H. destruct H as [N D].
  destruct (String.eqb k k0) eqn:E.
  - apply String.eqb_eq in E. subst k0. cbn [map fst distinct]. rewrite N, D. reflexivity.
  - cbn [map fst distinct]. rewrite (IH D), andb_true_r.
    rewrite <- dict_mem_keys in *. unfold dict_mem in *.
    rewrite dict_get_set_ne; [exact N|].
    intros ->. rewrite String.eqb_refl in E. discriminate.
Qed.

Lemma unique_set (k : string) (v : pyval) (d : dict) :
  unique_keys (PDict d) = true -> unique_keys v = true ->
  unique_keys (PDict (dict_set k v d)) = true.
Proof.
  cbn [unique_keys]. intros H V. apply andb_true_iff in H. destruct H as [D F].
  rewrite (distinct_set k v d D). cbn [andb].
  apply (forallb_dict_set unique_keys); assumption.
Qed.

Lemma unique_get (k : string) (v : pyval) (d : dict) :
  unique_keys (PDict d) = true -> dict_get k d = Some v -> unique_keys v = true.
Proof.
  cbn [unique_keys]. intros H. apply andb_true_iff in H. destruct H as [_ F].
  induction d as [|[k0 v0] d IH]; cbn [dict_get]; [discriminate|].
  cbn [forallb snd] in F. apply andb_true_iff in F. destruct F as [F0 F].
  destruct (String.eqb k k0); [intros E; inversion E; subst; exact F0|exact (IH F)].
Qed.

Lemma setitem_unique (v x v' : pyval) (k : string) :
  setitem v k x = Ok v' -> unique_keys v = true -> unique_keys x = true ->
  unique_keys v' = true.
Proof.
  destruct v; cbn [setitem]; try discriminate.
  intros E U X. inversion E; subst. apply unique_set; assumption.
Qed.

Lemma getitem_unique (v x : pyval) (k : string) :
  getitem v k = Ok x -> unique_keys v = true -> unique_keys x = true.
Proof.
  destruct v as [| | | | |d]; cbn [getitem]; try discriminate.
  destruct (dict_get k d) eqn:G; [|discriminate].
  intros E U. inversion E; subst. exact (unique_get k x d U G).
Qed.

Lemma iadd_one_unique (v v' : pyval) (k : string) :
  iadd_one v k = Ok v' -> unique_keys v = true -> unique_keys v' = true.
Proof.
  unfold iadd_one. intros H U. bind_ok H old E1. bind_ok H new E2.
  apply (setitem_unique _ _ _ _ H U).
  destruct old; cbn [add_one] in E2; try discriminate; inversion E2; reflexivity.
Qed.

Lemma append_unique (v x v' : pyval) :
  append v x = Ok v' -> unique_keys v = true -> unique_keys x = true ->
  unique_keys v' = true.
Proof.
  destruct v; cbn [append]; try discriminate.
  intros E U X. inversion E; subst. cbn [unique_keys] in *.
  rewrite forallb_app, U. cbn [forallb]. rewrite X. reflexivity.
Qed.

Lemma check_stale_unique (loc : pyval) (ft now : string) (utcnow2 : naive) :
  unique_keys loc = true -> unique_keys (check_stale loc ft now utcnow2) = true.
Proof.
  intros U. unfold check_stale.
  match goal with
  | |- unique_keys (try_except ?m _) = true => destruct m as [r|] eqn:H
  end; cbn [try_except]; [|exact U].
  bind_ok H dt E1. bind_ok H age E2.
  destruct (Float.gt_int _ 12); [|inversion H; subst; exact U].
  bind_ok H loc1 E3.
  exact (setitem_unique _ _ _ _ H (iadd_one_unique _ _ _ E3 U) eq_refl).
Qed.

Lemma update_location_unique (loc loc' : pyval) (success : bool)
  (forecast_time error_message : option string) (now : string) (utcnow2 : naive) :
  update_location loc success forecast_time error_message now utcnow2 = Ok loc' ->
  unique_keys loc = true -> unique_keys loc' = true.
Proof.
  unfold update_location. intros H U.
  bind_ok H l1 E1. bind_ok H l2 E2.
  pose proof (setitem_unique _ _ _ _ E2 (iadd_one_unique _ _ _ E1 U) eq_refl) as U2.
  destruct success.
  - unfold on_success in H. bind_ok H l3 E3. bind_ok H l4 E4. bind_ok H l5 E5.
    pose proof (setitem_unique _ _ _ _ E4 (iadd_one_unique _ _ _ E3 U2) eq_refl) as U4.
    assert (U5 : unique_keys l5 = true).
    { unfold on_forecast_time in E5. destruct forecast_time as [ft|];
        [|inversion E5; subst; exact U4].
      destruct (truthy (PStr ft)); [|inversion E5; subst; exact U4].
      bind_ok E5 l6 E6. inversion E5; subst.
      apply check_stale_unique. exact (setitem_unique _ _ _ _ E6 U4 eq_refl). }
    bind_ok H start E6.
    destruct (truthy start); [|inversion H; subst; exact U5].
    bind_ok H h1 E7. bind_ok H h2 E8. bind_ok H l6 E9.
    apply (setitem_unique _ _ _ _ H); [|reflexivity].
    apply (setitem_unique _ _ _ _ E9 U5).
    apply (append_unique _ _ _ E8 (getitem_unique _ _ _ E7 U5)).
    cbn [unique_keys map fst distinct existsb String.eqb Ascii.eqb Bool.eqb
         negb andb orb forallb snd].
    rewrite (getitem_unique _ _ _ E6 U5). reflexivity.
  - unfold on_failure in H. bind_ok H l3 E3. bind_ok H l4 E4. bind_ok H l5 E5.
    bind_ok H start E6.
    pose proof (setitem_unique _ _ _ _ E4 (iadd_one_unique _ _ _ E3 U2) eq_refl) as U4.
    assert (U5 : unique_keys l5 = true).
    { apply (setitem_unique _ _ _ _ E5 U4). destruct error_message; reflexivity. }
    destruct (negb (truthy start)); [|inversion H; subst; exact U5].
    exact (setitem_unique _ _ _ _ H U5 eq_refl).
Qed.

(** One attempt: the file is written from the store the call returns, and
    a store that holds no key twice stays so. *)
Lemma record_saves (st st' : pyval * filesystem) (a : attempt) :
  record st a = Ok st' ->
  snd st' = _save_health_data (fst st') (snd st) /\
  (unique_keys (fst st) = true -> unique_keys (fst st') = true).
Proof.
  unfold record, record_attempt. intros H.
  bind_ok H locations E1. bind_ok H known E2. bind_ok H locs1 E3.
  bind_ok H loc E4. bind_ok H loc' E5. bind_ok H locs2 E6.
  bind_ok H hd1 E7. bind_ok H hd2 E8.
  inversion H; subst. cbn [fst snd]. split; [reflexivity|].
  intros U.
  pose proof (getitem_unique _ _ _ E1 U) as U1.
  assert (U3 : unique_keys locs1 = true).
  { destruct (negb known); [|inversion E3; subst; exact U1].
    exact (setitem_unique _ _ _ _ E3 U1 eq_refl). }
  pose proof (update_location_unique _ _ _ _ _ _ _ E5 (getitem_unique _ _ _ E4 U3)) as U5.
  exact (setitem_unique _ _ _ _ E8
           (setitem_unique _ _ _ _ E7 U (setitem_unique _ _ _ _ E6 U3 U5)) eq_refl).
Qed.

Lemma record_all_saves (l : list attempt) : forall st st' : pyval * filesystem,
  record_all st l = Ok st' ->
  (unique_keys (fst st) = true -> unique_keys (fst st') = true) /\
  snd st' = match l with
            | [] => snd st
            | _ :: _ => _save_health_data (fst st') (snd st)
            end.
Proof.
  induction l as [|a l IH]; intros st st' H; cbn [record_all] in H.
  - inversion H; subst. split; [trivial|reflexivity].
  - bind_ok H st1 E. destruct (record_saves _ _ _ E) as [S1 U1].
    destruct (IH _ _ H) as [U2 S2]. split; [intros U; exact (U2 (U1 U))|].
    rewrite S2. destruct l; [cbn [record_all] in H; inversion H; subst; exact S1|].
    rewrite S1. apply save_save.
Qed.

(** X15: A monitor started again after at least one recorded attempt holds
    the store its forerunner held: the file is the latest store as
    [json.dump] writes it, and [__init__] reads that store back, when the
    file can be written and read. *)
Theorem restart_restores_store (hd : pyval) (fs : filesystem) (l : list attempt)
  (st : pyval * filesystem) :
  unique_keys hd = true ->
  writable fs = true -> readable fs = true ->
  l <> [] ->
  record_all (hd, fs) l = Ok st ->
  monitor_file (snd st) = Some (Json.dumps (fst st)) /\
  init (snd st) = fst st.
Proof.
  intros U W R N H. destruct (record_all_saves l _ _ H) as [U' S].
  cbn [fst snd] in U', S. destruct l as [|a l']; [contradiction|].
  rewrite S. unfold init, _load_health_data, _save_health_data. rewrite W.
  cbn [monitor_file readable]. rewrite R, (loads_dumps _ (U' U)).
  split; reflexivity.
Qed.



End Persistence.

(* ================================================================== *)
(** * Durations, freshness and the lines of the alert summary *)
(* ================================================================== *)

Section DurationsAndAlerts.

Context {python : Interpreter}.

(** X17: [_calculate_duration] never raises.  It gives 0 when
    [fromisoformat] raises on one of its arguments (an object that is not a
    string, a string it does not read), and when one argument has an offset
    and the other has none.  On two datetimes without offset less than a
    century apart it gives the difference in minutes cut towards zero, so
    that exchanging the arguments gives the opposite number; on two
    datetimes with offsets, the same of the difference of their times in
    UTC. *)
Theorem _calculate_duration_cases (a b : pyval) :
  (forall e, fromisoformat_obj a = Raise e ->
             _calculate_duration a b = 0 /\ _calculate_duration b a = 0) /\
  (forall x y off,
     fromisoformat_obj a = Ok (mkDatetime x (Some off)) ->
     fromisoformat_obj b = Ok (mkDatetime y None) ->
     _calculate_duration a b = 0 /\ _calculate_duration b a = 0) /\
  (forall x y,
     fromisoformat_obj a = Ok (mkDatetime x None) ->
     fromisoformat_obj b = Ok (mkDatetime y None) ->
     Z.abs (wall_micros y - wall_micros x) < century_micros ->
     _calculate_duration a b = Z.quot (wall_micros y - wall_micros x) minute_micros /\
     _calculate_duration b a = - _calculate_duration a b) /\
  (forall x y ox oy,
     fromisoformat_obj a = Ok (mkDatetime x (Some ox)) ->
     fromisoformat_obj b = Ok (mkDatetime y (Some oy)) ->
     let span := (wall_micros y - oy) - (wall_micros x - ox) in
     Z.abs span < century_micros ->
     _calculate_duration a b = Z.quot span minute_micros /\
     _calculate_duration b a = - _calculate_duration a b).
Proof.
  unfold _calculate_duration. split; [|split; [|split]].
  - intros e E. rewrite E. split; [reflexivity|].
    destruct (fromisoformat_obj b); reflexivity.
  - intros x y off Ea Eb. rewrite Ea, Eb. split; reflexivity.
  - intros x y Ea Eb Bd. rewrite Ea, Eb.
    cbn [bind sub tzinfo fields try_except].
    rewrite (whole_minutes_exact _ Bd).
    rewrite whole_minutes_exact by lia.
    split; [reflexivity|].
    rewrite <- Z.quot_opp_l by (unfold minute_micros; discriminate).
    f_equal. lia.
  - intros x y ox oy Ea Eb Bd. rewrite Ea, Eb.
    cbn [bind sub tzinfo fields try_except].
    rewrite (whole_minutes_exact _ Bd).
    rewrite whole_minutes_exact by lia.
    split; [reflexivity|].
    rewrite <- Z.quot_opp_l by (unfold minute_micros; discriminate).
    f_equal. lia.
Qed.

(** X18: [check_data_freshness] says "not fresh" in one case only, and then
    always: ["updated"] is a string that the interpreter's [fromisoformat]
    reads, after the replacement of "Z", as a datetime without offset more
    than 12 hours before the clock reading. *)
Theorem check_data_freshness_false_only_when (forecast_data : pyval)
  (utcnow : naive) :
  check_data_freshness forecast_data utcnow = false <->
  exists text updated,
    getitem forecast_data "updated" = Ok (PStr text) /\
    fromisoformat (replace_char "Z" "+00:00" text) = Ok (mkDatetime updated None) /\
    12 * hour_micros < wall_micros utcnow - wall_micros updated.
Proof.
  split.
  - intros H.
    destruct forecast_data as [| | |str|l|d];
      try (unfold check_data_freshness in H; cbn in H; discriminate H).
    + unfold check_data_freshness in H. cbn [contains bind] in H.
      destruct (substringb "updated" str); cbn in H; discriminate H.
    + unfold check_data_freshness in H. cbn [contains bind] in H.
      destruct (existsb _ l); cbn in H; discriminate H.
    + destruct (dict_get "updated" d) as [v|] eqn:D.
      2:{ rewrite (check_data_freshness_absent d utcnow D) in H. discriminate H. }
      destruct v as [| | |text| |];
        try (unfold check_data_freshness in H; cbn [contains bind] in H;
             unfold dict_mem in H; rewrite D in H; cbn [bind getitem] in H;
             rewrite D in H; cbn in H; discriminate H).
      destruct (fromisoformat (replace_char "Z" "+00:00" text))
        as [[updated [off|]]|e] eqn:P.
      * rewrite (check_data_freshness_aware d text updated utcnow off D P) in H.
        discriminate H.
      * rewrite (check_data_freshness_naive d text updated utcnow D P) in H.
        exists text, updated. cbn [getitem]. rewrite D.
        split; [reflexivity|]. split; [exact P|].
        apply Z.leb_gt in H. exact H.
      * rewrite (check_data_freshness_unparseable d text e utcnow D P) in H.
        discriminate H.
  - intros (text & updated & G & P & A).
    destruct forecast_data as [| | | | |d]; try discriminate G.
    cbn [getitem] in G.
    destruct (dict_get "updated" d) as [v|] eqn:D; [|discriminate G].
    inversion G; subst v.
    rewrite (check_data_freshness_naive d text updated utcnow D P).
    apply Z.leb_gt. exact A.
Qed.

Variables (offline_mark warning_mark stale_mark : string).

Lemma alerts_from_pieces (hd : pyval) (clock : nat -> naive) :
  forall (l : dict) (i : nat) (alerts : list string),
  alerts_from offline_mark warning_mark stale_mark hd clock i l = Ok alerts ->
  exists pieces,
    alerts = List.concat pieces /\
    Forall2
      (fun kv piece =>
         piece = [] \/
         exists mark text,
           In mark [offline_mark; warning_mark; stale_mark] /\
           piece = [mark ++ fst kv ++ ": " ++ text])
      l pieces.
Proof.
  induction l as [|[k v] l IH]; intros i alerts H; cbn [alerts_from] in H.
  - inversion H; subst. exists []. split; [reflexivity|constructor].
  - bind_ok H st E1. bind_ok H here E2. bind_ok H more E3. inversion H; subst.
    destruct (IH _ _ E3) as (pieces & -> & F).
    exists (here :: pieces). split; [reflexivity|].
    constructor; [|exact F].
    exact (alert_for_piece offline_mark warning_mark stale_mark k st here E2).
Qed.

(** X14: Whenever [get_alert_summary] returns, on any store, its lines
    follow the locations in the order of the store, with at most one line
    for each location, made of one of the three marks, that location, a
    colon and a text. *)
Theorem alerts_name_locations (hd : pyval) (clock : nat -> naive)
  (alerts : list string) :
  get_alert_summary offline_mark warning_mark stale_mark hd clock = Ok alerts ->
  exists locs pieces,
    locations_of hd = Some locs /\
    alerts = List.concat pieces /\
    Forall2
      (fun kv piece =>
         piece = [] \/
         exists mark text,
           In mark [offline_mark; warning_mark; stale_mark] /\
           piece = [mark ++ fst kv ++ ": " ++ text])
      locs pieces.
Proof.
  unfold get_alert_summary. intros H.
  bind_ok H locations E1. bind_ok H l E2.
  destruct locations as [| | | | |locs]; try discriminate E2.
  cbn [items] in E2. inversion E2; subst l.
  destruct hd as [| | | | |d]; try discriminate E1. cbn [getitem] in E1.
  destruct (dict_get "locations" d) eqn:G; [|discriminate E1]. inversion E1; subst.
  destruct (alerts_from_pieces _ _ _ _ _ H) as (pieces & -> & F).
  exists locs, pieces. split; [unfold locations_of; rewrite G; reflexivity|].
  split; [reflexivity|exact F].
Qed.

End DurationsAndAlerts.

(* ================================================================== *)
(** * The histories and reports at work on sample data *)
(* ================================================================== *)

Section MoreInstances.

Import Samples.

#[local] Existing Instance python_3_7.

Lemma timestamps_follow_attempts_witness :
  exists st loc,
    record_all (empty_store, no_file) outage_and_recovery = Ok st /\
    location_record (fst st) "A" = Some loc /\
    field loc "first_seen" = Some (PStr "2024-05-01T10:00:00") /\
    field loc "last_attempt" = Some (PStr "2024-05-01T10:40:00.000005") /\
    field loc "last_success" = Some (PStr "2024-05-01T10:40:00.000005") /\
    field loc "last_failure" = Some (PStr "2024-05-01T10:10:00.000123") /\
    field loc "last_error" = Some (PStr "refused").
Proof.
  exact (timestamps_follow_attempts no_file outage_and_recovery "A"
           (failed "A" "timeout" t_10_00)
           [failed "A" "refused" t_10_10; ok "A" (Some old_forecast_naive) t_10_40]
           eq_refl).
Defined.

Lemma outages_follow_attempts_witness :
  exists st loc,
    record_all (empty_store, no_file) outage_and_recovery = Ok st /\
    location_record (fst st) "A" = Some loc /\
    field loc "current_outage_start" = Some PNone /\
    field loc "outage_history" =
      Some (PList [PDict [("start", PStr "2024-05-01T10:00:00");
                          ("end", PStr "2024-05-01T10:40:00.000005");
                          ("duration_minutes", PInt 40)]]).
Proof.
  exact (outages_follow_attempts no_file outage_and_recovery "A"
           (failed "A" "timeout" t_10_00)
           [failed "A" "refused" t_10_10; ok "A" (Some old_forecast_naive) t_10_40]
           eq_refl).
Defined.

Lemma forecast_fields_follow_attempts_witness :
  exists st loc,
    record_all (empty_store, no_file) outage_and_recovery = Ok st /\
    location_record (fst st) "A" = Some loc /\
    field loc "last_forecast_time" = Some (PStr "2024-04-30T21:00:00") /\
    field loc "stale_forecast_count" = Some (PInt 1) /\
    field loc "last_stale_warning" = Some (PStr "2024-05-01T10:40:00.000005").
Proof.
  exact (forecast_fields_follow_attempts no_file outage_and_recovery "A"
           (failed "A" "timeout" t_10_00)
           [failed "A" "refused" t_10_10; ok "A" (Some old_forecast_naive) t_10_40]
           eq_refl).
Defined.

Lemma recorded_durations_are_floors_witness :
  exists st loc,
    record_all (empty_store, no_file) outage_and_recovery = Ok st /\
    location_record (fst st) "A" = Some loc /\
    field loc "outage_history" =
      Some (PList (map exact_event
                     (closed_outages (rev outage_and_recovery)))) /\
    Forall (fun se => 0 <= (wall_micros (snd se) - wall_micros (fst se)) / minute_micros)
      (closed_outages (rev outage_and_recovery)).
Proof.
  apply (recorded_durations_are_floors no_file outage_and_recovery "A"
           (failed "A" "timeout" t_10_00)
           [failed "A" "refused" t_10_10; ok "A" (Some old_forecast_naive) t_10_40]).
  - reflexivity.
  - reflexivity.
  - cbn [outage_and_recovery clock_ordered].
    repeat split; repeat constructor; apply Z.leb_le; vm_compute; reflexivity.
  - vm_compute. reflexivity.
Defined.

Lemma uptime_divisor_not_zero_witness :
  get_uptime_percentage healthy_store "A" = Ok (Percent 1 1) /\ 1 <> 0.
Proof.
  split; [reflexivity|].
  apply (uptime_divisor_not_zero healthy_store "A" 1 1). reflexivity.
Defined.

Lemma uptime_between_0_and_100_witness :
  exists p,
    get_uptime_percentage offline_store "A" = Ok p /\
    QArith_base.Qle (QArith_base.inject_Z 0) (exact p) /\
    QArith_base.Qle (exact p) (QArith_base.inject_Z 100).
Proof.
  apply (uptime_between_0_and_100 offline_store "A"). reflexivity.
Defined.

Lemma alerts_cover_open_outages_witness :
  exists alerts locs pieces,
    get_alert_summary "[offline] " "[warning] " "[stale] " mixed_store
      (fun _ => t_10_40) = Ok alerts /\
    locations_of mixed_store = Some locs /\
    alerts = List.concat pieces /\
    Forall2
      (fun kv piece =>
         (outage_open mixed_store (fst kv) = true ->
          exists text, piece = ["[offline] " ++ fst kv ++ ": " ++ text]) /\
         (piece = [] \/
          exists mark text,
            In mark ["[offline] "; "[warning] "; "[stale] "] /\
            piece = [mark ++ fst kv ++ ": " ++ text]))
      locs pieces.
Proof.
  apply (alerts_cover_open_outages "[offline] " "[warning] " "[stale] "
           mixed_store (fun _ => t_10_40)).
  reflexivity.
Defined.

Lemma alerts_name_locations_witness :
  exists locs pieces,
    locations_of mixed_store = Some locs /\
    ["[offline] A: API offline for 29 minutes"] = List.concat pieces /\
    Forall2
      (fun kv piece =>
         piece = [] \/
         exists mark text,
           In mark ["[offline] "; "[warning] "; "[stale] "] /\
           piece = [mark ++ fst kv ++ ": " ++ text])
      locs pieces.
Proof.
  apply (alerts_name_locations "[offline] " "[warning] " "[stale] "
           mixed_store (fun _ => t_10_40)).
  vm_compute. reflexivity.
Defined.

Lemma status_after_attempts_witness :
  exists st status,
    record_all (empty_store, no_file) outage_and_recovery = Ok st /\
    get_location_status (fst st) "A" t_13_40 = Ok status /\
    known_status status = true.
Proof.
  apply (status_after_attempts no_file outage_and_recovery "A" t_13_40).
  reflexivity.
Defined.

Lemma offline_after_failed_attempt_witness :
  exists st,
    record_all (empty_store, no_file) fetch_then_failure = Ok st /\
    get_location_status (fst st) "A" t_10_40 =
    Ok (status "offline" "API offline for 29 minutes"
          [("outage_start", PStr "2024-05-01T10:10:00.000123");
           ("last_error", PStr "timeout")]).
Proof.
  exact (offline_after_failed_attempt no_file fetch_then_failure "A"
           [ok "A" None t_10_00] (failed "A" "timeout" t_10_10) t_10_40
           eq_refl eq_refl eq_refl eq_refl eq_refl).
Defined.

Lemma status_after_successful_attempt_witness :
  exists st,
    record_all (empty_store, no_file) outage_and_recovery = Ok st /\
    get_location_status (fst st) "A" t_13_40 =
    Ok (status "stale" "No fresh data for 3 hours"
          [("last_success", PStr "2024-05-01T10:40:00.000005")]).
Proof.
  exact (status_after_successful_attempt no_file outage_and_recovery "A"
           [failed "A" "timeout" t_10_00; failed "A" "refused" t_10_10]
           (ok "A" (Some old_forecast_naive) t_10_40) t_13_40
           eq_refl eq_refl eq_refl eq_refl).
Defined.

Lemma restart_restores_store_witness :
  exists st,
    record_all (empty_store, no_file) fetch_then_failure = Ok st /\
    monitor_file (snd st) = Some (Json.dumps (fst st)) /\
    init (snd st) = fst st.
Proof.
  destruct (record_all (empty_store, no_file) fetch_then_failure) as [st|e] eqn:E.
  - exists st. split; [reflexivity|].
    apply (restart_restores_store empty_store no_file fetch_then_failure st);
      [reflexivity|reflexivity|reflexivity|discriminate|exact E].
  - vm_compute in E. discriminate E.
Defined.


(** From 10:10:00.000123 to 10:40:00.000005: 29 minutes, and -29 the other
    way round. *)
Lemma _calculate_duration_cases_witness :
  _calculate_duration (PStr "2024-05-01T10:10:00.000123")
    (PStr "2024-05-01T10:40:00.000005") = 29 /\
  _calculate_duration (PStr "2024-05-01T10:40:00.000005")
    (PStr "2024-05-01T10:10:00.000123") = -29.
Proof.
  destruct (_calculate_duration_cases (PStr "2024-05-01T10:10:00.000123")
              (PStr "2024-05-01T10:40:00.000005")) as (_ & _ & H & _).
  destruct (H t_10_10 t_10_40 eq_refl eq_refl eq_refl) as [H1 H2].
  split; [exact H1|]. rewrite H2, H1. reflexivity.
Defined.

Lemma check_data_freshness_false_only_when_witness :
  check_data_freshness old_forecast_data t_10_40 = false /\
  exists text updated,
    getitem old_forecast_data "updated" = Ok (PStr text) /\
    fromisoformat (replace_char "Z" "+00:00" text) = Ok (mkDatetime updated None) /\
    12 * hour_micros < wall_micros t_10_40 - wall_micros updated.
Proof.
  split; [vm_compute; reflexivity|].
  apply (proj1 (check_data_freshness_false_only_when old_forecast_data t_10_40)).
  vm_compute. reflexivity.
Defined.

End MoreInstances.

Section TwoInterpreters.

Import Samples.

(** The date of 30 April in basic format, on two interpreters: the one
    that reads it finds the payload 34 hours 40 minutes old and tallies the
    forecast time, for the other it is a [ValueError], the payload is
    "fresh" and nothing is tallied.  The theorems above hold of both. *)
Example basic_date_on_two_interpreters :
  fromisoformat (Interpreter := reads_basic_dates) "20240430"
    = Ok (mkDatetime (mkNaive 2024 4 30 0 0 0 0) None) /\
  fromisoformat (Interpreter := python_3_7) "20240430" = Raise ValueError /\
  check_data_freshness (python := reads_basic_dates)
    (PDict [("updated", PStr "20240430")]) t_10_40 = false /\
  check_data_freshness (python := python_3_7)
    (PDict [("updated", PStr "20240430")]) t_10_40 = true /\
  tallied (python := reads_basic_dates) (ok "A" (Some "20240430") t_10_40) = true /\
  tallied (python := python_3_7) (ok "A" (Some "20240430") t_10_40) = false.
Proof. split; [|split; [|split; [|split; [|split]]]]; vm_compute; reflexivity. Qed.

End TwoInterpreters.

(* ================================================================== *)
(** * The zone cut out of the text product *)
(* ================================================================== *)

Section MarineForecast.

Lemma split_lines_not_nil (s : string) : split_lines s <> [].
Proof.
  destruct s as [|c r]; cbn [split_lines]; [discriminate|].
  destruct (Json.code c =? 10); [discriminate|].
  destruct (split_lines r); discriminate.
Qed.

Lemma code_10_newline (c : ascii) : (Json.code c =? 10) = true -> c = Json.newline.
Proof.
  intros H. apply Z.eqb_eq in H. unfold Json.code in H.
  rewrite <- (ascii_N_embedding c).
  replace (N_of_ascii c) with 10%N by lia. reflexivity.
Qed.

(** ['\n'.join(s.split('\n')) == s] *)
Lemma join_split (s : string) : join_lines (split_lines s) = s.
Proof.
  induction s as [|c r IH]; [reflexivity|]. cbn [split_lines].
  pose proof (split_lines_not_nil r) as N.
  destruct (Json.code c =? 10) eqn:E.
  - apply code_10_newline in E. subst c. cbn [join_lines].
    destruct (split_lines r) eqn:S; [contradiction|].
    rewrite IH. reflexivity.
  - destruct (split_lines r) as [|h t] eqn:S; [contradiction|].
    cbn [join_lines] in *. destruct t; cbn [String.append]; rewrite IH; reflexivity.
Qed.

Lemma join_app (l1 l2 : list string) :
  l1 <> [] -> l2 <> [] ->
  join_lines (l1 ++ l2) = join_lines l1 ++ String Json.newline (join_lines l2).
Proof.
  intros N1 N2. induction l1 as [|x l1 IH]; [contradiction|].
  destruct l1 as [|y l1].
  - cbn [app join_lines]. destruct l2; [contradiction|reflexivity].
  - change ((x :: y :: l1) ++ l2)%list with (x :: (y :: l1) ++ l2)%list.
    change (join_lines (x :: (y :: l1) ++ l2)%list)
      with (x ++ String Json.newline (join_lines ((y :: l1) ++ l2)%list)).
    rewrite IH by discriminate.
    change (join_lines (x :: y :: l1))
      with (x ++ String Json.newline (join_lines (y :: l1))).
    rewrite append_assoc. reflexivity.
Qed.

Lemma prefixb_substringb (p s : string) : prefixb p s = true -> substringb p s = true.
Proof. intros H. destruct s; cbn [substringb]; rewrite H; reflexivity. Qed.

Lemma prefixb_first_line (p : string) :
  one_line p = true ->
  forall s, prefixb p s = true -> prefixb p (hd EmptyString (split_lines s)) = true.
Proof.
  induction p as [|a p IH]; intros O s H.
  - destruct (hd EmptyString (split_lines s)); reflexivity.
  - destruct s as [|b s']; [discriminate H|].
    cbn [one_line] in O. apply andb_true_iff in O. destruct O as [Oa Op].
    cbn [prefixb] in H. apply andb_true_iff in H. destruct H as [Hab Hp].
    apply Ascii.eqb_eq in Hab. subst b. cbn [split_lines].
    apply negb_true_iff in Oa. rewrite Oa.
    pose proof (IH Op s' Hp) as P.
    destruct (split_lines s') as [|h t]; cbn [hd prefixb] in *;
      rewrite Ascii.eqb_refl; [|exact P].
    destruct p; [reflexivity|discriminate P].
Qed.

(** A word without a line feed that is in a text is in one of its lines. *)
Lemma substringb_some_line (p : string) :
  one_line p = true ->
  forall s, substringb p s = true -> existsb (substringb p) (split_lines s) = true.
Proof.
  intros O. induction s as [|c r IH]; intros H.
  - cbn [split_lines existsb]. rewrite H. reflexivity.
  - cbn [substringb] in H. apply orb_true_iff in H. destruct H as [H|H].
    + pose proof (prefixb_first_line p O _ H) as P.
      destruct (split_lines (String c r)) as [|h t] eqn:S; cbn [hd existsb] in *.
      * exfalso. exact (split_lines_not_nil (String c r) S).
      * rewrite (prefixb_substringb _ _ P). reflexivity.
    + specialize (IH H). cbn [split_lines].
      destruct (Json.code c =? 10).
      * cbn [existsb]. rewrite IH. apply orb_true_r.
      * destruct (split_lines r) as [|h t]; [discriminate IH|].
        cbn [existsb] in *. apply orb_true_iff in IH. destruct IH as [I|I].
        -- cbn [substringb]. rewrite I, orb_true_r. reflexivity.
        -- rewrite I. apply orb_true_r.
Qed.

Lemma pkz766_content_found (lines : list string) :
  existsb (substringb "PKZ766") lines = true -> pkz766_content false lines <> [].
Proof.
  induction lines as [|line rest IH]; [discriminate|].
  cbn [existsb pkz766_content]. destruct (substringb "PKZ766" line); [discriminate|].
  exact IH.
Qed.

(** X19: [get_marine_forecast] returns the zone exactly when the request
    answers 200 with a text that mentions "PKZ766": once the text mentions
    it, the list the loop collects is not empty. *)
Theorem get_marine_forecast_found (response : option (Z * string)) :
  match get_marine_forecast response with
  | Some _ => true
  | None => false
  end =
  match response with
  | Some (status_code, text_content) =>
      (status_code =? 200) && substringb "PKZ766" text_content
  | None => false
  end.
Proof.
  destruct response as [[status_code text]|]; [|reflexivity].
  unfold get_marine_forecast. destruct (status_code =? 200); [|reflexivity].
  cbn [andb]. destruct (substringb "PKZ766" text) eqn:E; [|reflexivity].
  pose proof (pkz766_content_found _ (substringb_some_line "PKZ766" eq_refl text E)) as N.
  destruct (pkz766_content false (split_lines text)); [contradiction|reflexivity].
Qed.

Lemma pkz766_content_inside (lines : list string) :
  exists after,
    lines = (pkz766_content true lines ++ after)%list /\
    Forall (fun line => substringb "PKZ766" line = true \/
                        (other_zone line = false /\ end_marker line = false))
      (pkz766_content true lines) /\
    match after with
    | [] => True
    | next :: _ =>
        substringb "PKZ766" next = false /\ (other_zone next || end_marker next) = true
    end.
Proof.
  induction lines as [|line rest (after & E & K & A)].
  - exists []. split; [reflexivity|]. split; [constructor|exact I].
  - cbn [pkz766_content]. destruct (substringb "PKZ766" line) eqn:Z.
    { exists after. split; [cbn [app]; rewrite <- E; reflexivity|].
      split; [constructor; [left; exact Z|exact K]|exact A]. }
    destruct (other_zone line) eqn:O.
    { exists (line :: rest). split; [reflexivity|]. split; [constructor|].
      split; [exact Z|rewrite O; reflexivity]. }
    destruct (end_marker line) eqn:M.
    { exists (line :: rest). split; [reflexivity|]. split; [constructor|].
      split; [exact Z|rewrite O, M; reflexivity]. }
    exists after. split; [cbn [app]; rewrite <- E; reflexivity|].
    split; [constructor; [right; split; assumption|exact K]|exact A].
Qed.

(** X20: What the loop collects is one run of the lines: it begins with the
    first line that mentions "PKZ766", holds no line that begins another
    zone or is a "$$" marker, and stops in front of the first such line,
    or at the end of the text. *)
Theorem pkz766_content_is_block (lines : list string) :
  exists before after,
    lines = (before ++ pkz766_content false lines ++ after)%list /\
    Forall (fun line => substringb "PKZ766" line = false) before /\
    Forall (fun line => substringb "PKZ766" line = true \/
                        (other_zone line = false /\ end_marker line = false))
      (pkz766_content false lines) /\
    match pkz766_content false lines with
    | [] => after = []
    | first :: _ => substringb "PKZ766" first = true
    end /\
    match after with
    | [] => True
    | next :: _ =>
        substringb "PKZ766" next = false /\ (other_zone next || end_marker next) = true
    end.
Proof.
  induction lines as [|line rest (before & after & E & B & K & F & A)].
  - exists [], []. repeat split; constructor.
  - cbn [pkz766_content]. destruct (substringb "PKZ766" line) eqn:Z.
    + destruct (pkz766_content_inside rest) as (after' & E' & K' & A').
      exists [], after'. cbn [app]. split; [rewrite <- E'; reflexivity|].
      split; [constructor|].
      split; [constructor; [left; exact Z|exact K']|].
      split; [exact Z|exact A'].
    + exists (line :: before), after. cbn [app]. split; [rewrite <- E; reflexivity|].
      split; [constructor; assumption|]. split; [exact K|]. split; [exact F|exact A].
Qed.

Lemma pkz766_content_run (lines : list string) :
  exists before after, lines = (before ++ pkz766_content false lines ++ after)%list.
Proof.
  induction lines as [|line rest (before & after & E)].
  - exists [], []. reflexivity.
  - cbn [pkz766_content]. destruct (substringb "PKZ766" line).
    + destruct (pkz766_content_inside rest) as (after' & E' & _).
      exists [], after'. cbn [app]. rewrite <- E'. reflexivity.
    + exists (line :: before), after. cbn [app]. rewrite <- E. reflexivity.
Qed.

(** X21: The [raw_text] of the zone is a run of whole lines of the text of the
    response: what is in front of it is empty or ends in a line feed, what
    follows it is empty or begins with one. *)
Theorem raw_text_is_whole_lines (status_code : Z) (text_content : string)
  (zones : pyval) :
  get_marine_forecast (Some (status_code, text_content)) = Some zones ->
  exists raw_text front back,
    zones = marine_data raw_text /\
    text_content = front ++ raw_text ++ back /\
    (front = EmptyString \/ exists f, front = f ++ String Json.newline EmptyString) /\
    (back = EmptyString \/ exists b, back = String Json.newline b).
Proof.
  unfold get_marine_forecast. intros H.
  destruct (status_code =? 200); [|discriminate H].
  destruct (substringb "PKZ766" text_content); [|discriminate H].
  destruct (pkz766_content_run (split_lines text_content)) as (before & after & E).
  destruct (pkz766_content false (split_lines text_content)) as [|first more];
    [discriminate H|].
  inversion H; subst zones. clear H.
  set (content := first :: more) in *.
  assert (Nc : content <> []) by discriminate.
  exists (join_lines content).
  exists (match before with
          | [] => EmptyString
          | _ :: _ => join_lines before ++ String Json.newline EmptyString
          end).
  exists (match after with
          | [] => EmptyString
          | _ :: _ => String Json.newline (join_lines after)
          end).
  split; [reflexivity|]. split.
  - rewrite <- (join_split text_content) at 1. rewrite E.
    destruct before as [|b0 before]; destruct after as [|a0 after].
    + rewrite app_nil_r. cbn [app String.append]. rewrite append_nil_r. reflexivity.
    + cbn [app String.append].
      rewrite (join_app content (a0 :: after)) by (assumption || discriminate).
      reflexivity.
    + rewrite app_nil_r, append_nil_r.
      rewrite (join_app (b0 :: before) content) by (assumption || discriminate).
      rewrite append_assoc. reflexivity.
    + rewrite (join_app (b0 :: before) (content ++ a0 :: after)) by
        (try discriminate; unfold content; discriminate).
      rewrite (join_app content (a0 :: after)) by (assumption || discriminate).
      rewrite append_assoc. reflexivity.
  - split.
    + destruct before; [left; reflexivity|right; eexists; reflexivity].
    + destruct after; [left; reflexivity|right; eexists; reflexivity].
Qed.

End MarineForecast.

Section MarineInstances.

Import Samples.

Lemma raw_text_is_whole_lines_witness :
  exists raw_text front back,
    marine_data
      (join_lines ["PKZ766-020100-"; "Pribilof Islands Nearshore Waters";
                   ".TODAY...NW wind 15 kt. Seas 6 ft."]) = marine_data raw_text /\
    text_product = front ++ raw_text ++ back /\
    (front = EmptyString \/ exists f, front = f ++ String Json.newline EmptyString) /\
    (back = EmptyString \/ exists b, back = String Json.newline b).
Proof.
  apply (raw_text_is_whole_lines 200 text_product).
  vm_compute. reflexivity.
Defined.

End MarineInstances.
